(** * Oracle database modules: a shallow embedding of the reconciliation engine

    The two Ansible modules [plugins/modules/oracle_db.py] and
    [plugins/modules/oracle_datapatch.py] are embedded here as Rocq functions.
    Every interaction with the outside (external commands, the sqlplus
    subprocess, the cx_Oracle session, the files probed on the host) is an
    [Event] appended to a trace; the answers come from a [World], indexed by a
    logical clock so that the same command may succeed once and fail later.
    [module.exit_json] and [module.fail_json] end the process and are the
    non-returning outcomes of the monad. *)

From Stdlib Require Import String Ascii List Bool Arith ZArith Lia.
Import ListNotations.
Open Scope list_scope.
Open Scope string_scope.

(** ** Python strings *)

Module Py.

(** [needle in hay] *)
Fixpoint contains (needle hay : string) : bool :=
  String.prefix needle hay
  || match hay with
     | EmptyString => false
     | String _ rest => contains needle rest
     end.

(** [s.startswith(p)] *)
Definition startswith (s p : string) : bool := String.prefix p s.

(** [s.split(sep)] for a one-character separator *)
Fixpoint split (sep : ascii) (s : string) : list string :=
  match s with
  | EmptyString => [EmptyString]
  | String c rest =>
      if Ascii.eqb c sep then EmptyString :: split sep rest
      else match split sep rest with
           | [] => [String c EmptyString]
           | w :: ws => String c w :: ws
           end
  end.

(** [s.rstrip(c)] for a one-character set *)
Fixpoint rstrip (c : ascii) (s : string) : string :=
  match s with
  | EmptyString => EmptyString
  | String a rest =>
      match rstrip c rest with
      | EmptyString => if Ascii.eqb a c then EmptyString else String a EmptyString
      | r => String a r
      end
  end.

(** [s[0:n]] *)
Definition slice_to (n : nat) (s : string) : string := String.substring 0 n s.

(** [sep.join(l)] *)
Definition join (sep : string) (l : list string) : string := String.concat sep l.

(** truth value of a string *)
Definition truthy (s : string) : bool := negb (String.eqb s "").

(** truth value of an optional string ([None] is false) *)
Definition truthy_opt (o : option string) : bool :=
  match o with None => false | Some s => truthy s end.

(** ['%s' % o] where [o] may be [None] *)
Definition str_opt (o : option string) : string :=
  match o with None => "None" | Some s => s end.

(** ['%s' % b] for a bool *)
Definition str_bool (b : bool) : string := if b then "True" else "False".

(** [a > b] on strings *)
Definition gt (a b : string) : bool := String.ltb b a.

Definition lower_ascii (c : ascii) : ascii :=
  let n := nat_of_ascii c in
  if ((65 <=? n) && (n <=? 90))%nat then ascii_of_nat (n + 32) else c.

(** [s.lower()], also SQL [lower(s)], on ASCII *)
Fixpoint lower (s : string) : string :=
  match s with
  | EmptyString => EmptyString
  | String c rest => String (lower_ascii c) (lower rest)
  end.

(** The characters the [re] module gives a meaning of their own. *)
Definition re_special (c : ascii) : bool :=
  existsb (Ascii.eqb c)
    ["."; "^"; "$"; "*"; "+"; "?"; "{"; "}"; "["; "]"; "\"; "|"; "("; ")"]%char.

Fixpoint re_literal (p : string) : bool :=
  match p with
  | EmptyString => true
  | String c rest => negb (re_special c) && re_literal rest
  end.

(** [re.search(pattern, s)] as a truth value, for the patterns the modules
    build from plain names: a literal text, or [^] followed by a literal
    text.  Any other pattern is outside the embedded fragment ([None]). *)
Definition re_search (pattern s : string) : option bool :=
  match pattern with
  | String "^"%char rest =>
      if re_literal rest then Some (String.prefix rest s) else None
  | _ => if re_literal pattern then Some (contains pattern s) else None
  end.

(** values a function of the modules may hand back: [True], [False], or
    falling off its end ([None]) *)
Inductive value := PyTrue | PyFalse | PyNone.

Definition is_true (v : value) : bool :=
  match v with PyTrue => true | _ => false end.

End Py.

(** Line feed, as it stands in the text of a file and in the scripts. *)
Definition nl : string := String (ascii_of_nat 10) EmptyString.

(** ** Events, outcomes and the world *)

Inductive Event :=
| RunCommand (command : string)
    (** [module.run_command(command)] *)
| Popen (argv : list string) (oracle_sid : string) (stdin : string)
    (** [subprocess.Popen(argv).communicate(stdin)] under [ORACLE_SID] *)
| Sleep (seconds : nat)
    (** [time.sleep(seconds)] *)
| Connect (descriptor : string)
    (** [cx_Oracle.connect(..., mode=SYSDBA)] *)
| Fetchall (sql : string)
    (** [cursor.execute(sql); cursor.fetchall()] *)
| Execute (sql : string).
    (** [cursor.execute(sql)] *)

Definition Trace := list Event.

Inductive Outcome (A : Type) :=
| Ret (a : A)
    (** the call returns [a] *)
| ExitJson (msg : string) (changed : bool)
    (** [module.exit_json(msg=msg, changed=changed)] *)
| FailJson (msg : string)
    (** [module.fail_json(msg=msg, ...)] *)
| Raise (exc : string)
    (** an exception nothing catches *)
| Unmodelled (why : string).
    (** the input leaves the embedded fragment of a library *)

Arguments Ret {A} a.
Arguments ExitJson {A} msg changed.
Arguments FailJson {A} msg.
Arguments Raise {A} exc.
Arguments Unmodelled {A} why.

(** A result set: rows of cells. *)
Definition Rows := list (list string).

Record World := {
  (** [(rc, stdout, stderr)] of a command *)
  run_command : nat -> string -> Z * string * string;
  (** [(returncode, stdout, stderr)] of a subprocess fed [stdin], the two
      streams as ['%s'] renders them *)
  popen : nat -> list string -> string -> string -> Z * string * string;
  (** [None] when the session opens, else the message of the
      [cx_Oracle.DatabaseError] *)
  connect : nat -> string -> option string;
  (** the rows, or the message of the [cx_Oracle.DatabaseError] *)
  fetchall : nat -> string -> Rows + string;
  (** [None] when the statement runs, else the message of the error *)
  execute : nat -> string -> option string;
  (** the lines of [/etc/oratab], each with its line feed; [None] when the
      file does not exist *)
  oratab : option (list string);
  (** [os.path.exists('/etc/oracle/olr.loc')] *)
  olr_loc_exists : bool;
  (** [os.environ.get('ORACLE_HOME')] *)
  environ_oracle_home : option string;
  (** whether [import cx_Oracle] worked *)
  cx_oracle_exists : bool;
  (** [os.path.exists] on a response file *)
  path_exists : string -> bool;
  (** [cx_Oracle.makedsn(host=os.uname()[1], port=port,
      service_name=service_name)] *)
  makedsn : string -> string -> string
}.

(** A computation reads the world and the clock on entry, and yields the
    events it caused together with its outcome. *)
Definition M (A : Type) : Type := World -> nat -> Trace * Outcome A.

Definition ret {A} (a : A) : M A := fun _ _ => ([], Ret a).

Definition bind {A B} (m : M A) (k : A -> M B) : M B :=
  fun w t =>
    match m w t with
    | (tr, Ret a) =>
        let (tr', o) := k a w (t + length tr) in ((tr ++ tr')%list, o)
    | (tr, ExitJson msg c) => (tr, ExitJson msg c)
    | (tr, FailJson msg) => (tr, FailJson msg)
    | (tr, Raise e) => (tr, Raise e)
    | (tr, Unmodelled y) => (tr, Unmodelled y)
    end.

Declare Scope py_scope.
Delimit Scope py_scope with py.
Notation "x <- m ;; k" := (bind m (fun x => k))
  (at level 100, m at next level, right associativity) : py_scope.
Notation "m ;; k" := (bind m (fun _ => k))
  (at level 100, right associativity) : py_scope.
Open Scope py_scope.

Definition exit_json {A} (msg : string) (changed : bool) : M A :=
  fun _ _ => ([], ExitJson msg changed).

Definition fail_json {A} (msg : string) : M A :=
  fun _ _ => ([], FailJson msg).

Definition raise {A} (exc : string) : M A :=
  fun _ _ => ([], Raise exc).

Definition unmodelled {A} (why : string) : M A :=
  fun _ _ => ([], Unmodelled why).

(** One interaction: log the event, read the answer at the current clock. *)
Definition ask {A} (e : Event) (answer : World -> nat -> A) : M A :=
  fun w t => ([e], Ret (answer w t)).

Definition read {A} (f : World -> A) : M A :=
  fun w _ => ([], Ret (f w)).

Definition trace_of {A} (r : Trace * Outcome A) : Trace := fst r.
Definition outcome_of {A} (r : Trace * Outcome A) : Outcome A := snd r.

(** [l[i]] *)
Definition index {A B} (l : list A) (i : nat) (k : A -> M B) : M B :=
  match nth_error l i with
  | Some a => k a
  | None => raise "IndexError"
  end.

(** ** [plugins/modules/oracle_db.py] *)

Module OracleDb.

(** The module's global variables, set once by [main]. *)
Record Globals := {
  gimanaged : bool;
  major_version : string;
  user : string;
  password : option string;
  service_name : string;
  port : string;
  newdb : bool;
  output : string;
  verboselist : list string
}.

Definition set_newdb (g : Globals) (b : bool) (v : list string) : Globals :=
  {| gimanaged := gimanaged g; major_version := major_version g;
     user := user g; password := password g;
     service_name := service_name g; port := port g;
     newdb := b; output := output g; verboselist := v |}.

Definition error_msg (stdout stderr command : string) : string :=
  "Error - STDOUT: " ++ stdout ++ ", STDERR: " ++ stderr
    ++ ", COMMAND: " ++ command.

(** [get_version] *)
Definition get_version (oracle_home : string) : M string :=
  let command := oracle_home ++ "/bin/sqlplus -V" in
  r <- ask (RunCommand command) (fun w t => run_command w t command) ;;
  let '(rc, stdout, stderr) := r in
  if negb (rc =? 0)%Z then fail_json (error_msg stdout stderr command)
  else index (Py.split " " stdout) 2 (fun v => ret (Py.slice_to 4 v)).

(** [a or b] on two [re.search] calls: the second is only run when the
    first finds nothing *)
Definition re_or (a : option bool) (b : option bool) : option bool :=
  match a with
  | Some true => Some true
  | Some false => b
  | None => None
  end.

(** the first loop of the standalone branch of [check_db_exists]: the
    lines of the oratab that are kept *)
Fixpoint scan_oratab (db_name sid : string) (lines : list string)
  : option (list string) :=
  match lines with
  | [] => Some []
  | line :: rest =>
      if Py.startswith line "#" || Py.startswith line " "
      then scan_oratab db_name sid rest
      else
        match re_or (Py.re_search (db_name ++ ":") line)
                    (Py.re_search (sid ++ ":") line) with
        | None => None
        | Some hit =>
            match scan_oratab db_name sid rest with
            | None => None
            | Some kept => Some (if hit then line :: kept else kept)
            end
        end
  end.

Definition different_home_msg (db_name home : string) : string :=
  "Database " ++ db_name ++ " already exists in a different ORACLE_HOME ("
    ++ home ++ ")".

(** one line of [existingdbs]: the home it names differs (fail), is the
    requested one (return [True]), or the line is passed over *)
Definition judge_home (oracle_home db_name dbs : string)
           (next : M Py.value) : M Py.value :=
  index (Py.split ":" dbs) 1 (fun home =>
    if negb (String.eqb home (Py.rstrip "/" oracle_home))
    then fail_json (different_home_msg db_name home)
    else if String.eqb home (Py.rstrip "/" oracle_home)
    then ret Py.PyTrue
    else next).

(** the second loop of the standalone branch of [check_db_exists] *)
Fixpoint judge_existing (oracle_home db_name sid : string)
         (existingdbs : list string) : M Py.value :=
  match existingdbs with
  | [] => ret Py.PyNone
  | dbs :: rest =>
      let next := judge_existing oracle_home db_name sid rest in
      if negb (String.eqb sid "") then
        if Py.contains (db_name ++ ":") dbs || Py.contains (sid ++ ":") dbs
        then judge_home oracle_home db_name dbs next
        else next
      else
        if Py.contains (db_name ++ ":") dbs
        then judge_home oracle_home db_name dbs next
        else next
  end.

(** [check_db_exists] *)
Definition check_db_exists (g : Globals) (oracle_home db_name : string)
           (sid db_unique_name : option string) : M Py.value :=
  let sid := match sid with None => "" | Some s => s end in
  if gimanaged g then
    let checkdb := match db_unique_name with
                   | Some u => u
                   | None => db_name
                   end in
    let command :=
      oracle_home ++ "/bin/srvctl config database -d " ++ checkdb ++ " " in
    r <- ask (RunCommand command) (fun w t => run_command w t command) ;;
    let '(rc, stdout, stderr) := r in
    if negb (rc =? 0)%Z then
      if Py.contains "PRCD-1229" stdout then
        fail_json ("Database " ++ db_name
                     ++ " already exists in a different home. Stdout -> "
                     ++ stdout)
      else if Py.contains db_name stdout then ret Py.PyFalse
      else ret Py.PyFalse
    else if Py.contains ("Database name: " ++ db_name) stdout
    then ret Py.PyTrue
    else ret Py.PyTrue
  else
    file <- read oratab ;;
    match scan_oratab db_name sid
                      (match file with Some ls => ls | None => [] end) with
    | None => unmodelled "re.search on a name with special characters"
    | Some existingdbs =>
        match existingdbs with
        | [] => ret Py.PyFalse
        | _ => judge_existing oracle_home db_name sid existingdbs
        end
    end.

(** *** Creation *)

(** the arguments of [create_db] that only shape the command line *)
Record CreateParams := {
  sys_password : option string;
  system_password : option string;
  dbsnmp_password : option string;
  responsefile : option string;
  template : string;
  cdb : bool;
  local_undo : bool;
  datafile_dest : option string;
  recoveryfile_dest : option string;
  storage_type : option string;
  dbconfig_type : option string;
  racone_service : option string;
  characterset : option string;
  memory_percentage : option string;
  memory_totalmb : option string;
  nodelist : option (list string);
  db_type : option string;
  amm : option bool;
  initparams : option (list string);
  customscripts : option (list string)
}.

(** [command += pre % v] when [v is not None] *)
Definition opt_arg (pre : string) (v : option string) (post : string) : string :=
  match v with Some x => pre ++ x ++ post | None => "" end.

Definition opt_eqb (o : option string) (s : string) : bool :=
  match o with Some x => String.eqb x s | None => false end.

(** the command line [create_db] builds when no response file is given,
    and the [initparam] and [paramslist] it leaves *)
Definition create_db_options (g : Globals) (c : CreateParams)
           (db_name : string) (sid db_unique_name : option string)
  : string * string * string :=
  let command := " -gdbName " ++ db_name in
  let command := command ++ opt_arg " -sid " sid "" in
  let command := command ++ opt_arg " -sysPassword " (sys_password c) "" in
  let command :=
    command ++ match system_password c with
               | Some pw => " -systemPassword " ++ pw
               | None => " -systemPassword " ++ Py.str_opt (sys_password c)
               end in
  let command :=
    command ++ match dbsnmp_password c with
               | Some pw => " -dbsnmpPassword " ++ pw
               | None => " -dbsnmpPassword " ++ Py.str_opt (sys_password c)
               end in
  let command :=
    command ++ (if Py.truthy (template c)
                then " -templateName " ++ template c else "") in
  let command :=
    command ++ (if Py.gt (major_version g) "11.2" then
                  if cdb c then
                    " -createAsContainerDatabase true "
                      ++ (if local_undo c
                          then " -useLocalUndoForPDBs true"
                          else " -useLocalUndoForPDBs false")
                  else " -createAsContainerDatabase false "
                else "") in
  let command := command ++ opt_arg " -datafileDestination " (datafile_dest c) " " in
  let command := command ++ opt_arg " -recoveryAreaDestination " (recoveryfile_dest c) " " in
  let command := command ++ opt_arg " -storageType " (storage_type c) " " in
  let dbconfig :=
    match dbconfig_type c with
    | Some t => Some (if String.eqb t "SI" then "SINGLE" else t)
    | None => None
    end in
  let command :=
    command ++ match dbconfig with
               | Some t =>
                   if String.eqb (major_version g) "12.2"
                   then " -databaseConfigType " ++ t ++ " "
                   else if String.eqb (major_version g) "12.1"
                   then " -databaseConfType " ++ t ++ " "
                   else ""
               | None => ""
               end in
  let command :=
    command ++ (if opt_eqb dbconfig "RACONENODE" then
                  " -RACOneNodeServiceName "
                    ++ match racone_service c with
                       | Some r => r
                       | None => db_name ++ "_ronserv"
                       end ++ " "
                else "") in
  let command := command ++ opt_arg " -characterSet " (characterset c) " " in
  let command := command ++ opt_arg " -memoryPercentage " (memory_percentage c) " " in
  let command := command ++ opt_arg " -totalMemory " (memory_totalmb c) " " in
  let command :=
    command ++ (if opt_eqb dbconfig "RAC" then
                  match nodelist c with
                  | Some l => " -nodelist " ++ Py.join "," l ++ " "
                  | None => ""
                  end
                else "") in
  let command := command ++ opt_arg " -databaseType " (db_type c) " " in
  let command :=
    command ++ match amm c with
               | Some a =>
                   if String.eqb (major_version g) "12.2" then
                     if a then " -memoryMgmtType AUTO "
                     else " -memoryMgmtType AUTO_SGA "
                   else if String.eqb (major_version g) "12.1" then
                     " -automaticMemoryManagement "
                       ++ Py.lower (Py.str_bool a) ++ " "
                   else if String.eqb (major_version g) "11.2" then
                     if a then " -automaticMemoryManagement " else ""
                   else ""
               | None => ""
               end in
  let command :=
    command ++ match customscripts c with
               | Some l => " -customScripts " ++ Py.join "," l ++ " "
               | None => ""
               end in
  let initparam :=
    match db_unique_name with
    | Some u => "db_name=" ++ db_name ++ ",db_unique_name=" ++ u ++ ","
    | None => ""
    end in
  match initparams c with
  | Some l => (command, initparam ++ " " ++ Py.join "," l, Py.join "," l)
  | None => (command, initparam, "")
  end.

(** [create_db]; it hands back the [verboselist] it leaves, and its return
    value is true whenever it returns *)
Definition create_db (g : Globals) (oracle_home : string) (c : CreateParams)
           (db_name : string) (sid db_unique_name : option string)
  : M (list string) :=
  let command := oracle_home ++ "/bin/dbca -createDatabase -silent " in
  built <-
    match responsefile c with
    | Some rf =>
        there <- read (fun w => path_exists w rf) ;;
        if there : bool then
          let command := command ++ " -responseFile " ++ rf ++ " " in
          let initparam :=
            match db_unique_name with
            | Some u => "db_name=" ++ db_name ++ ",db_unique_name=" ++ u ++ ","
            | None => ""
            end in
          match initparams c with
          | Some l => ret (command, initparam ++ Py.join "," l, Py.join "," l)
          | None => ret (command, initparam, "")
          end
        else fail_json ("Responsefile " ++ rf ++ " doesn't exist")
    | None =>
        let '(options, initparam, paramslist) :=
          create_db_options g c db_name sid db_unique_name in
        ret (command ++ options, initparam, paramslist)
    end ;;
  let '(command, initparam, paramslist) := built in
  let command :=
    if negb (String.eqb ("-initParams " ++ initparam) "-initParams ")
       || negb (String.eqb paramslist "")
    then command ++ "-initParams " ++ initparam
    else command in
  r <- ask (RunCommand command) (fun w t => run_command w t command) ;;
  let '(rc, stdout, stderr) := r in
  if negb (rc =? 0)%Z then fail_json (error_msg stdout stderr command)
  else if String.eqb (output g) "short" then ret (verboselist g)
  else ret (List.app (verboselist g)
                     ["STDOUT: " ++ stdout ++ ",  COMMAND: " ++ command]).

(** *** The administrative session *)

(** [getconn].  The name [cx_Oracle] is bound only where the import at the
    head of the file worked ([cx_oracle_exists]); elsewhere its first use
    raises [NameError], which the handler of the [try], naming
    [cx_Oracle.DatabaseError] itself, cannot catch.  The branch that calls
    [fail_json] does so before the name is looked up. *)
Definition getconn (g : Globals) : M unit :=
  let wallet_connect := "/@" ++ service_name g in
  if negb (Py.truthy (user g)) && negb (Py.truthy_opt (password g)) then
    cx <- read cx_oracle_exists ;;
    if negb cx then raise "NameError"
    else
      r <- ask (Connect wallet_connect)
               (fun w t => connect w t wallet_connect) ;;
      match r with
      | None => ret tt
      | Some err =>
          fail_json ("Could not connect to database - " ++ err
                       ++ ", connect descriptor: " ++ wallet_connect)
      end
  else if Py.truthy (user g) && Py.truthy_opt (password g) then
    cx <- read cx_oracle_exists ;;
    if negb cx then raise "NameError"
    else
      dsn <- read (fun w => makedsn w (port g) (service_name g)) ;;
      r <- ask (Connect dsn) (fun w t => connect w t dsn) ;;
      match r with
      | None => ret tt
      | Some err =>
          fail_json ("Could not connect to database - " ++ err
                       ++ ", connect descriptor: " ++ dsn)
      end
  else if negb (Py.truthy (user g)) || negb (Py.truthy_opt (password g)) then
    fail_json "Missing username or password for cx_Oracle"
  else raise "UnboundLocalError".

(** [execute_sql_get] *)
Definition execute_sql_get (sql : string) : M Rows :=
  r <- ask (Fetchall sql) (fun w t => fetchall w t sql) ;;
  match r with
  | inl rows => ret rows
  | inr err =>
      fail_json ("Something went wrong while executing sql_get - " ++ err
                   ++ " sql: " ++ sql)
  end.

(** [execute_sql] *)
Definition execute_sql (sql : string) : M bool :=
  r <- ask (Execute sql) (fun w t => execute w t sql) ;;
  match r with
  | None => ret true
  | Some err =>
      fail_json ("Something went wrong while executing sql - " ++ err
                   ++ " sql: " ++ sql)
  end.

(** [rows[i][j]] *)
Definition cell {B} (rows : Rows) (i j : nat) (k : string -> M B) : M B :=
  index rows i (fun row => index row j k).

(** *** Stopping and starting *)

Definition sqlplus_script (statement : string) : string :=
  nl ++ "        connect / as sysdba"
     ++ nl ++ "        " ++ statement
     ++ nl ++ "        exit"
     ++ nl ++ "        ".

Definition shutdown_sql : string := sqlplus_script "shutdown immediate;".
Definition startup_sql : string := sqlplus_script "startup;".
Definition startup_mount_sql : string := sqlplus_script "startup mount;".

Definition oracle_sid (db_name : string) (sid : option string) : string :=
  match sid with Some s => s | None => db_name end.

Definition srvctl_name (db_name : string) (db_unique_name : option string)
  : string :=
  match db_unique_name with Some u => u | None => db_name end.

(** [module.run_command(command)], fatal on a non-zero return code *)
Definition run_or_fail (command : string) : M bool :=
  r <- ask (RunCommand command) (fun w t => run_command w t command) ;;
  let '(rc, stdout, stderr) := r in
  if negb (rc =? 0)%Z then fail_json (error_msg stdout stderr command)
  else ret true.

(** [sqlplus /nolog] fed a script under [ORACLE_SID], fatal on a non-zero
    return code *)
Definition sqlplus_or_fail (oracle_home env_sid script : string) : M bool :=
  let argv := [oracle_home ++ "/bin/sqlplus"; "/nolog"] in
  r <- ask (Popen argv env_sid script)
           (fun w t => popen w t argv env_sid script) ;;
  let '(rc, stdout, stderr) := r in
  if negb (rc =? 0)%Z then fail_json (error_msg stdout stderr script)
  else ret true.

(** [stop_db] *)
Definition stop_db (g : Globals) (oracle_home db_name : string)
           (db_unique_name sid : option string) : M bool :=
  if gimanaged g then
    let db_name := srvctl_name db_name db_unique_name in
    run_or_fail (oracle_home ++ "/bin/srvctl stop database -d " ++ db_name
                   ++ " -o immediate")
  else
    sqlplus_or_fail oracle_home (oracle_sid db_name sid) shutdown_sql.

(** [start_db] *)
Definition start_db (g : Globals) (oracle_home db_name : string)
           (db_unique_name sid : option string) : M bool :=
  if gimanaged g then
    let db_name := srvctl_name db_name db_unique_name in
    run_or_fail (oracle_home ++ "/bin/srvctl start database -d " ++ db_name)
  else
    sqlplus_or_fail oracle_home (oracle_sid db_name sid) startup_sql.

(** [start_instance] *)
Definition start_instance (g : Globals) (oracle_home db_name : string)
           (db_unique_name sid open_mode : option string)
           (instance_name : string) (israc : bool) : M bool :=
  if gimanaged g then
    let db_name := srvctl_name db_name db_unique_name in
    let command :=
      if israc
      then oracle_home ++ "/bin/srvctl start instance  -d " ++ db_name
             ++ " -i " ++ instance_name
      else oracle_home ++ "/bin/srvctl start database -d " ++ db_name ++ " "
    in
    let command := command ++ opt_arg " -o " open_mode " " in
    run_or_fail command
  else
    sqlplus_or_fail oracle_home (oracle_sid db_name sid) startup_mount_sql.

(** *** Removal *)

Definition israc_sql : string :=
  "select parallel,instance_name,host_name from v$instance".

(** the name [remove_db] hands to [dbca -deleteDatabase -sourceDB];
    [None] is an [IndexError] on [israc_[0][0]] *)
Definition remove_db_target (g : Globals) (db_name : string)
           (sid db_unique_name : option string) (israc_ : Rows)
  : option string :=
  if gimanaged g then
    match db_unique_name with
    | Some u => Some u
    | None =>
        match sid with
        | Some s =>
            match israc_ with
            | (parallel :: _) :: _ =>
                if String.eqb parallel "YES" then Some db_name
                else if String.eqb parallel "NO" then Some s
                else Some db_name
            | _ => None
            end
        | None => Some db_name
        end
    end
  else
    match sid with
    | Some s => Some s
    | None => Some db_name
    end.

Definition remove_command (oracle_home target : string)
           (sys_password : option string) : string :=
  oracle_home ++ "/bin/dbca -deleteDatabase -silent -sourceDB " ++ target
    ++ " -sysDBAUserName sys -sysDBAPassword " ++ Py.str_opt sys_password.

(** [remove_db] *)
Definition remove_db (g : Globals) (oracle_home db_name : string)
           (sid db_unique_name sys_password : option string) : M bool :=
  getconn g ;;
  israc_ <- execute_sql_get israc_sql ;;
  match remove_db_target g db_name sid db_unique_name israc_ with
  | None => raise "IndexError"
  | Some target =>
  let command := remove_command oracle_home target sys_password in
  r <- ask (RunCommand command) (fun w t => run_command w t command) ;;
  let '(rc, stdout, stderr) := r in
  if negb (rc =? 0)%Z then
    fail_json ("Removal of database " ++ db_name ++ " failed: " ++ stdout)
  else if String.eqb (output g) "short" then ret true
  else exit_json ("STDOUT: " ++ stdout ++ ",  COMMAND: " ++ command) true
  end.

(** *** Reconciliation of the durable properties *)

Record Declared := {
  archivelog : bool;
  force_logging : bool;
  flashback : bool;
  default_tablespace_type : string;
  default_tablespace : option string;
  default_temp_tablespace : option string
}.

(** what [ensure_db_state] holds of the live instance once its three
    queries are answered *)
Record Observed := {
  def_tbs_type : list string;
  def_tbs : list string;
  def_temp_tbs : list string;
  instance_name : string;
  israc : bool;
  log_check_ : Rows
}.

Definition propsql : string :=
  "select lower(property_value) from database_properties"
    ++ " where property_name in ('DEFAULT_TBS_TYPE','DEFAULT_PERMANENT_TABLESPACE','DEFAULT_TEMP_TABLESPACE')"
    ++ " order by 1".

Definition log_check_sql : string :=
  "select log_mode,force_logging, flashback_on from v$database".

(** lines 521-540 of [ensure_db_state]: the session and the three reads *)
Definition observe (g : Globals) : M Observed :=
  getconn g ;;
  props <- execute_sql_get propsql ;;
  match props with
  | [r1; r2; r3] =>
      israc_ <- execute_sql_get israc_sql ;;
      cell israc_ 0 1 (fun name =>
        log_check <- execute_sql_get log_check_sql ;;
        cell israc_ 0 0 (fun parallel =>
          ret {| def_tbs_type := r1; def_tbs := r2; def_temp_tbs := r3;
                 instance_name := name;
                 israc := negb (String.eqb parallel "NO");
                 log_check_ := log_check |}))
  | _ => raise "ValueError"
  end.

(** the two lists of statements, and which of them goes first *)
Record ActionPlan := {
  change_restart_sql : list string;
  change_db_sql : list string;
  immediate_first : bool
}.

Definition alterdb_sql : string := "alter database".

Definition archcomp (d : Declared) : string :=
  if archivelog d then "ARCHIVELOG" else "NOARCHIVELOG".
Definition archsql (d : Declared) : string :=
  if archivelog d then alterdb_sql ++ " archivelog"
  else alterdb_sql ++ " noarchivelog".
Definition flcomp (d : Declared) : string :=
  if force_logging d then "YES" else "NO".
Definition flsql (d : Declared) : string :=
  if force_logging d then alterdb_sql ++ " force logging"
  else alterdb_sql ++ " no force logging".
Definition fbcomp (d : Declared) : string :=
  if flashback d then "YES" else "NO".
Definition fbsql (d : Declared) : string :=
  if flashback d then alterdb_sql ++ " flashback on"
  else alterdb_sql ++ " flashback off".

(** [l.append(x)] when [b] *)
Definition append_if (b : bool) (x : string) (l : list string) : list string :=
  if b then List.app l [x] else l.

(** lines 542-586 of [ensure_db_state]; [None] is an [IndexError] *)
Definition plan (d : Declared) (o : Observed) : option ActionPlan :=
  match nth_error (def_tbs_type o) 0 with
  | None => None
  | Some live_type =>
  let change_db_sql :=
    append_if (negb (String.eqb live_type (default_tablespace_type d)))
              ("alter database set default " ++ default_tablespace_type d
                 ++ " tablespace ") [] in
  match
    match default_tablespace d with
    | None => Some change_db_sql
    | Some t =>
        match nth_error (def_tbs o) 0 with
        | None => None
        | Some live =>
            Some (append_if (negb (String.eqb live t))
                            ("alter database default tablespace " ++ t)
                            change_db_sql)
        end
    end
  with
  | None => None
  | Some change_db_sql =>
  match
    match default_temp_tablespace d with
    | None => Some change_db_sql
    | Some t =>
        match nth_error (def_temp_tbs o) 0 with
        | None => None
        | Some live =>
            Some (append_if (negb (String.eqb live t))
                            ("alter database default temporary tablespace " ++ t)
                            change_db_sql)
        end
    end
  with
  | None => None
  | Some change_db_sql =>
  match log_check_ o with
  | (log_mode :: force_logging_ :: flashback_on :: _) :: _ =>
      let change_restart_sql :=
        append_if (negb (String.eqb log_mode (archcomp d))) (archsql d) [] in
      let change_db_sql :=
        append_if (negb (String.eqb force_logging_ (flcomp d))) (flsql d)
                  change_db_sql in
      let change_db_sql :=
        append_if (negb (String.eqb flashback_on (fbcomp d))) (fbsql d)
                  change_db_sql in
      Some {| change_restart_sql := change_restart_sql;
              change_db_sql := change_db_sql;
              immediate_first :=
                String.eqb log_mode "ARCHIVELOG"
                && String.eqb flashback_on "YES"
                && negb (archivelog d) && negb (flashback d) |}
  | _ => None
  end end end end.

(** the loop of [apply_restart_changes] *)
Fixpoint restart_loop (g : Globals) (oracle_home db_name : string)
         (db_unique_name sid : option string) (sqls : list string) : M unit :=
  match sqls with
  | [] => ret tt
  | sql :: rest =>
      execute_sql sql ;;
      stopped <- stop_db g oracle_home db_name db_unique_name sid ;;
      (if stopped : bool then
         start_db g oracle_home db_name db_unique_name sid ;; ret tt
       else ret tt) ;;
      restart_loop g oracle_home db_name db_unique_name sid rest
  end.

(** [apply_restart_changes]; the message it composes at the end is never
    used and is left out *)
Definition apply_restart_changes (g : Globals) (oracle_home db_name : string)
           (db_unique_name sid : option string) (instance_name : string)
           (israc : bool) (change_restart_sql : list string) : M unit :=
  stopped <- stop_db g oracle_home db_name db_unique_name sid ;;
  if stopped : bool then
    mounted <- start_instance g oracle_home db_name db_unique_name sid
                              (Some "mount") instance_name israc ;;
    if mounted : bool then
      ask (Sleep 10) (fun _ _ => tt) ;;
      getconn g ;;
      restart_loop g oracle_home db_name db_unique_name sid change_restart_sql
    else ret tt
  else ret tt.

Fixpoint execute_all (sqls : list string) : M unit :=
  match sqls with
  | [] => ret tt
  | sql :: rest => execute_sql sql ;; execute_all rest
  end.

(** [apply_norestart_changes] *)
Definition apply_norestart_changes (g : Globals) (change_db_sql : list string)
  : M unit :=
  getconn g ;;
  execute_all change_db_sql.

Definition state_msg (d : Declared) : string :=
  "Archivelog: " ++ Py.str_bool (archivelog d)
    ++ ", Force Logging: " ++ Py.str_bool (force_logging d)
    ++ ", Flashback: " ++ Py.str_bool (flashback d).

(** lines 584-616 of [ensure_db_state]: carrying the plan out *)
Definition execute_plan (g : Globals) (oracle_home db_name : string)
           (db_unique_name sid : option string) (d : Declared)
           (o : Observed) (p : ActionPlan) : M unit :=
  let restart :=
    if (0 <? length (change_restart_sql p))%nat
    then apply_restart_changes g oracle_home db_name db_unique_name sid
                               (instance_name o) (israc o)
                               (change_restart_sql p)
    else ret tt in
  let norestart :=
    if (0 <? length (change_db_sql p))%nat
    then apply_norestart_changes g (change_db_sql p)
    else ret tt in
  if (0 <? length (change_db_sql p))%nat
     || (0 <? length (change_restart_sql p))%nat
  then
    (if immediate_first p
     then norestart ;; restart
     else restart ;; norestart) ;;
    exit_json ("Database " ++ db_name
                 ++ " has been put in the intended state - " ++ state_msg d)
              true
  else if newdb g then
    exit_json ("Database " ++ db_name ++ " successfully created created ("
                 ++ archcomp d ++ ") "
                 ++ (if String.eqb (output g) "verbose"
                     then Py.join " ," (verboselist g) else ""))
              true
  else
    exit_json (" Database " ++ db_name
                 ++ " already exists and is in the intended state - "
                 ++ state_msg d)
              false.

(** [ensure_db_state] *)
Definition ensure_db_state (g : Globals) (oracle_home db_name : string)
           (db_unique_name sid : option string) (d : Declared) : M unit :=
  o <- observe g ;;
  match plan d o with
  | None => raise "IndexError"
  | Some p => execute_plan g oracle_home db_name db_unique_name sid d o p
  end.

(** *** The driver *)

Record Params := {
  oracle_home : option string;
  db_name : string;
  sid : option string;
  db_unique_name : option string;
  create : CreateParams;
  declared : Declared;
  param_output : string;
  state : string;
  param_port : string
}.

(** lines 892-922 of [main]: the installation path, the control mode, the
    connection details and the version.  The assignment to
    [os.environ['ORACLE_HOME']] only reaches the commands run later, whose
    answers the world gives. *)
Definition setup (p : Params) : M (Globals * string) :=
  home <-
    match oracle_home p with
    | Some h => ret h
    | None =>
        env <- read environ_oracle_home ;;
        match env with
        | Some h => ret h
        | None =>
            fail_json
              "ORACLE_HOME variable not set. Please set it and re-run the command"
        end
    end ;;
  olr <- read olr_loc_exists ;;
  cx <- read cx_oracle_exists ;;
  if negb olr && negb cx then
    fail_json
      ("The cx_Oracle module is required. 'pip install cx_Oracle' should do the trick."
         ++ " If cx_Oracle is installed, make sure ORACLE_HOME & LD_LIBRARY_PATH is set")
  else
    version <- get_version home ;;
    ret ({| gimanaged := olr;
            major_version := version;
            user := "sys";
            password := sys_password (create p);
            service_name := srvctl_name (db_name p) (db_unique_name p);
            port := param_port p;
            newdb := false;
            output := param_output p;
            verboselist := [] |}, home).

(** lines 924-963 of [main]: what is done for each target state *)
Definition dispatch (p : Params) (g : Globals) (home : string) : M unit :=
  (if String.eqb (state p) "started" then
     let msg := "oracle_home: " ++ home ++ " db_name: " ++ db_name p
                  ++ " sid: " ++ Py.str_opt (sid p)
                  ++ " db_unique_name: " ++ Py.str_opt (db_unique_name p) in
     found <- check_db_exists g home (db_name p) (sid p) (db_unique_name p) ;;
     if negb (Py.is_true found) then fail_json ("Database not found. " ++ msg)
     else
       started <- start_db g home (db_name p) (db_unique_name p) (sid p) ;;
       if started : bool then exit_json "Database started." true
       else fail_json ("Startup failed. " ++ msg)
   else if String.eqb (state p) "present" then
     found <- check_db_exists g home (db_name p) (sid p) (db_unique_name p) ;;
     if negb (Py.is_true found) then
       verbose <- create_db g home (create p) (db_name p) (sid p)
                            (db_unique_name p) ;;
       ensure_db_state (set_newdb g true verbose) home (db_name p)
                       (db_unique_name p) (sid p) (declared p)
     else
       ensure_db_state g home (db_name p) (db_unique_name p) (sid p)
                       (declared p)
   else if String.eqb (state p) "absent" then
     found <- check_db_exists g home (db_name p) (sid p) (db_unique_name p) ;;
     if Py.is_true found then
       removed <- remove_db g home (db_name p) (sid p) (db_unique_name p)
                            (sys_password (create p)) ;;
       if removed : bool then
         exit_json ("Successfully removed database " ++ db_name p) true
       else fail_json "['']"
     else exit_json ("Database " ++ db_name p ++ " doesn't exist") false
   else ret tt) ;;
  exit_json "Unhandled exit" false.

(** [main] *)
Definition main (p : Params) : M unit :=
  gh <- setup p ;;
  dispatch p (fst gh) (snd gh).

End OracleDb.

(** ** [plugins/modules/oracle_datapatch.py]: the locator *)

Module OracleDatapatch.

(** the first loop of the standalone branch of [check_db_exists] *)
Fixpoint scan_oratab (db_name : string) (sid : option string)
         (lines : list string) : option (list string) :=
  match lines with
  | [] => Some []
  | line :: rest =>
      if Py.startswith line "#" || Py.startswith line " "
      then scan_oratab db_name sid rest
      else
        match OracleDb.re_or
                (Py.re_search ("^" ++ db_name ++ ":") line)
                (match sid with
                 | None => Some false
                 | Some s => Py.re_search ("^" ++ s ++ ":") line
                 end) with
        | None => None
        | Some hit =>
            match scan_oratab db_name sid rest with
            | None => None
            | Some kept => Some (if hit then line :: kept else kept)
            end
        end
  end.

(** [sid != ''] where [sid] may be [None] *)
Definition sid_not_empty (sid : option string) : bool :=
  match sid with None => true | Some s => negb (String.eqb s "") end.

(** the second loop of the standalone branch of [check_db_exists] *)
Fixpoint judge_existing (oracle_home db_name : string) (sid : option string)
         (existingdbs : list string) : M Py.value :=
  match existingdbs with
  | [] => ret Py.PyNone
  | dbs :: rest =>
      let next := judge_existing oracle_home db_name sid rest in
      if sid_not_empty sid then
        if Py.contains (db_name ++ ":") dbs
           || Py.contains (Py.str_opt sid ++ ":") dbs
        then
          index (Py.split ":" dbs) 1 (fun home =>
            if negb (String.eqb home (Py.rstrip "/" oracle_home))
            then fail_json (OracleDb.different_home_msg db_name home)
            else if String.eqb home (Py.rstrip "/" oracle_home)
            then ret Py.PyTrue
            else next)
        else
          if Py.contains (db_name ++ ":") dbs then
            index (Py.split ":" dbs) 1 (fun home =>
              if negb (String.eqb home (Py.rstrip "/" oracle_home))
              then fail_json (OracleDb.different_home_msg db_name home)
              else next)
          else
            index (Py.split ":" dbs) 1 (fun home =>
              if String.eqb home (Py.rstrip "/" oracle_home)
              then ret Py.PyTrue
              else next)
      else next
  end.

(** [check_db_exists] *)
Definition check_db_exists (gimanaged : bool) (oracle_home db_name : string)
           (sid db_unique_name : option string) : M Py.value :=
  if gimanaged then
    let checkdb := match db_unique_name with
                   | Some u => u
                   | None => db_name
                   end in
    let command :=
      oracle_home ++ "/bin/srvctl config database -d " ++ checkdb ++ " " in
    r <- ask (RunCommand command) (fun w t => run_command w t command) ;;
    let '(rc, stdout, stderr) := r in
    if negb (rc =? 0)%Z then
      if Py.contains db_name stdout then ret Py.PyFalse
      else ret Py.PyFalse
    else if Py.contains ("Database name: " ++ db_name) stdout
    then ret Py.PyTrue
    else ret Py.PyNone
  else
    file <- read oratab ;;
    match scan_oratab db_name sid
                      (match file with Some ls => ls | None => [] end) with
    | None => unmodelled "re.search on a name with special characters"
    | Some existingdbs =>
        match existingdbs with
        | [] => ret Py.PyFalse
        | _ => judge_existing oracle_home db_name sid existingdbs
        end
    end.

(** [get_version] *)
Definition get_version (oracle_home : string) : M string :=
  let command := oracle_home ++ "/bin/sqlplus -V" in
  r <- ask (RunCommand command) (fun w t => run_command w t command) ;;
  let '(rc, stdout, stderr) := r in
  if negb (rc =? 0)%Z
  then fail_json (OracleDb.error_msg stdout stderr command)
  else index (Py.split " " stdout) 2 (fun v => ret (Py.slice_to 4 v)).

Definition datapatch_sql : string :=
  nl ++ "        connect / as sysdba"
     ++ nl ++ "        @?/rdbms/admin/catbundle.sql psu apply"
     ++ nl ++ "        exit"
     ++ nl ++ "        ".

(** [run_datapatch].  Above 11.2 the function sets [ORACLE_SID] for the
    command it runs, whose answer the world gives; at 11.2 and below it sets
    nothing, and the script runs under [environ_sid], the [ORACLE_SID] the
    process was started with. *)
Definition run_datapatch (major_version output environ_sid : string)
           (oracle_home db_name : string) (sid : option string) : M bool :=
  if Py.gt major_version "11.2" then
    let command := oracle_home ++ "/OPatch/datapatch -verbose" in
    r <- ask (RunCommand command) (fun w t => run_command w t command) ;;
    let '(rc, stdout, stderr) := r in
    if negb (rc =? 0)%Z
    then fail_json (OracleDb.error_msg stdout stderr command)
    else if Py.contains "Patch installation complete" stdout then
      if String.eqb output "short" then ret true
      else exit_json ("STDOUT: " ++ stdout ++ ", COMMAND: " ++ command) true
    else exit_json ("STDOUT: " ++ stdout ++ ", COMMAND: " ++ command) false
  else
    let argv := [oracle_home ++ "/bin/sqlplus"; "/nolog"] in
    r <- ask (Popen argv environ_sid datapatch_sql)
             (fun w t => popen w t argv environ_sid datapatch_sql) ;;
    let '(rc, stdout, stderr) := r in
    if negb (rc =? 0)%Z
    then fail_json (OracleDb.error_msg stdout stderr datapatch_sql)
    else ret true.

Record Params := {
  oracle_home : option string;
  db_name : string;
  sid : option string;
  db_unique_name : option string;
  fail_on_db_not_exist : bool;
  output : string;
  environ_sid : string
}.

(** [main]; the connection details it gathers (user, password, service
    name, port) are read by no function it calls and are left out *)
Definition main (p : Params) : M unit :=
  home <-
    match oracle_home p with
    | Some h => ret h
    | None =>
        env <- read environ_oracle_home ;;
        match env with
        | Some h => ret h
        | None =>
            fail_json
              "ORACLE_HOME variable not set. Please set it and re-run the command"
        end
    end ;;
  gimanaged <- read olr_loc_exists ;;
  cx <- read cx_oracle_exists ;;
  if negb cx then
    fail_json
      ("The cx_Oracle module is required. 'pip install cx_Oracle' should do the trick."
         ++ " If cx_Oracle is installed, make sure ORACLE_HOME & LD_LIBRARY_PATH is set")
  else
    major_version <- get_version home ;;
    found <- check_db_exists gimanaged home (db_name p) (sid p)
                             (db_unique_name p) ;;
    if Py.is_true found then
      patched <- run_datapatch major_version (output p) (environ_sid p) home
                               (db_name p) (sid p) ;;
      if patched : bool then
        exit_json ("Datapatch run successfully for database: " ++ db_name p)
                  true
      else fail_json "datapatch failed in a unhandled way"
    else if fail_on_db_not_exist p then
      fail_json ("Database " ++ db_name p ++ " does not exist")
    else
      exit_json ("Database " ++ db_name p
                   ++ " does not exist (so datapatch can not run, obviously), but continuing anyway")
                false.

End OracleDatapatch.

(** ** Traces: what the statements below are written with *)

Definition is_prefix (a b : Trace) : Prop := exists c, b = (a ++ c)%list.

(** [m] causes at most the events [full], in that order; when it returns it
    has caused all of them and its value satisfies [P]. *)
Definition emits {A} (m : M A) (w : World) (t : nat) (full : Trace)
           (P : A -> Prop) : Prop :=
  is_prefix (trace_of (m w t)) full
  /\ (forall a, outcome_of (m w t) = Ret a -> trace_of (m w t) = full /\ P a).

Definition any {A} : A -> Prop := fun _ => True.

Section BatchEvents.

Import OracleDb.

Variable g : Globals.
Variable w : World.
Variables home name : string.
Variables unique sid : option string.

(** what the session is opened with *)
Definition descriptor : string :=
  if negb (Py.truthy (user g)) && negb (Py.truthy_opt (password g))
  then "/@" ++ service_name g
  else makedsn w (port g) (service_name g).

Definition session : Trace := [Connect descriptor].

(** the event of each lifecycle step *)
Definition stop_event : Event :=
  if gimanaged g then
    RunCommand (home ++ "/bin/srvctl stop database -d "
                  ++ srvctl_name name unique ++ " -o immediate")
  else Popen [home ++ "/bin/sqlplus"; "/nolog"] (oracle_sid name sid)
             shutdown_sql.

Definition start_event : Event :=
  if gimanaged g then
    RunCommand (home ++ "/bin/srvctl start database -d "
                  ++ srvctl_name name unique)
  else Popen [home ++ "/bin/sqlplus"; "/nolog"] (oracle_sid name sid)
             startup_sql.

Definition mount_event (instance : string) (rac : bool) : Event :=
  if gimanaged g then
    RunCommand ((if rac
                 then home ++ "/bin/srvctl start instance  -d "
                        ++ srvctl_name name unique ++ " -i " ++ instance
                 else home ++ "/bin/srvctl start database -d "
                        ++ srvctl_name name unique ++ " ")
                  ++ " -o mount ")
  else Popen [home ++ "/bin/sqlplus"; "/nolog"] (oracle_sid name sid)
             startup_mount_sql.

(** the whole of a batch of statements that need no restart *)
Definition immediate_batch (sqls : list string) : Trace :=
  (session ++ map Execute sqls)%list.

(** the whole of a batch of statements that need a restart *)
Definition restart_batch (instance : string) (rac : bool)
           (sqls : list string) : Trace :=
  ([stop_event; mount_event instance rac; Sleep 10] ++ session
     ++ flat_map (fun sql => [Execute sql; stop_event; start_event]) sqls)%list.

(** the part of each class a plan makes run *)
Definition restart_part (o : Observed) (p : ActionPlan) : Trace :=
  if (0 <? length (change_restart_sql p))%nat
  then restart_batch (instance_name o) (israc o) (change_restart_sql p)
  else [].

Definition immediate_part (p : ActionPlan) : Trace :=
  if (0 <? length (change_db_sql p))%nat
  then immediate_batch (change_db_sql p)
  else [].

End BatchEvents.

Section PlanReading.

Import OracleDb.

(** a cell of the first row of [log_check_] *)
Definition live (o : Observed) (j : nat) : option string :=
  match log_check_ o with
  | row :: _ => nth_error row j
  | [] => None
  end.

(** the statements the default-tablespace comparisons contribute *)
Definition tablespace_sql (d : Declared) (o : Observed) : list string :=
  let l :=
    append_if (negb (String.eqb (nth 0 (def_tbs_type o) "")
                                (default_tablespace_type d)))
              ("alter database set default " ++ default_tablespace_type d
                 ++ " tablespace ") [] in
  let l :=
    match default_tablespace d with
    | None => l
    | Some t =>
        append_if (negb (String.eqb (nth 0 (def_tbs o) "") t))
                  ("alter database default tablespace " ++ t) l
    end in
  match default_temp_tablespace d with
  | None => l
  | Some t =>
      append_if (negb (String.eqb (nth 0 (def_temp_tbs o) "") t))
                ("alter database default temporary tablespace " ++ t) l
  end.

(** [o == s] for a cell that may be missing *)
Definition cell_is (o : option string) (s : string) : bool :=
  match o with Some x => String.eqb x s | None => false end.

(** the three default-tablespace comparisons of [ensure_db_state] find
    nothing to change *)
Definition tablespaces_agree (d : Declared) (o : Observed) : bool :=
  cell_is (nth_error (def_tbs_type o) 0) (default_tablespace_type d)
  && match default_tablespace d with
     | None => true
     | Some t => cell_is (nth_error (def_tbs o) 0) t
     end
  && match default_temp_tablespace d with
     | None => true
     | Some t => cell_is (nth_error (def_temp_tbs o) 0) t
     end.

(** the declared properties are the observed ones *)
Definition converged (d : Declared) (o : Observed) : bool :=
  tablespaces_agree d o
  && cell_is (live o 0) (archcomp d)
  && cell_is (live o 1) (flcomp d)
  && cell_is (live o 2) (fbcomp d).

End PlanReading.

(** ** Concrete hosts, used to run the modules on *)

Module Sample.

Import OracleDb.

(** the answers of an instance to the three reads of [ensure_db_state] *)
Definition answers (props topology logs : Rows) (sql : string)
  : Rows + string :=
  if String.eqb sql propsql then inl props
  else if String.eqb sql israc_sql then inl topology
  else if String.eqb sql log_check_sql then inl logs
  else inr "ORA-00942: table or view does not exist".

(** a host where sessions open and statements run, whatever the time *)
Definition world (run : string -> Z * string * string)
           (tab : option (list string)) (olr : bool)
           (rows : string -> Rows + string) : World :=
  {| run_command := fun _ command => run command;
     popen := fun _ _ _ _ => (0%Z, "", "");
     connect := fun _ _ => None;
     fetchall := fun _ sql => rows sql;
     execute := fun _ _ => None;
     oratab := tab;
     olr_loc_exists := olr;
     environ_oracle_home := None;
     cx_oracle_exists := true;
     path_exists := fun _ => true;
     makedsn := fun port service => "localhost:" ++ port ++ "/" ++ service |}.

(** every command succeeds and prints the banner of [sqlplus -V] *)
Definition all_fine (command : string) : Z * string * string :=
  (0%Z, "SQL*Plus: Release 12.2.0.1.0 Production", "").

Definition globals (gi : bool) : Globals :=
  {| gimanaged := gi; major_version := "12.2"; user := "sys";
     password := Some "secret"; service_name := "orcl"; port := "1521";
     newdb := false; output := "short"; verboselist := [] |}.

Definition wanted (a fl fb : bool) : Declared :=
  {| archivelog := a; force_logging := fl; flashback := fb;
     default_tablespace_type := "smallfile";
     default_tablespace := None;
     default_temp_tablespace := None |}.

Definition single_instance : Rows := [["NO"; "orcl"; "host1"]].
Definition two_instances : Rows := [["YES"; "orcl1"; "host1"]].
Definition tablespaces : Rows := [["smallfile"]; ["temp"]; ["users"]].

(** a standalone host whose instance reports the given log mode, force
    logging and flashback *)
Definition standalone (log_mode force flash : string) : World :=
  world all_fine (Some ["orcl:/opt/db/a:N" ++ nl]) false
        (answers tablespaces single_instance [[log_mode; force; flash]]).

Definition observed (log_mode force flash : string) : Observed :=
  {| def_tbs_type := ["smallfile"]; def_tbs := ["temp"];
     def_temp_tbs := ["users"]; instance_name := "orcl"; israc := false;
     log_check_ := [[log_mode; force; flash]] |}.

Definition observation : Trace :=
  [Connect "localhost:1521/orcl"; Fetchall propsql; Fetchall israc_sql;
   Fetchall log_check_sql].

Definition create_params : CreateParams :=
  {| sys_password := Some "secret"; system_password := None;
     dbsnmp_password := None; responsefile := None;
     template := "General_Purpose.dbc"; cdb := false; local_undo := true;
     datafile_dest := None; recoveryfile_dest := None;
     storage_type := Some "FS"; dbconfig_type := Some "SI";
     racone_service := None; characterset := Some "AL32UTF8";
     memory_percentage := None; memory_totalmb := Some "1024";
     nodelist := None; db_type := Some "MULTIPURPOSE"; amm := Some false;
     initparams := None; customscripts := None |}.

Definition params (target : string) (sid unique : option string)
           (d : Declared) : Params :=
  {| oracle_home := Some "/opt/db/a"; db_name := "orcl"; sid := sid;
     db_unique_name := unique; create := create_params; declared := d;
     param_output := "short"; state := target; param_port := "1521" |}.

(** the three rows of [database_properties] that [propsql] names *)
Record Properties := {
  DEFAULT_TBS_TYPE : string;
  DEFAULT_PERMANENT_TABLESPACE : string;
  DEFAULT_TEMP_TABLESPACE : string
}.

Fixpoint insert_sorted (x : string) (l : list string) : list string :=
  match l with
  | [] => [x]
  | y :: rest =>
      if String.leb x y then x :: l else y :: insert_sorted x rest
  end.

(** what the text of [propsql] asks for: one column, the property values in
    lower case, in ascending order of that column *)
Definition propsql_rows (v : Properties) : Rows :=
  map (fun x => [x])
      (fold_right insert_sorted []
         (map Py.lower [DEFAULT_TBS_TYPE v; DEFAULT_PERMANENT_TABLESPACE v;
                        DEFAULT_TEMP_TABLESPACE v])).

(** a standalone host whose instance holds the given properties *)
Definition host_with (v : Properties) : World :=
  world all_fine (Some ["orcl:/opt/db/a:N" ++ nl]) false
        (answers (propsql_rows v) single_instance [["NOARCHIVELOG"; "NO"; "NO"]]).

(** the answer of [srvctl config database] run from another home *)
Definition other_home (command : string) : Z * string * string :=
  (1%Z,
   "PRCD-1229 : An attempt to access configuration of database orcl was rejected because its version 12.1.0.2.0 differs from the program version 12.2.0.1.0. Instead run the program from /opt/db/a.",
   "").

(** a cluster-managed host whose registry holds the database under
    [/opt/db/a] *)
Definition registered_elsewhere : World :=
  world other_home None true
        (answers tablespaces single_instance [["NOARCHIVELOG"; "NO"; "NO"]]).

(** a standalone host whose oratab has the one entry [xorcl] *)
Definition xorcl_host : World :=
  world all_fine (Some ["xorcl:/opt/db/a:N" ++ nl]) false
        (answers tablespaces single_instance [["NOARCHIVELOG"; "NO"; "NO"]]).

(** a standalone host with no oratab, where the instance answers once it
    has been created *)
Definition empty_host : World :=
  world all_fine None false
        (answers tablespaces single_instance [["NOARCHIVELOG"; "NO"; "NO"]]).

(** a cluster-managed host with a two-instance database *)
Definition cluster_host : World :=
  world all_fine None true
        (answers tablespaces two_instances [["NOARCHIVELOG"; "NO"; "NO"]]).

End Sample.

(** ** How a computation ends, and further notions the statements use *)

(** the run ends in a failure: through [fail_json] or an exception *)
Definition ends_in_failure {A} (r : Trace * Outcome A) : Prop :=
  (exists msg, outcome_of r = FailJson msg)
  \/ (exists exc, outcome_of r = Raise exc).

(** the computation ends by returning or in a failure *)
Definition returns_or_fails {A} (m : M A) (w : World) (t : nat) : Prop :=
  (exists a, outcome_of (m w t) = Ret a) \/ ends_in_failure (m w t).

(** a host where, whatever the time, every session opens, every statement
    runs and every command and subprocess returns 0 *)
Definition steps_succeed (w : World) : Prop :=
  (forall t descriptor, connect w t descriptor = None)
  /\ (forall t sql, execute w t sql = None)
  /\ (forall t command, fst (fst (run_command w t command)) = 0%Z)
  /\ (forall t argv env_sid stdin,
         fst (fst (popen w t argv env_sid stdin)) = 0%Z).

(** a plan with a statement in it *)
Definition has_work (p : OracleDb.ActionPlan) : bool :=
  (0 <? length (OracleDb.change_db_sql p))%nat
  || (0 <? length (OracleDb.change_restart_sql p))%nat.

(** the computation never ends through [exit_json] *)
Definition never_exits {A} (m : M A) (w : World) (t : nat) : Prop :=
  forall msg c, outcome_of (m w t) <> ExitJson msg c.

(** the computation never returns to its caller *)
Definition never_returns {A} (m : M A) (w : World) (t : nat) : Prop :=
  forall a, outcome_of (m w t) <> Ret a.

(** the installation path [oracle_datapatch.py] works with: the one given,
    else the one in the environment *)
Definition datapatch_home (q : OracleDatapatch.Params) (w : World)
  : option string :=
  match OracleDatapatch.oracle_home q with
  | Some h => Some h
  | None => environ_oracle_home w
  end.

(** the events that stop, start or hold back an instance, or run a command *)
Definition is_lifecycle_step (e : Event) : bool :=
  match e with
  | RunCommand _ | Popen _ _ _ | Sleep _ => true
  | _ => false
  end.

(** what the world answers to a command or a subprocess at a given time *)
Definition answer_to (w : World) (t : nat) (e : Event) : Z * string * string :=
  match e with
  | RunCommand command => run_command w t command
  | Popen argv env_sid stdin => popen w t argv env_sid stdin
  | _ => (0%Z, "", "")
  end.

(** the command line or the script of such an event *)
Definition text_of (e : Event) : string :=
  match e with
  | RunCommand command => command
  | Popen _ _ stdin => stdin
  | _ => ""
  end.

(** a line of the oratab that the locators pass over *)
Definition skipped (line : string) : bool :=
  Py.startswith line "#" || Py.startswith line " ".

(** ** Traces of composed computations *)

Lemma is_prefix_refl (a : Trace) : is_prefix a a.
Proof. exists []. now rewrite app_nil_r. Qed.

Lemma is_prefix_nil (a : Trace) : is_prefix [] a.
Proof. now exists a. Qed.

Lemma is_prefix_app (a b c : Trace) :
  is_prefix b c -> is_prefix (a ++ b)%list (a ++ c)%list.
Proof. intros [x ->]. exists x. now rewrite app_assoc. Qed.

Lemma is_prefix_weaken (a b c : Trace) :
  is_prefix a b -> is_prefix a (b ++ c)%list.
Proof. intros [x ->]. exists (x ++ c)%list. now rewrite app_assoc. Qed.

Lemma is_prefix_In (a b : Trace) (e : Event) :
  is_prefix a b -> In e a -> In e b.
Proof. intros [x ->] H. apply in_or_app. now left. Qed.

Lemma emits_ret {A} (a : A) w t : emits (ret a) w t [] (eq a).
Proof.
  split; [apply is_prefix_nil |].
  intros x H. split; [reflexivity | now inversion H].
Qed.

Lemma emits_ask {A} (e : Event) (f : World -> nat -> A) w t :
  emits (ask e f) w t [e] (eq (f w t)).
Proof.
  split; [apply is_prefix_refl |].
  intros x H. split; [reflexivity | now inversion H].
Qed.

Lemma emits_weaken {A} (m : M A) w t full (P Q : A -> Prop) :
  (forall a, P a -> Q a) -> emits m w t full P -> emits m w t full Q.
Proof.
  intros HPQ [Hp Hr]. split; [exact Hp |].
  intros a Ha. destruct (Hr a Ha). auto.
Qed.

(** The trace of [m] followed by [k] is the trace of [m] and then, only when
    [m] has returned, the trace of [k]. *)
Lemma bind_split {A B} (m : M A) (k : A -> M B) w t fa fb
      (P : A -> Prop) (Q : B -> Prop) :
  emits m w t fa P ->
  (forall x, P x -> emits (k x) w (t + length fa) fb Q) ->
  exists tr1 tr2,
    trace_of (bind m k w t) = (tr1 ++ tr2)%list
    /\ is_prefix tr1 fa /\ is_prefix tr2 fb
    /\ (tr2 <> [] -> tr1 = fa)
    /\ (forall y, outcome_of (bind m k w t) = Ret y ->
                  tr1 = fa /\ tr2 = fb /\ Q y).
Proof.
  intros [Hp Hr] Hk. unfold bind.
  destruct (m w t) as [tr o] eqn:Em. cbn [trace_of outcome_of fst snd] in *.
  destruct o as [a | msg c | msg | e | why].
  - destruct (Hr a eq_refl) as [-> Pa].
    destruct (Hk a Pa) as [Hkp Hkr].
    destruct (k a w (t + length fa)) as [tr' o'] eqn:Ek.
    cbn [trace_of outcome_of fst snd] in *.
    exists fa, tr'.
    split; [reflexivity |]. split; [apply is_prefix_refl |].
    split; [exact Hkp |]. split; [reflexivity |].
    intros y Hy. split; [reflexivity | now apply Hkr in Hy].
  - exists tr, []. rewrite app_nil_r.
    split; [reflexivity |]. split; [exact Hp |].
    split; [apply is_prefix_nil |]. split; [now intros [] | discriminate].
  - exists tr, []. rewrite app_nil_r.
    split; [reflexivity |]. split; [exact Hp |].
    split; [apply is_prefix_nil |]. split; [now intros [] | discriminate].
  - exists tr, []. rewrite app_nil_r.
    split; [reflexivity |]. split; [exact Hp |].
    split; [apply is_prefix_nil |]. split; [now intros [] | discriminate].
  - exists tr, []. rewrite app_nil_r.
    split; [reflexivity |]. split; [exact Hp |].
    split; [apply is_prefix_nil |]. split; [now intros [] | discriminate].
Qed.

Lemma emits_bind {A B} (m : M A) (k : A -> M B) w t fa fb
      (P : A -> Prop) (Q : B -> Prop) :
  emits m w t fa P ->
  (forall x, P x -> emits (k x) w (t + length fa) fb Q) ->
  emits (bind m k) w t (fa ++ fb)%list Q.
Proof.
  intros Hm Hk.
  destruct (bind_split m k w t fa fb P Q Hm Hk)
    as (tr1 & tr2 & Htr & H1 & H2 & Hne & Hret).
  split.
  - rewrite Htr. destruct tr2 as [| e tr2].
    + rewrite app_nil_r. now apply is_prefix_weaken.
    + rewrite (Hne ltac:(discriminate)). now apply is_prefix_app.
  - intros y Hy. destruct (Hret y Hy) as (-> & -> & HQ). now split.
Qed.

(** A computation followed by one that causes no event leaves its own
    trace. *)
Lemma bind_silent_trace {A B} (m : M A) (k : A -> M B) w t :
  (forall x t', trace_of (k x w t') = []) ->
  trace_of (bind m k w t) = trace_of (m w t).
Proof.
  intros Hk. unfold bind. destruct (m w t) as [tr o]. destruct o; try reflexivity.
  specialize (Hk a (t + length tr)).
  destruct (k a w (t + length tr)) as [tr' o']. cbn in *. subst.
  now rewrite app_nil_r.
Qed.

Lemma bind_ret_run {A B} (m : M A) (k : A -> M B) w t tr a :
  m w t = (tr, Ret a) ->
  bind m k w t
  = ((tr ++ trace_of (k a w (t + length tr)))%list,
     outcome_of (k a w (t + length tr))).
Proof.
  intros E. unfold bind. rewrite E.
  now destruct (k a w (t + length tr)).
Qed.

(** ** The batches of [oracle_db.py] as traces *)

Section Batches.

Import OracleDb.

Variable g : Globals.
Variable w : World.
Variables home name : string.
Variables unique sid : option string.

Ltac by_cases :=
  repeat (match goal with
          | |- context [match ?x with _ => _ end] =>
              lazymatch x with
              | context [match _ with _ => _ end] => fail
              | _ => destruct x eqn:?
              end
          end; cbn).

Ltac emits_leaf :=
  unfold emits, bind, ask, read, ret, fail_json, raise; cbn; by_cases;
  (split;
   [ first [apply is_prefix_refl | apply is_prefix_nil]
   | let H := fresh in
     intros ? H; try discriminate; inversion H;
     split; first [reflexivity | exact I] ]).

Lemma emits_getconn t : emits (getconn g) w t (session g w) any.
Proof.
  unfold getconn, session, descriptor.
  destruct (Py.truthy (user g)), (Py.truthy_opt (password g));
    cbn [negb andb orb]; emits_leaf.
Qed.

Lemma emits_execute_sql sql t :
  emits (execute_sql sql) w t [Execute sql] (eq true).
Proof. unfold execute_sql. emits_leaf. Qed.

Lemma emits_run_or_fail command t :
  emits (run_or_fail command) w t [RunCommand command] (eq true).
Proof. unfold run_or_fail. emits_leaf. Qed.

Lemma emits_sqlplus_or_fail h s script t :
  emits (sqlplus_or_fail h s script) w t
        [Popen [h ++ "/bin/sqlplus"; "/nolog"] s script] (eq true).
Proof. unfold sqlplus_or_fail. emits_leaf. Qed.

Lemma emits_stop_db t :
  emits (stop_db g home name unique sid) w t [(stop_event g home name unique sid)] (eq true).
Proof.
  unfold stop_db, stop_event. destruct (gimanaged g);
    [apply emits_run_or_fail | apply emits_sqlplus_or_fail].
Qed.

Lemma emits_start_db t :
  emits (start_db g home name unique sid) w t [(start_event g home name unique sid)] (eq true).
Proof.
  unfold start_db, start_event. destruct (gimanaged g);
    [apply emits_run_or_fail | apply emits_sqlplus_or_fail].
Qed.

Lemma emits_start_instance instance rac t :
  emits (start_instance g home name unique sid (Some "mount") instance rac)
        w t [(mount_event g home name unique sid instance rac)] (eq true).
Proof.
  unfold start_instance, mount_event. destruct (gimanaged g);
    [apply emits_run_or_fail | apply emits_sqlplus_or_fail].
Qed.

Lemma emits_execute_all sqls :
  forall t, emits (execute_all sqls) w t (map Execute sqls) any.
Proof.
  induction sqls as [| sql rest IH]; intros t; cbn [execute_all map].
  - eapply emits_weaken; [| apply emits_ret]. now intros.
  - change (Execute sql :: map Execute rest)
      with ([Execute sql] ++ map Execute rest)%list.
    eapply emits_bind; [apply emits_execute_sql |].
    intros _ _. apply IH.
Qed.

Lemma emits_apply_norestart_changes sqls t :
  emits (apply_norestart_changes g sqls) w t (immediate_batch g w sqls) any.
Proof.
  unfold apply_norestart_changes, immediate_batch.
  eapply emits_bind; [apply emits_getconn |].
  intros _ _. apply emits_execute_all.
Qed.

Lemma emits_restart_loop sqls :
  forall t,
    emits (restart_loop g home name unique sid sqls) w t
          (flat_map (fun sql => [Execute sql; (stop_event g home name unique sid); (start_event g home name unique sid)]) sqls)
          any.
Proof.
  induction sqls as [| sql rest IH]; intros t; cbn [restart_loop flat_map].
  - eapply emits_weaken; [| apply emits_ret]. now intros.
  - change ([Execute sql; (stop_event g home name unique sid); (start_event g home name unique sid)] ++ ?l)%list
      with ([Execute sql] ++ [(stop_event g home name unique sid)] ++ [(start_event g home name unique sid)] ++ l)%list.
    eapply emits_bind; [apply emits_execute_sql |]. intros _ _.
    eapply emits_bind; [apply emits_stop_db |]. intros stopped <-.
    eapply emits_bind.
    + change [(start_event g home name unique sid)] with ([(start_event g home name unique sid)] ++ [])%list.
      eapply emits_bind; [apply emits_start_db |].
      intros _ _. apply emits_ret.
    + intros _ _. apply IH.
Qed.

Lemma emits_apply_restart_changes instance rac sqls t :
  emits (apply_restart_changes g home name unique sid instance rac sqls) w t
        (restart_batch g w home name unique sid instance rac sqls) any.
Proof.
  unfold apply_restart_changes, restart_batch.
  change ([(stop_event g home name unique sid); (mount_event g home name unique sid instance rac); Sleep 10] ++ ?l)%list
    with ([(stop_event g home name unique sid)] ++ [(mount_event g home name unique sid instance rac)] ++ [Sleep 10] ++ l)%list.
  eapply emits_bind; [apply emits_stop_db |]. intros stopped <-.
  eapply emits_bind; [apply emits_start_instance |]. intros mounted <-.
  eapply emits_bind; [apply emits_ask |]. intros _ _.
  eapply emits_bind; [apply emits_getconn |]. intros _ _.
  apply emits_restart_loop.
Qed.

End Batches.

(** ** The plan and its execution *)

Import OracleDb.

Lemma nth_error_nth0 (l : list string) (x : string) :
  nth_error l 0 = Some x -> nth 0 l "" = x.
Proof. destruct l; cbn; congruence. Qed.

Lemma plan_inv (d : Declared) (o : Observed) (p : ActionPlan) :
  plan d o = Some p ->
  exists lm fl fb,
    live o 0 = Some lm /\ live o 1 = Some fl /\ live o 2 = Some fb
    /\ change_restart_sql p
       = append_if (negb (String.eqb lm (archcomp d))) (archsql d) []
    /\ change_db_sql p
       = append_if (negb (String.eqb fb (fbcomp d))) (fbsql d)
           (append_if (negb (String.eqb fl (flcomp d))) (flsql d)
              (tablespace_sql d o))
    /\ immediate_first p
       = String.eqb lm "ARCHIVELOG" && String.eqb fb "YES"
         && negb (archivelog d) && negb (flashback d).
Proof.
  unfold plan, tablespace_sql, live. intros H.
  destruct (nth_error (def_tbs_type o) 0) as [ty |] eqn:Ety; [| discriminate].
  rewrite (nth_error_nth0 _ _ Ety).
  destruct (log_check_ o) as [| [| lm [| fl [| fb more]]] rows].
  1-4: destruct (default_tablespace d);
       [destruct (nth_error (def_tbs o) 0) |];
       try discriminate;
       (destruct (default_temp_tablespace d);
        [destruct (nth_error (def_temp_tbs o) 0) |]); discriminate.
  exists lm, fl, fb. cbn [nth_error].
  destruct (default_tablespace d) as [t1 |].
  - destruct (nth_error (def_tbs o) 0) as [l1 |] eqn:E1; [| discriminate].
    rewrite (nth_error_nth0 _ _ E1).
    destruct (default_temp_tablespace d) as [t2 |].
    + destruct (nth_error (def_temp_tbs o) 0) as [l2 |] eqn:E2; [| discriminate].
      rewrite (nth_error_nth0 _ _ E2).
      inversion H; subst; cbn; auto 10.
    + inversion H; subst; cbn; auto 10.
  - destruct (default_temp_tablespace d) as [t2 |].
    + destruct (nth_error (def_temp_tbs o) 0) as [l2 |] eqn:E2; [| discriminate].
      rewrite (nth_error_nth0 _ _ E2).
      inversion H; subst; cbn; auto 10.
    + inversion H; subst; cbn; auto 10.
Qed.

Lemma In_append_if_new (b : bool) (x : string) (l : list string) :
  b = true -> In x (append_if b x l).
Proof. intros ->. cbn. apply in_or_app. right. now left. Qed.

(** [execute_plan] runs the two parts one after the other, the second only
    once the first is through, in the order the plan fixes. *)
Lemma execute_plan_order g home name unique sid d o p w t :
  let first :=
    if immediate_first p then immediate_part g w p
    else restart_part g w home name unique sid o p in
  let second :=
    if immediate_first p then restart_part g w home name unique sid o p
    else immediate_part g w p in
  exists tr1 tr2,
    trace_of (execute_plan g home name unique sid d o p w t)
    = (tr1 ++ tr2)%list
    /\ is_prefix tr1 first /\ is_prefix tr2 second
    /\ (tr2 <> [] -> tr1 = first).
Proof.
  intros first second.
  assert (Hr : forall t',
             emits (if (0 <? length (change_restart_sql p))%nat
                    then apply_restart_changes g home name unique sid
                           (instance_name o) (israc o) (change_restart_sql p)
                    else ret tt) w t'
                   (restart_part g w home name unique sid o p) any).
  { intros t'. unfold restart_part.
    destruct (0 <? length (change_restart_sql p))%nat.
    - apply emits_apply_restart_changes.
    - eapply emits_weaken; [| apply emits_ret]. now intros. }
  assert (Hi : forall t',
             emits (if (0 <? length (change_db_sql p))%nat
                    then apply_norestart_changes g (change_db_sql p)
                    else ret tt) w t' (immediate_part g w p) any).
  { intros t'. unfold immediate_part.
    destruct (0 <? length (change_db_sql p))%nat.
    - apply emits_apply_norestart_changes.
    - eapply emits_weaken; [| apply emits_ret]. now intros. }
  unfold execute_plan.
  destruct ((0 <? length (change_db_sql p))%nat
            || (0 <? length (change_restart_sql p))%nat).
  - rewrite bind_silent_trace by reflexivity.
    subst first second. destruct (immediate_first p).
    + destruct (bind_split _ _ w t _ _ any any (Hi t) (fun x _ => Hr _))
        as (tr1 & tr2 & E & H1 & H2 & H3 & _).
      exists tr1, tr2. auto.
    + destruct (bind_split _ _ w t _ _ any any (Hr t) (fun x _ => Hi _))
        as (tr1 & tr2 & E & H1 & H2 & H3 & _).
      exists tr1, tr2. auto.
  - exists [], []. split.
    + now destruct (newdb g).
    + split; [apply is_prefix_nil |]. split; [apply is_prefix_nil |].
      now intros [].
Qed.

Lemma ensure_db_state_run g home name unique sid d w t tr0 o p :
  observe g w t = (tr0, Ret o) ->
  plan d o = Some p ->
  trace_of (ensure_db_state g home name unique sid d w t)
  = (tr0 ++ trace_of (execute_plan g home name unique sid d o p w
                                   (t + length tr0)))%list.
Proof.
  intros Ho Hp. unfold ensure_db_state.
  rewrite (bind_ret_run _ _ _ _ _ _ Ho). rewrite Hp. reflexivity.
Qed.

(** ** What the steps make of the answers they get *)

Lemma bind_ret_inv {A B} (m : M A) (k : A -> M B) w t tr b :
  bind m k w t = (tr, Ret b) ->
  exists tr1 a tr2,
    m w t = (tr1, Ret a) /\ k a w (t + length tr1) = (tr2, Ret b)
    /\ tr = (tr1 ++ tr2)%list.
Proof.
  unfold bind. destruct (m w t) as [tr1 o]. destruct o; try discriminate.
  destruct (k a w (t + length tr1)) as [tr2 o2] eqn:Ek.
  intros H. inversion H; subst. exists tr1, a, tr2. auto.
Qed.

Lemma setup_globals p w t tr0 g home :
  setup p w t = (tr0, Ret (g, home)) ->
  user g = "sys" /\ password g = sys_password (create p)
  /\ output g = param_output p /\ gimanaged g = olr_loc_exists w
  /\ newdb g = false /\ verboselist g = [].
Proof.
  unfold setup. intros H.
  apply bind_ret_inv in H. destruct H as (tr1 & h & tr2 & _ & H & _).
  apply bind_ret_inv in H. destruct H as (tr3 & olr & tr4 & Holr & H & _).
  apply bind_ret_inv in H. destruct H as (tr5 & cx & tr6 & _ & H & _).
  inversion Holr; subst.
  destruct (negb (olr_loc_exists w) && negb cx); [discriminate |].
  apply bind_ret_inv in H. destruct H as (tr7 & ver & tr8 & _ & H & _).
  inversion H; subst. cbn. auto 10.
Qed.

(** the session opens where the driver is there and the host lets it *)
Lemma getconn_run g w c :
  Py.truthy (user g) = true ->
  Py.truthy_opt (password g) = true ->
  cx_oracle_exists w = true ->
  connect w c (descriptor g w) = None ->
  getconn g w c = (session g w, Ret tt).
Proof.
  intros Hu Hp Hx Hc. unfold session, descriptor in *. rewrite Hu, Hp in *.
  cbn [negb andb] in *. unfold getconn. rewrite Hu, Hp. cbn [negb andb].
  cbv [bind read ask ret]. rewrite Hx. cbn [negb length Nat.add app].
  rewrite !Nat.add_0_r, Hc. reflexivity.
Qed.

Lemma getconn_refused g w c err :
  Py.truthy (user g) = true ->
  Py.truthy_opt (password g) = true ->
  cx_oracle_exists w = true ->
  connect w c (descriptor g w) = Some err ->
  getconn g w c
  = (session g w,
     FailJson ("Could not connect to database - " ++ err
                 ++ ", connect descriptor: " ++ descriptor g w)).
Proof.
  intros Hu Hp Hx Hc. unfold session, descriptor in *. rewrite Hu, Hp in *.
  cbn [negb andb] in *. unfold getconn. rewrite Hu, Hp. cbn [negb andb].
  cbv [bind read ask ret]. rewrite Hx. cbn [negb length Nat.add app].
  rewrite !Nat.add_0_r, Hc. reflexivity.
Qed.

(** without the driver no session is attempted *)
Lemma getconn_without_driver g w c :
  Py.truthy (user g) = true ->
  Py.truthy_opt (password g) = true ->
  cx_oracle_exists w = false ->
  getconn g w c = ([], Raise "NameError").
Proof.
  intros Hu Hp Hx. unfold getconn. rewrite Hu, Hp. cbn [negb andb].
  cbv [bind read]. now rewrite Hx.
Qed.

(** a session that opened once opens again wherever the host lets it *)
Lemma getconn_again g w t c :
  getconn g w t = (session g w, Ret tt) ->
  connect w c (descriptor g w) = None ->
  getconn g w c = (session g w, Ret tt).
Proof.
  unfold getconn, session, descriptor.
  destruct (Py.truthy (user g)), (Py.truthy_opt (password g));
    cbn [negb andb orb]; cbv [bind read ask ret raise fail_json];
    destruct (cx_oracle_exists w); cbn [negb length Nat.add app];
    try discriminate; intros _ Hc; rewrite !Nat.add_0_r, Hc; reflexivity.
Qed.

Lemma execute_sql_get_run sql w c rows :
  fetchall w c sql = inl rows ->
  execute_sql_get sql w c = ([Fetchall sql], Ret rows).
Proof. intros H. unfold execute_sql_get, bind, ask. now rewrite H. Qed.

Lemma execute_sql_run sql w c :
  execute w c sql = None ->
  execute_sql sql w c = ([Execute sql], Ret true).
Proof. intros H. unfold execute_sql, bind, ask. now rewrite H. Qed.

Lemma run_or_fail_run command w t :
  run_or_fail command w t
  = ([RunCommand command],
     if (fst (fst (run_command w t command)) =? 0)%Z then Ret true
     else FailJson (error_msg (snd (fst (run_command w t command)))
                              (snd (run_command w t command)) command)).
Proof.
  unfold run_or_fail, bind, ask.
  destruct (run_command w t command) as [[rc out] err]. cbn [fst snd].
  now destruct (rc =? 0)%Z.
Qed.

Lemma sqlplus_or_fail_run home env_sid script w t :
  sqlplus_or_fail home env_sid script w t
  = ([Popen [home ++ "/bin/sqlplus"; "/nolog"] env_sid script],
     if (fst (fst (popen w t [home ++ "/bin/sqlplus"; "/nolog"] env_sid script))
         =? 0)%Z
     then Ret true
     else FailJson
            (error_msg
               (snd (fst (popen w t [home ++ "/bin/sqlplus"; "/nolog"]
                                env_sid script)))
               (snd (popen w t [home ++ "/bin/sqlplus"; "/nolog"]
                           env_sid script)) script)).
Proof.
  unfold sqlplus_or_fail, bind, ask.
  destruct (popen w t _ env_sid script) as [[rc out] err]. cbn [fst snd].
  now destruct (rc =? 0)%Z.
Qed.

(** what a lifecycle step makes of the answer it gets *)
Lemma stop_db_run g home name unique sid w t :
  stop_db g home name unique sid w t
  = ([stop_event g home name unique sid],
     let e := stop_event g home name unique sid in
     if (fst (fst (answer_to w t e)) =? 0)%Z then Ret true
     else FailJson (error_msg (snd (fst (answer_to w t e)))
                              (snd (answer_to w t e)) (text_of e))).
Proof.
  unfold stop_db, stop_event. destruct (gimanaged g);
    [apply run_or_fail_run | apply sqlplus_or_fail_run].
Qed.

Lemma start_db_run g home name unique sid w t :
  start_db g home name unique sid w t
  = ([start_event g home name unique sid],
     let e := start_event g home name unique sid in
     if (fst (fst (answer_to w t e)) =? 0)%Z then Ret true
     else FailJson (error_msg (snd (fst (answer_to w t e)))
                              (snd (answer_to w t e)) (text_of e))).
Proof.
  unfold start_db, start_event. destruct (gimanaged g);
    [apply run_or_fail_run | apply sqlplus_or_fail_run].
Qed.

Lemma start_instance_run g home name unique sid instance rac w t :
  start_instance g home name unique sid (Some "mount") instance rac w t
  = ([mount_event g home name unique sid instance rac],
     let e := mount_event g home name unique sid instance rac in
     if (fst (fst (answer_to w t e)) =? 0)%Z then Ret true
     else FailJson (error_msg (snd (fst (answer_to w t e)))
                              (snd (answer_to w t e)) (text_of e))).
Proof.
  unfold start_instance, mount_event. destruct (gimanaged g);
    [apply run_or_fail_run | apply sqlplus_or_fail_run].
Qed.

(** ** How a computation may end *)

Lemma failure_is_no_exit {A} (r : Trace * Outcome A) msg c :
  ends_in_failure r -> outcome_of r <> ExitJson msg c.
Proof. intros [[m H] | [e H]]; rewrite H; discriminate. Qed.

Lemma failure_is_no_return {A} (r : Trace * Outcome A) a :
  ends_in_failure r -> outcome_of r <> Ret a.
Proof. intros [[m H] | [e H]]; rewrite H; discriminate. Qed.

Lemma rof_bind {A B} (m : M A) (k : A -> M B) w t :
  returns_or_fails m w t ->
  (forall a tr, m w t = (tr, Ret a) -> returns_or_fails (k a) w (t + length tr)) ->
  returns_or_fails (bind m k) w t.
Proof.
  unfold returns_or_fails, ends_in_failure, bind. intros Hm Hk.
  destruct (m w t) as [tr o]. cbn [outcome_of snd] in Hm.
  destruct o as [a | msg c | msg | e | why].
  - specialize (Hk a tr eq_refl).
    destruct (k a w (t + length tr)) as [tr' o']. exact Hk.
  - destruct Hm as [[a H] | [[m' H] | [m' H]]]; discriminate.
  - right. left. now exists msg.
  - right. right. now exists e.
  - destruct Hm as [[a H] | [[m' H] | [m' H]]]; discriminate.
Qed.

Lemma rof_ret {A} (a : A) w t : returns_or_fails (ret a) w t.
Proof. left. now exists a. Qed.

Lemma rof_of_run {A} (m : M A) w t tr (b : bool) a msg :
  m w t = (tr, if b then Ret a else FailJson msg) -> returns_or_fails m w t.
Proof.
  intros H. unfold returns_or_fails, ends_in_failure. rewrite H.
  destruct b; [left; now exists a | right; left; now exists msg].
Qed.

Lemma rof_getconn g w t : returns_or_fails (getconn g) w t.
Proof.
  unfold returns_or_fails, ends_in_failure, getconn.
  destruct (Py.truthy (user g)), (Py.truthy_opt (password g));
    cbn [negb andb orb]; cbv [bind read ask ret raise fail_json];
    destruct (cx_oracle_exists w); cbn [negb length Nat.add app];
    repeat match goal with
           | |- context [match connect ?w ?t ?d with _ => _ end] =>
               destruct (connect w t d)
           end;
    cbn [outcome_of snd fail_json]; eauto.
Qed.

Lemma rof_execute_sql sql w t : returns_or_fails (execute_sql sql) w t.
Proof.
  unfold returns_or_fails, ends_in_failure, execute_sql, bind, ask.
  destruct (execute w t sql); cbn; eauto.
Qed.

Lemma rof_stop_db g home name unique sid w t :
  returns_or_fails (stop_db g home name unique sid) w t.
Proof. eapply rof_of_run. apply stop_db_run. Qed.

Lemma rof_start_db g home name unique sid w t :
  returns_or_fails (start_db g home name unique sid) w t.
Proof. eapply rof_of_run. apply start_db_run. Qed.

Lemma rof_start_instance g home name unique sid instance rac w t :
  returns_or_fails
    (start_instance g home name unique sid (Some "mount") instance rac) w t.
Proof. eapply rof_of_run. apply start_instance_run. Qed.

Lemma rof_execute_all sqls w :
  forall t, returns_or_fails (execute_all sqls) w t.
Proof.
  induction sqls as [| sql rest IH]; intros t; cbn [execute_all].
  - apply rof_ret.
  - apply rof_bind; [apply rof_execute_sql | intros; apply IH].
Qed.

Lemma rof_restart_loop g home name unique sid sqls w :
  forall t, returns_or_fails (restart_loop g home name unique sid sqls) w t.
Proof.
  induction sqls as [| sql rest IH]; intros t; cbn [restart_loop].
  - apply rof_ret.
  - apply rof_bind; [apply rof_execute_sql | intros _ ? _].
    apply rof_bind; [apply rof_stop_db | intros stopped ? _].
    apply rof_bind; [| intros; apply IH].
    destruct stopped; [| apply rof_ret].
    apply rof_bind; [apply rof_start_db | intros; apply rof_ret].
Qed.

Lemma rof_apply_restart_changes g home name unique sid instance rac sqls w t :
  returns_or_fails
    (apply_restart_changes g home name unique sid instance rac sqls) w t.
Proof.
  unfold apply_restart_changes.
  apply rof_bind; [apply rof_stop_db | intros stopped ? _].
  destruct stopped; [| apply rof_ret].
  apply rof_bind; [apply rof_start_instance | intros mounted ? _].
  destruct mounted; [| apply rof_ret].
  apply rof_bind; [left; now exists tt | intros _ ? _].
  apply rof_bind; [apply rof_getconn | intros; apply rof_restart_loop].
Qed.

Lemma rof_apply_norestart_changes g sqls w t :
  returns_or_fails (apply_norestart_changes g sqls) w t.
Proof.
  unfold apply_norestart_changes.
  apply rof_bind; [apply rof_getconn | intros; apply rof_execute_all].
Qed.

(** Two computations in a row: both go through, or the second fails once
    the first has gone through in full, or the first fails and nothing of
    the second is done. *)
Lemma bind_parts {A B} (m : M A) (k : A -> M B) w t fa fb
      (P : A -> Prop) (Q : B -> Prop) :
  emits m w t fa P ->
  returns_or_fails m w t ->
  (forall x, emits (k x) w (t + length fa) fb Q) ->
  (forall x, returns_or_fails (k x) w (t + length fa)) ->
  (exists b, bind m k w t = ((fa ++ fb)%list, Ret b))
  \/ (ends_in_failure (bind m k w t)
      /\ exists tr2, trace_of (bind m k w t) = (fa ++ tr2)%list
                     /\ is_prefix tr2 fb)
  \/ (ends_in_failure (bind m k w t)
      /\ is_prefix (trace_of (bind m k w t)) fa).
Proof.
  intros [Hp Hr] Hm Hk Hkr. unfold returns_or_fails in Hm. unfold bind.
  destruct (m w t) as [tr o]. cbn [trace_of outcome_of fst snd] in *.
  destruct Hm as [[a ->] | Hf].
  - destruct (Hr a eq_refl) as [-> _].
    specialize (Hk a). specialize (Hkr a). unfold returns_or_fails in Hkr.
    destruct Hk as [Hkp Hkret].
    destruct (k a w (t + length fa)) as [tr' o'].
    cbn [trace_of outcome_of fst snd] in *.
    destruct Hkr as [[b ->] | Hf].
    + left. exists b. now destruct (Hkret b eq_refl) as [-> _].
    + right. left. split; [exact Hf |]. now exists tr'.
  - right. right.
    destruct Hf as [[msg Hf] | [e Hf]]; cbn [outcome_of snd] in Hf; subst o;
      (split; [| exact Hp]); [left | right]; eexists; reflexivity.
Qed.

Lemma bind_then_exit {A B} (m : M A) msg c w t :
  (forall a, outcome_of (m w t) = Ret a ->
             bind m (fun _ => @exit_json B msg c) w t
             = (trace_of (m w t), ExitJson msg c))
  /\ (ends_in_failure (m w t) ->
      ends_in_failure (bind m (fun _ => @exit_json B msg c) w t)
      /\ trace_of (bind m (fun _ => @exit_json B msg c) w t)
         = trace_of (m w t)).
Proof.
  unfold bind, ends_in_failure.
  destruct (m w t) as [tr o]. cbn [trace_of outcome_of fst snd].
  split.
  - intros x H; subst o; cbn. now rewrite app_nil_r.
  - intros [[x H] | [x H]]; subst o; cbn; split; eauto.
Qed.

(** The two batches of a plan, in its order, as one computation. *)
Lemma batches_run g home name unique sid o p w t :
  let restart :=
    if (0 <? length (change_restart_sql p))%nat
    then apply_restart_changes g home name unique sid (instance_name o)
                               (israc o) (change_restart_sql p)
    else ret tt in
  let norestart :=
    if (0 <? length (change_db_sql p))%nat
    then apply_norestart_changes g (change_db_sql p)
    else ret tt in
  let both :=
    if immediate_first p then (norestart ;; restart) else (restart ;; norestart) in
  let first :=
    if immediate_first p then immediate_part g w p
    else restart_part g w home name unique sid o p in
  let second :=
    if immediate_first p then restart_part g w home name unique sid o p
    else immediate_part g w p in
  both w t = ((first ++ second)%list, Ret tt)
  \/ (ends_in_failure (both w t)
      /\ exists tr2, trace_of (both w t) = (first ++ tr2)%list
                     /\ is_prefix tr2 second)
  \/ (ends_in_failure (both w t) /\ is_prefix (trace_of (both w t)) first).
Proof.
  intros restart norestart both first second.
  assert (Hr : forall t', emits restart w t'
                            (restart_part g w home name unique sid o p) any).
  { intros t'. subst restart. unfold restart_part.
    destruct (0 <? length (change_restart_sql p))%nat.
    - apply emits_apply_restart_changes.
    - eapply emits_weaken; [| apply emits_ret]. now intros. }
  assert (Hi : forall t', emits norestart w t' (immediate_part g w p) any).
  { intros t'. subst norestart. unfold immediate_part.
    destruct (0 <? length (change_db_sql p))%nat.
    - apply emits_apply_norestart_changes.
    - eapply emits_weaken; [| apply emits_ret]. now intros. }
  assert (Fr : forall t', returns_or_fails restart w t').
  { intros t'. subst restart.
    destruct (0 <? length (change_restart_sql p))%nat;
      [apply rof_apply_restart_changes | apply rof_ret]. }
  assert (Fi : forall t', returns_or_fails norestart w t').
  { intros t'. subst norestart.
    destruct (0 <? length (change_db_sql p))%nat;
      [apply rof_apply_norestart_changes | apply rof_ret]. }
  subst both first second. destruct (immediate_first p).
  - destruct (bind_parts norestart (fun _ => restart) w t _ _ any any
                (Hi t) (Fi t) (fun _ => Hr _) (fun _ => Fr _))
      as [[[] H] | H]; auto.
  - destruct (bind_parts restart (fun _ => norestart) w t _ _ any any
                (Hr t) (Fr t) (fun _ => Hi _) (fun _ => Fi _))
      as [[[] H] | H]; auto.
Qed.

Lemma append_if_nil (b : bool) (x : string) (l : list string) :
  append_if b x l = [] -> b = false /\ l = [].
Proof.
  unfold append_if. destruct b; [| auto].
  intros H. now destruct l.
Qed.

(** an empty plan means that every declared property is the observed one *)
Lemma empty_plan_converged d o p :
  plan d o = Some p ->
  change_restart_sql p = [] -> change_db_sql p = [] ->
  converged d o = true.
Proof.
  unfold plan, converged, tablespaces_agree, live. intros H Hr Hd.
  destruct (nth_error (def_tbs_type o) 0) as [ty |]; [| discriminate].
  destruct (default_tablespace d) as [t1 |];
    [destruct (nth_error (def_tbs o) 0) as [l1 |]; [| discriminate] |];
    (destruct (default_temp_tablespace d) as [t2 |];
     [destruct (nth_error (def_temp_tbs o) 0) as [l2 |]; [| discriminate] |]);
    (destruct (log_check_ o) as [| [| lm [| fl [| fb more]]] rows];
     try discriminate);
    inversion H; subst p; cbn [change_restart_sql change_db_sql] in Hr, Hd;
    repeat match goal with
           | H : append_if _ _ _ = [] |- _ =>
               apply append_if_nil in H; destruct H
           end;
    repeat match goal with
           | H : negb _ = false |- _ => apply negb_false_iff in H
           end;
    cbn [nth_error cell_is];
    repeat match goal with
           | H : String.eqb _ _ = true |- _ => rewrite H
           end;
    reflexivity.
Qed.

Lemma length_zero_nil {A} (l : list A) : (0 <? length l)%nat = false -> l = [].
Proof. now destruct l. Qed.

(** how [execute_plan] ends: a plan with work in it is carried out in full
    and reported as a change, or fails on the way; a plan without work is
    reported at once. *)
Lemma execute_plan_ends g home name unique sid d o p w t :
  let run := execute_plan g home name unique sid d o p w t in
  let first :=
    if immediate_first p then immediate_part g w p
    else restart_part g w home name unique sid o p in
  let second :=
    if immediate_first p then restart_part g w home name unique sid o p
    else immediate_part g w p in
  if has_work p
  then run = ((first ++ second)%list,
              ExitJson ("Database " ++ name
                          ++ " has been put in the intended state - "
                          ++ state_msg d) true)
       \/ (ends_in_failure run
           /\ exists tr2, trace_of run = (first ++ tr2)%list
                          /\ is_prefix tr2 second)
       \/ (ends_in_failure run /\ is_prefix (trace_of run) first)
  else run = ([],
              if newdb g
              then ExitJson ("Database " ++ name
                               ++ " successfully created created ("
                               ++ archcomp d ++ ") "
                               ++ (if String.eqb (output g) "verbose"
                                   then Py.join " ," (verboselist g) else ""))
                            true
              else ExitJson (" Database " ++ name
                               ++ " already exists and is in the intended state - "
                               ++ state_msg d) false).
Proof.
  intros run first second. subst run. unfold execute_plan, has_work.
  destruct ((0 <? length (change_db_sql p))%nat
            || (0 <? length (change_restart_sql p))%nat).
  - set (msg := "Database " ++ name
                  ++ " has been put in the intended state - " ++ state_msg d).
    destruct (batches_run g home name unique sid o p w t)
      as [Hret | [[Hf (tr2 & Htr & Hp)] | [Hf Hp]]].
    + left.
      rewrite (proj1 (bind_then_exit (B:=unit) _ msg true w t) tt
                     (f_equal snd Hret)).
      now rewrite Hret.
    + right. left.
      destruct (proj2 (bind_then_exit (B:=unit) _ msg true w t) Hf)
        as [Hf' Htr'].
      split; [exact Hf' |]. exists tr2. now rewrite Htr'.
    + right. right.
      destruct (proj2 (bind_then_exit (B:=unit) _ msg true w t) Hf)
        as [Hf' Htr'].
      split; [exact Hf' |]. now rewrite Htr'.
  - now destruct (newdb g).
Qed.

(** the same for a whole pass over an observed instance *)
Lemma ensure_db_state_ends g home name unique sid d w t tr0 o p :
  observe g w t = (tr0, Ret o) ->
  plan d o = Some p ->
  has_work p = true ->
  let run := ensure_db_state g home name unique sid d w t in
  let first :=
    if immediate_first p then immediate_part g w p
    else restart_part g w home name unique sid o p in
  let second :=
    if immediate_first p then restart_part g w home name unique sid o p
    else immediate_part g w p in
  run = ((tr0 ++ first ++ second)%list,
         ExitJson ("Database " ++ name
                     ++ " has been put in the intended state - "
                     ++ state_msg d) true)
  \/ (ends_in_failure run
      /\ exists tr2, trace_of run = (tr0 ++ first ++ tr2)%list
                     /\ is_prefix tr2 second)
  \/ (ends_in_failure run
      /\ exists tr1, trace_of run = (tr0 ++ tr1)%list /\ is_prefix tr1 first).
Proof.
  intros Ho Hp Hw run first second. subst run.
  unfold ensure_db_state. rewrite (bind_ret_run _ _ _ _ _ _ Ho), Hp.
  pose proof (execute_plan_ends g home name unique sid d o p w (t + length tr0))
    as H. cbv zeta in H. rewrite Hw in H.
  unfold ends_in_failure. cbn [trace_of outcome_of fst snd].
  destruct H as [H | [[Hf (tr2 & Htr & Hpre)] | [Hf Hpre]]].
  - left. now rewrite H.
  - right. left. split; [exact Hf |]. exists tr2. now rewrite Htr.
  - right. right. split; [exact Hf |]. eexists. split; [reflexivity | exact Hpre].
Qed.

(** a pass without work ends at once, with the report that fits *)
Lemma ensure_db_state_idle g home name unique sid d w t tr0 o p :
  observe g w t = (tr0, Ret o) ->
  plan d o = Some p ->
  has_work p = false ->
  ensure_db_state g home name unique sid d w t
  = (tr0,
     if newdb g
     then ExitJson ("Database " ++ name ++ " successfully created created ("
                      ++ archcomp d ++ ") "
                      ++ (if String.eqb (output g) "verbose"
                          then Py.join " ," (verboselist g) else ""))
                   true
     else ExitJson (" Database " ++ name
                      ++ " already exists and is in the intended state - "
                      ++ state_msg d) false).
Proof.
  intros Ho Hp Hw.
  unfold ensure_db_state. rewrite (bind_ret_run _ _ _ _ _ _ Ho), Hp.
  pose proof (execute_plan_ends g home name unique sid d o p w (t + length tr0))
    as H. cbv zeta in H. rewrite Hw in H. rewrite H.
  cbn [trace_of outcome_of fst snd]. now rewrite app_nil_r.
Qed.

(** ** Passes on a host where every step succeeds *)

Lemma answer_to_succeeds w t e :
  steps_succeed w -> fst (fst (answer_to w t e)) = 0%Z.
Proof.
  intros (_ & _ & Hr & Hp). destruct e; cbn [answer_to]; auto.
Qed.

Lemma execute_all_succeeds sqls w :
  steps_succeed w ->
  forall t, execute_all sqls w t = (map Execute sqls, Ret tt).
Proof.
  intros Hs. induction sqls as [| sql rest IH]; intros t; cbn [execute_all map].
  - reflexivity.
  - rewrite (bind_ret_run _ _ _ _ _ _
               (execute_sql_run sql w t (proj1 (proj2 Hs) t sql))).
    now rewrite IH.
Qed.

Lemma restart_loop_succeeds g home name unique sid sqls w :
  steps_succeed w ->
  forall t,
    restart_loop g home name unique sid sqls w t
    = (flat_map (fun sql => [Execute sql; stop_event g home name unique sid;
                             start_event g home name unique sid]) sqls,
       Ret tt).
Proof.
  intros Hs. induction sqls as [| sql rest IH]; intros t;
    cbn [restart_loop flat_map].
  - reflexivity.
  - rewrite (bind_ret_run _ _ _ _ _ _
               (execute_sql_run sql w t (proj1 (proj2 Hs) t sql))).
    assert (Hstop : forall c, stop_db g home name unique sid w c
                              = ([stop_event g home name unique sid], Ret true)).
    { intros c. rewrite stop_db_run. cbv zeta.
      now rewrite (answer_to_succeeds _ _ _ Hs). }
    assert (Hstart : forall c, start_db g home name unique sid w c
                               = ([start_event g home name unique sid], Ret true)).
    { intros c. rewrite start_db_run. cbv zeta.
      now rewrite (answer_to_succeeds _ _ _ Hs). }
    rewrite (bind_ret_run _ _ _ _ _ _ (Hstop _)).
    erewrite (bind_ret_run _ _ _ _ _ _).
    2:{ rewrite (bind_ret_run _ _ _ _ _ _ (Hstart _)). reflexivity. }
    rewrite IH. reflexivity.
Qed.

Lemma apply_restart_changes_succeeds g home name unique sid instance rac sqls
      w t :
  steps_succeed w ->
  (forall c, getconn g w c = (session g w, Ret tt)) ->
  apply_restart_changes g home name unique sid instance rac sqls w t
  = (restart_batch g w home name unique sid instance rac sqls, Ret tt).
Proof.
  intros Hs Hg. unfold apply_restart_changes, restart_batch.
  unfold bind at 1. rewrite stop_db_run. cbv zeta.
  rewrite (answer_to_succeeds _ _ _ Hs). cbn [Z.eqb].
  unfold bind at 1. rewrite start_instance_run. cbv zeta.
  rewrite (answer_to_succeeds _ _ _ Hs). cbn [Z.eqb].
  unfold bind at 1. unfold ask at 1.
  unfold bind at 1. rewrite Hg.
  rewrite (restart_loop_succeeds _ _ _ _ _ _ _ Hs). reflexivity.
Qed.

Lemma apply_norestart_changes_succeeds g sqls w t :
  steps_succeed w ->
  (forall c, getconn g w c = (session g w, Ret tt)) ->
  apply_norestart_changes g sqls w t = (immediate_batch g w sqls, Ret tt).
Proof.
  intros Hs Hg. unfold apply_norestart_changes, immediate_batch.
  unfold bind. rewrite Hg. now rewrite (execute_all_succeeds _ _ Hs).
Qed.

Lemma observe_opens_session g w t tr0 o :
  observe g w t = (tr0, Ret o) ->
  steps_succeed w ->
  forall c, getconn g w c = (session g w, Ret tt).
Proof.
  intros Ho Hs c. unfold observe in Ho.
  apply bind_ret_inv in Ho. destruct Ho as (tr1 & [] & tr2 & Hg & _ & _).
  destruct (emits_getconn g w t) as [_ Hfull]. rewrite Hg in Hfull.
  destruct (Hfull tt eq_refl) as [Htr _]. cbn [trace_of fst] in Htr. subst tr1.
  exact (getconn_again g w t c Hg (proj1 Hs c _)).
Qed.

(** on such a host a pass with work carries its plan out in full *)
Lemma ensure_db_state_succeeds g home name unique sid d w t tr0 o p :
  observe g w t = (tr0, Ret o) ->
  plan d o = Some p ->
  has_work p = true ->
  steps_succeed w ->
  ensure_db_state g home name unique sid d w t
  = ((tr0
        ++ (if immediate_first p then immediate_part g w p
            else restart_part g w home name unique sid o p)
        ++ (if immediate_first p
            then restart_part g w home name unique sid o p
            else immediate_part g w p))%list,
     ExitJson ("Database " ++ name ++ " has been put in the intended state - "
                 ++ state_msg d) true).
Proof.
  intros Ho Hp Hw Hs.
  pose proof (observe_opens_session g w t tr0 o Ho Hs) as Hg.
  unfold ensure_db_state. rewrite (bind_ret_run _ _ _ _ _ _ Ho), Hp.
  unfold execute_plan. unfold has_work in Hw. rewrite Hw.
  assert (Hr : forall c,
             (if (0 <? length (change_restart_sql p))%nat
              then apply_restart_changes g home name unique sid
                     (instance_name o) (israc o) (change_restart_sql p)
              else ret tt) w c
             = (restart_part g w home name unique sid o p, Ret tt)).
  { intros c. unfold restart_part.
    destruct (0 <? length (change_restart_sql p))%nat; [| reflexivity].
    now apply apply_restart_changes_succeeds. }
  assert (Hi : forall c,
             (if (0 <? length (change_db_sql p))%nat
              then apply_norestart_changes g (change_db_sql p)
              else ret tt) w c
             = (immediate_part g w p, Ret tt)).
  { intros c. unfold immediate_part.
    destruct (0 <? length (change_db_sql p))%nat; [| reflexivity].
    now apply apply_norestart_changes_succeeds. }
  destruct (immediate_first p).
  - erewrite (bind_ret_run _ _ _ _ _ tt).
    2:{ rewrite (bind_ret_run _ _ _ _ _ _ (Hi _)), Hr. reflexivity. }
    cbn [exit_json trace_of outcome_of fst snd]. now rewrite app_nil_r.
  - erewrite (bind_ret_run _ _ _ _ _ tt).
    2:{ rewrite (bind_ret_run _ _ _ _ _ _ (Hr _)), Hi. reflexivity. }
    cbn [exit_json trace_of outcome_of fst snd]. now rewrite app_nil_r.
Qed.

(** the hosts of [Sample] are such hosts as long as their commands succeed *)
Lemma sample_steps_succeed tab olr rows :
  steps_succeed (Sample.world Sample.all_fine tab olr rows).
Proof. repeat split. Qed.

(** C1: when the live instance is in archivelog mode with flashback on and
    both are declared off, the plan puts the immediate batch first: it holds
    the flashback-off statement among the immediate ones and the
    noarchivelog statement as its restart batch.  A pass over such an
    instance ends in one of three ways: both batches were carried out in
    full, the immediate one first, and a change is reported; or the whole
    immediate batch was carried out and a step of the restart batch failed;
    or a step of the immediate batch failed and nothing of the restart batch
    was done.  On a host where every step succeeds it ends the first way. *)
Theorem immediate_batch_before_archivelog_off :
  forall g home name unique sid d w t tr0 o p,
    observe g w t = (tr0, Ret o) ->
    plan d o = Some p ->
    live o 0 = Some "ARCHIVELOG" ->
    live o 2 = Some "YES" ->
    archivelog d = false ->
    flashback d = false ->
    let run := ensure_db_state g home name unique sid d w t in
    let immediate := immediate_batch g w (change_db_sql p) in
    let restart :=
      restart_batch g w home name unique sid (instance_name o) (israc o)
                    ["alter database noarchivelog"] in
    let report :=
      ExitJson ("Database " ++ name ++ " has been put in the intended state - "
                  ++ state_msg d) true in
    (immediate_first p = true
     /\ change_restart_sql p = ["alter database noarchivelog"]
     /\ In "alter database flashback off" (change_db_sql p))
    /\ (run = ((tr0 ++ immediate ++ restart)%list, report)
        \/ (ends_in_failure run
            /\ exists tr2, trace_of run = (tr0 ++ immediate ++ tr2)%list
                           /\ is_prefix tr2 restart)
        \/ (ends_in_failure run
            /\ exists tr1, trace_of run = (tr0 ++ tr1)%list
                           /\ is_prefix tr1 immediate))
    /\ (steps_succeed w ->
        run = ((tr0 ++ immediate ++ restart)%list, report)).
Proof.
  intros g home name unique sid d w t tr0 o p Ho Hp Hlm Hfb Ha Hf.
  destruct (plan_inv d o p Hp) as (lm & fl & fb & E0 & E1 & E2 & Hrs & Hdb & Hif).
  rewrite Hlm in E0. rewrite Hfb in E2. inversion E0; inversion E2; subst lm fb.
  unfold archcomp, archsql, fbcomp, fbsql in *. rewrite Ha, Hf in *.
  cbn in Hrs, Hif.
  assert (Hin : In "alter database flashback off" (change_db_sql p)).
  { rewrite Hdb. now apply In_append_if_new. }
  assert (Hpos : (0 <? length (change_db_sql p))%nat = true).
  { destruct (change_db_sql p); [destruct Hin | reflexivity]. }
  assert (Hw : has_work p = true) by (unfold has_work; now rewrite Hpos).
  assert (Hi : immediate_part g w p = immediate_batch g w (change_db_sql p)).
  { unfold immediate_part. now rewrite Hpos. }
  assert (Hr : restart_part g w home name unique sid o p
               = restart_batch g w home name unique sid (instance_name o)
                               (israc o) ["alter database noarchivelog"]).
  { unfold restart_part. now rewrite Hrs. }
  cbv zeta. split; [auto |]. split.
  - pose proof (ensure_db_state_ends g home name unique sid d w t tr0 o p
                  Ho Hp Hw) as H.
    cbv zeta in H. rewrite Hif, Hi, Hr in H. exact H.
  - intros Hs.
    rewrite (ensure_db_state_succeeds g home name unique sid d w t tr0 o p
               Ho Hp Hw Hs).
    now rewrite Hif, Hi, Hr.
Qed.

Lemma immediate_batch_before_archivelog_off_witness :
  let g := Sample.globals false in
  let w := Sample.standalone "ARCHIVELOG" "NO" "YES" in
  let d := Sample.wanted false false false in
  ensure_db_state g "/opt/db/a" "orcl" None None d w 0
  = ((Sample.observation
        ++ [Connect "localhost:1521/orcl";
            Execute "alter database flashback off"]
        ++ [stop_event g "/opt/db/a" "orcl" None None;
            mount_event g "/opt/db/a" "orcl" None None "orcl" false;
            Sleep 10; Connect "localhost:1521/orcl";
            Execute "alter database noarchivelog";
            stop_event g "/opt/db/a" "orcl" None None;
            start_event g "/opt/db/a" "orcl" None None])%list,
     ExitJson "Database orcl has been put in the intended state - Archivelog: False, Force Logging: False, Flashback: False"
              true).
Proof.
  intros g w d.
  exact (proj2 (proj2 (immediate_batch_before_archivelog_off
                         g "/opt/db/a" "orcl" None None d w 0
                         Sample.observation
                         (Sample.observed "ARCHIVELOG" "NO" "YES")
                         {| change_restart_sql := ["alter database noarchivelog"];
                            change_db_sql := ["alter database flashback off"];
                            immediate_first := true |}
                         eq_refl eq_refl eq_refl eq_refl eq_refl eq_refl))
               (sample_steps_succeed _ _ _)).
Defined.

Lemma cell_is_eq (o : option string) (s : string) :
  cell_is o s = true -> o = Some s.
Proof.
  destruct o as [x |]; cbn; [| discriminate].
  intros H. apply String.eqb_eq in H. now subst.
Qed.

(** When the tablespace comparisons find nothing, the plan exists as soon as
    the log check has its three cells, and holds only what they yield. *)
Lemma plan_of_logs (d : Declared) (o : Observed) (lm fl fb : string) :
  tablespaces_agree d o = true ->
  live o 0 = Some lm -> live o 1 = Some fl -> live o 2 = Some fb ->
  plan d o
  = Some {| change_restart_sql :=
              append_if (negb (String.eqb lm (archcomp d))) (archsql d) [];
            change_db_sql :=
              append_if (negb (String.eqb fb (fbcomp d))) (fbsql d)
                (append_if (negb (String.eqb fl (flcomp d))) (flsql d) []);
            immediate_first :=
              String.eqb lm "ARCHIVELOG" && String.eqb fb "YES"
              && negb (archivelog d) && negb (flashback d) |}.
Proof.
  unfold tablespaces_agree, live, plan. intros Hts H0 H1 H2.
  apply andb_prop in Hts. destruct Hts as [Hts Htemp].
  apply andb_prop in Hts. destruct Hts as [Hty Hperm].
  apply cell_is_eq in Hty. rewrite Hty. rewrite String.eqb_refl. cbn [negb append_if].
  destruct (log_check_ o) as [| [| a [| b [| c more]]] rows];
    cbn in H0, H1, H2; try discriminate.
  inversion H0; inversion H1; inversion H2; subst a b c.
  destruct (default_tablespace d) as [t1 |];
    [apply cell_is_eq in Hperm; rewrite Hperm, String.eqb_refl |];
    (destruct (default_temp_tablespace d) as [t2 |];
     [apply cell_is_eq in Htemp; rewrite Htemp, String.eqb_refl |]);
    reflexivity.
Qed.

Lemma immediate_first_false (d : Declared) (o : Observed) (lm fb : string) :
  live o 0 = Some lm -> live o 2 = Some fb ->
  ~ (live o 0 = Some "ARCHIVELOG" /\ live o 2 = Some "YES"
     /\ archivelog d = false /\ flashback d = false) ->
  String.eqb lm "ARCHIVELOG" && String.eqb fb "YES"
  && negb (archivelog d) && negb (flashback d) = false.
Proof.
  intros H0 H2 Hn.
  destruct (String.eqb lm "ARCHIVELOG" && String.eqb fb "YES"
            && negb (archivelog d) && negb (flashback d)) eqn:E;
    [| reflexivity].
  exfalso. apply Hn.
  repeat (apply andb_prop in E; destruct E as [E ?]).
  apply String.eqb_eq in E. subst lm.
  match goal with H : String.eqb fb _ = true |- _ =>
    apply String.eqb_eq in H; subst fb end.
  repeat match goal with H : negb _ = true |- _ =>
    apply negb_true_iff in H end.
  auto.
Qed.

(** C2: in every combination other than (live archivelog on, live flashback
    on, declared archivelog off, declared flashback off) the plan puts the
    restart batch first.  A pass then ends in one of three ways: the restart
    batch and after it the immediate batch were carried out in full and the
    pass reports (a change, when there was anything to do or the instance
    was created in this run); or the whole restart batch was carried out and
    a step of the immediate batch failed; or a step of the restart batch
    failed and nothing of the immediate batch was done.  On a host where
    every step succeeds it ends the first way.  When archivelog and
    flashback both go from off to on, the restart batch is the whole
    archivelog cycle and flashback on belongs to the immediate batch, which
    such a host sees carried out after the cycle. *)
Theorem restart_batch_before_immediate :
  forall g home name unique sid d w t tr0 o p,
    observe g w t = (tr0, Ret o) ->
    plan d o = Some p ->
    ~ (live o 0 = Some "ARCHIVELOG" /\ live o 2 = Some "YES"
       /\ archivelog d = false /\ flashback d = false) ->
    let run := ensure_db_state g home name unique sid d w t in
    let restart := restart_part g w home name unique sid o p in
    let immediate := immediate_part g w p in
    immediate_first p = false
    /\ ((exists msg,
            run = ((tr0 ++ restart ++ immediate)%list,
                   ExitJson msg (has_work p || newdb g)))
        \/ (ends_in_failure run
            /\ exists tr2, trace_of run = (tr0 ++ restart ++ tr2)%list
                           /\ is_prefix tr2 immediate)
        \/ (ends_in_failure run
            /\ exists tr1, trace_of run = (tr0 ++ tr1)%list
                           /\ is_prefix tr1 restart))
    /\ (steps_succeed w ->
        exists msg,
          run = ((tr0 ++ restart ++ immediate)%list,
                 ExitJson msg (has_work p || newdb g)))
    /\ (live o 0 = Some "NOARCHIVELOG" -> live o 2 = Some "NO" ->
        archivelog d = true -> flashback d = true ->
        restart
        = [stop_event g home name unique sid;
           mount_event g home name unique sid (instance_name o) (israc o);
           Sleep 10; Connect (descriptor g w);
           Execute "alter database archivelog";
           stop_event g home name unique sid;
           start_event g home name unique sid]
        /\ immediate = immediate_batch g w (change_db_sql p)
        /\ In "alter database flashback on" (change_db_sql p)
        /\ ~ In "alter database flashback on" (change_restart_sql p)).
Proof.
  intros g home name unique sid d w t tr0 o p Ho Hp Hn.
  destruct (plan_inv d o p Hp) as (lm & fl & fb & E0 & E1 & E2 & Hrs & Hdb & Hif).
  rewrite (immediate_first_false d o lm fb E0 E2 Hn) in Hif.
  cbv zeta. split; [exact Hif |].
  assert (Hidle : has_work p = false ->
                  exists msg,
                    ensure_db_state g home name unique sid d w t
                    = ((tr0 ++ restart_part g w home name unique sid o p
                          ++ immediate_part g w p)%list,
                       ExitJson msg (has_work p || newdb g))).
  { intros Hw.
    rewrite (ensure_db_state_idle g home name unique sid d w t tr0 o p Ho Hp Hw).
    unfold has_work in Hw. apply orb_false_iff in Hw. destruct Hw as [Hd Hr].
    unfold restart_part, immediate_part, has_work. rewrite Hd, Hr.
    cbn [orb app]. rewrite app_nil_r.
    destruct (newdb g); eexists; reflexivity. }
  split; [| split].
  - destruct (has_work p) eqn:Hw.
    + pose proof (ensure_db_state_ends g home name unique sid d w t tr0 o p
                    Ho Hp Hw) as H.
      cbv zeta in H. rewrite Hif in H.
      destruct H as [H | [H | H]]; [left | right; left | right; right];
        [| exact H | exact H].
      eexists. exact H.
    + left. destruct (Hidle eq_refl) as [msg H]. exists msg.
      exact H.
  - intros Hs. destruct (has_work p) eqn:Hw.
    + eexists.
      rewrite (ensure_db_state_succeeds g home name unique sid d w t tr0 o p
                 Ho Hp Hw Hs).
      rewrite Hif. reflexivity.
    + destruct (Hidle eq_refl) as [msg H]. exists msg.
      exact H.
  - intros Hlm Hfb Ha Hf.
    rewrite Hlm in E0. rewrite Hfb in E2. inversion E0; inversion E2; subst lm fb.
    unfold archcomp, archsql, fbcomp, fbsql in *. rewrite Ha, Hf in *.
    cbn in Hrs.
    assert (Hin : In "alter database flashback on" (change_db_sql p)).
    { rewrite Hdb. now apply In_append_if_new. }
    split; [unfold restart_part; rewrite Hrs; reflexivity |].
    split; [| split; [exact Hin |]].
    + unfold immediate_part.
      destruct (change_db_sql p) as [| s l] eqn:El; [destruct Hin | reflexivity].
    + rewrite Hrs. intros [H | []]. discriminate.
Qed.

Lemma restart_batch_before_immediate_witness :
  let g := Sample.globals false in
  let w := Sample.standalone "NOARCHIVELOG" "NO" "NO" in
  let d := Sample.wanted true false true in
  exists msg,
    ensure_db_state g "/opt/db/a" "orcl" None None d w 0
    = ((Sample.observation
          ++ [stop_event g "/opt/db/a" "orcl" None None;
              mount_event g "/opt/db/a" "orcl" None None "orcl" false;
              Sleep 10; Connect "localhost:1521/orcl";
              Execute "alter database archivelog";
              stop_event g "/opt/db/a" "orcl" None None;
              start_event g "/opt/db/a" "orcl" None None]
          ++ [Connect "localhost:1521/orcl";
              Execute "alter database flashback on"])%list,
       ExitJson msg true).
Proof.
  intros g w d.
  exact (proj1 (proj2 (proj2 (restart_batch_before_immediate
              g "/opt/db/a" "orcl" None None d w 0 Sample.observation
              (Sample.observed "NOARCHIVELOG" "NO" "NO")
              {| change_restart_sql := ["alter database archivelog"];
                 change_db_sql := ["alter database flashback on"];
                 immediate_first := false |}
              eq_refl eq_refl
              (fun H => match H with
                        | conj H0 _ =>
                            eq_ind (Some "NOARCHIVELOG")
                                   (fun x => match x with
                                             | Some "NOARCHIVELOG" => True
                                             | _ => False
                                             end) I _ H0
                        end))))
               (sample_steps_succeed _ _ _)).
Defined.



(** ** One observation per pass *)

Lemma emits_raise {A} (exc : string) w t full (P : A -> Prop) :
  emits (raise exc) w t full P.
Proof. split; [apply is_prefix_nil | discriminate]. Qed.

Lemma emits_index {A B} (l : list A) (i : nat) (k : A -> M B) w t full
      (P : B -> Prop) :
  (forall a, emits (k a) w t full P) -> emits (index l i k) w t full P.
Proof.
  intros H. unfold index. destruct (nth_error l i); [apply H | apply emits_raise].
Qed.

Lemma emits_execute_sql_get sql w t :
  emits (execute_sql_get sql) w t [Fetchall sql] any.
Proof.
  unfold execute_sql_get, emits, bind, ask, ret, fail_json. cbn.
  destruct (fetchall w t sql); cbn.
  - split; [apply is_prefix_refl |]. intros a H. now split.
  - split; [apply is_prefix_refl | discriminate].
Qed.

Lemma emits_observe g w t :
  emits (observe g) w t
        (session g w
           ++ [Fetchall propsql; Fetchall israc_sql; Fetchall log_check_sql])%list
        any.
Proof.
  unfold observe.
  eapply emits_bind; [apply emits_getconn |]. intros _ _.
  change [Fetchall propsql; Fetchall israc_sql; Fetchall log_check_sql]
    with ([Fetchall propsql] ++ [Fetchall israc_sql]
            ++ [Fetchall log_check_sql] ++ [])%list.
  eapply emits_bind; [apply emits_execute_sql_get |]. intros props _.
  destruct props as [| r1 [| r2 [| r3 [| r4 more]]]];
    try apply emits_raise.
  eapply emits_bind; [apply emits_execute_sql_get |]. intros topology _.
  unfold cell. apply emits_index. intros row. apply emits_index. intros inst.
  eapply emits_bind; [apply emits_execute_sql_get |]. intros logs _.
  apply emits_index. intros row'. apply emits_index. intros parallel.
  eapply emits_weaken; [| apply emits_ret]. now intros.
Qed.

Lemma lifecycle_events_not_sql g home name unique sid instance rac e :
  e = stop_event g home name unique sid
  \/ e = start_event g home name unique sid
  \/ e = mount_event g home name unique sid instance rac ->
  (forall sql, e <> Fetchall sql) /\ (forall sql, e <> Execute sql).
Proof.
  unfold stop_event, start_event, mount_event.
  intros [-> | [-> | ->]]; destruct (gimanaged g); split; discriminate.
Qed.

Lemma in_immediate_batch g w sqls e :
  In e (immediate_batch g w sqls) ->
  (forall sql, e <> Fetchall sql)
  /\ (forall sql, e = Execute sql -> In sql sqls).
Proof.
  unfold immediate_batch, session. intros H.
  apply in_app_or in H. destruct H as [[<- | []] | H].
  - split; discriminate.
  - apply in_map_iff in H. destruct H as (s & <- & Hs).
    split; [discriminate |]. intros sql E. now inversion E; subst.
Qed.

Lemma in_restart_batch g w home name unique sid instance rac sqls e :
  In e (restart_batch g w home name unique sid instance rac sqls) ->
  (forall sql, e <> Fetchall sql)
  /\ (forall sql, e = Execute sql -> In sql sqls).
Proof.
  unfold restart_batch, session. intros H.
  assert (Hlife : forall x,
             x = stop_event g home name unique sid
             \/ x = start_event g home name unique sid
             \/ x = mount_event g home name unique sid instance rac ->
             (forall sql, x <> Fetchall sql)
             /\ (forall sql, x = Execute sql -> In sql sqls)).
  { intros x Hx.
    destruct (lifecycle_events_not_sql g home name unique sid instance rac x Hx)
      as [H1 H2].
    split; [exact H1 |]. intros sql E. now destruct (H2 sql). }
  cbn [app] in H.
  destruct H as [<- | [<- | [<- | [<- | H]]]]; auto.
  - split; discriminate.
  - split; discriminate.
  - apply in_flat_map in H. destruct H as (s & Hs & [<- | [<- | [<- | []]]]); auto.
    split; [discriminate |]. intros sql E. now inversion E; subst.
Qed.

Lemma in_parts g w home name unique sid o p e :
  In e (restart_part g w home name unique sid o p)
  \/ In e (immediate_part g w p) ->
  (forall sql, e <> Fetchall sql)
  /\ (forall sql, e = Execute sql ->
                  In sql (change_restart_sql p ++ change_db_sql p)%list).
Proof.
  unfold restart_part, immediate_part. intros [H | H].
  - destruct (0 <? length (change_restart_sql p))%nat; [| destruct H].
    apply in_restart_batch in H. destruct H as [H1 H2].
    split; [exact H1 |]. intros sql E. apply in_or_app. left. auto.
  - destruct (0 <? length (change_db_sql p))%nat; [| destruct H].
    apply in_immediate_batch in H. destruct H as [H1 H2].
    split; [exact H1 |]. intros sql E. apply in_or_app. right. auto.
Qed.

(** C4, as the code has it: the pass reads the live properties once, at its
    start, through one session and three queries; whatever it does after
    that observation contains no further read, and every statement it
    executes was planned from that observation. *)
Theorem observation_is_taken_once :
  forall g home name unique sid d w t tr0 o,
    observe g w t = (tr0, Ret o) ->
    tr0 = (session g w
             ++ [Fetchall propsql; Fetchall israc_sql; Fetchall log_check_sql])%list
    /\ exists rest,
        trace_of (ensure_db_state g home name unique sid d w t)
        = (tr0 ++ rest)%list
        /\ (forall sql, ~ In (Fetchall sql) rest)
        /\ (forall p sql,
               plan d o = Some p -> In (Execute sql) rest ->
               In sql (change_restart_sql p ++ change_db_sql p)%list).
Proof.
  intros g home name unique sid d w t tr0 o Ho. split.
  - destruct (emits_observe g w t) as [_ H]. rewrite Ho in H.
    now destruct (H o eq_refl).
  - destruct (plan d o) as [p |] eqn:Hp.
    + rewrite (ensure_db_state_run _ _ _ _ _ _ _ _ _ _ _ Ho Hp).
      destruct (execute_plan_order g home name unique sid d o p w (t + length tr0))
        as (tr1 & tr2 & E & H1 & H2 & _).
      exists (tr1 ++ tr2)%list. rewrite E. split; [reflexivity |].
      assert (Hin : forall e, In e (tr1 ++ tr2)%list ->
                 In e (restart_part g w home name unique sid o p)
                 \/ In e (immediate_part g w p)).
      { intros e He. apply in_app_or in He.
        destruct (immediate_first p), He as [He | He];
          eauto using is_prefix_In. }
      split.
      * intros sql Hs. apply Hin, in_parts in Hs. now destruct Hs as [Hs _], (Hs sql).
      * intros p' sql Hp' Hs. inversion Hp'; subst p'.
        apply Hin, in_parts in Hs. destruct Hs as [_ Hs]. now apply Hs.
    + exists []. unfold ensure_db_state.
      rewrite (bind_ret_run _ _ _ _ _ _ Ho). rewrite Hp. cbn.
      split; [reflexivity |]. split; [now intros sql [] | discriminate].
Qed.

Lemma observation_is_taken_once_witness :
  let g := Sample.globals false in
  let w := Sample.standalone "NOARCHIVELOG" "NO" "NO" in
  let d := Sample.wanted true false true in
  exists rest,
    trace_of (ensure_db_state g "/opt/db/a" "orcl" None None d w 0)
    = (Sample.observation ++ rest)%list
    /\ (forall sql, ~ In (Fetchall sql) rest).
Proof.
  intros g w d.
  destruct (observation_is_taken_once
              g "/opt/db/a" "orcl" None None d w 0 Sample.observation
              (Sample.observed "NOARCHIVELOG" "NO" "NO") eq_refl)
    as (_ & rest & E & H & _).
  exists rest. split; [exact E | exact H].
Defined.

(** C4 as the specification words it does not hold: on a host where
    archivelog and flashback are both to be turned on, the immediate batch
    follows the restart batch and nothing is read between them. *)
Lemma no_read_after_restart_batch :
  let g := Sample.globals false in
  let w := Sample.standalone "NOARCHIVELOG" "NO" "NO" in
  let d := Sample.wanted true false true in
  exists before after,
    trace_of (ensure_db_state g "/opt/db/a" "orcl" None None d w 0)
    = (before ++ start_event g "/opt/db/a" "orcl" None None :: after)%list
    /\ In (Execute "alter database archivelog") before
    /\ In (Execute "alter database flashback on") after
    /\ ~ (exists sql, In (Fetchall sql) after).
Proof.
  intros g w d.
  exists (Sample.observation
            ++ [stop_event g "/opt/db/a" "orcl" None None;
                mount_event g "/opt/db/a" "orcl" None None "orcl" false;
                Sleep 10; Connect "localhost:1521/orcl";
                Execute "alter database archivelog";
                stop_event g "/opt/db/a" "orcl" None None])%list,
         [Connect "localhost:1521/orcl"; Execute "alter database flashback on"].
  split; [reflexivity |].
  split; [cbn; auto 12 |].
  split; [cbn; auto |].
  intros [sql [H | [H | []]]]; discriminate.
Qed.

(** ** The driver *)

Lemma main_run p w t tr0 g home :
  setup p w t = (tr0, Ret (g, home)) ->
  main p w t
  = ((tr0 ++ trace_of (dispatch p g home w (t + length tr0)))%list,
     outcome_of (dispatch p g home w (t + length tr0))).
Proof. intros H. unfold main. now rewrite (bind_ret_run _ _ _ _ _ _ H). Qed.

(** C5, as the code has it: when the declared properties are the observed
    ones the plan is empty, and the pass has done nothing but observe when
    it reports: changed=false for an instance that was not created in this
    run, changed=true for one that was.  In the driver: a pass with target
    present that finds the instance and observes it converged ends with
    changed=false; one that does not find it, creates it and observes it
    converged ends with changed=true. *)
Theorem converged_pass_reports_no_change :
  (forall d o,
      converged d o = true ->
      plan d o = Some {| change_restart_sql := [];
                         change_db_sql := [];
                         immediate_first := false |})
  /\ (forall g home name unique sid d w t tr0 o,
         observe g w t = (tr0, Ret o) ->
         converged d o = true ->
         ensure_db_state g home name unique sid d w t
         = (tr0,
            if newdb g
            then ExitJson ("Database " ++ name
                             ++ " successfully created created ("
                             ++ archcomp d ++ ") "
                             ++ (if String.eqb (output g) "verbose"
                                 then Py.join " ," (verboselist g) else ""))
                          true
            else ExitJson (" Database " ++ name
                             ++ " already exists and is in the intended state - "
                             ++ state_msg d) false))
  /\ (forall p w t tr0 g home tr v tr1 o,
         state p = "present" ->
         setup p w t = (tr0, Ret (g, home)) ->
         check_db_exists g home (db_name p) (sid p) (db_unique_name p) w
                         (t + length tr0) = (tr, Ret v) ->
         Py.is_true v = true ->
         observe g w (t + length tr0 + length tr) = (tr1, Ret o) ->
         converged (declared p) o = true ->
         main p w t
         = ((tr0 ++ tr ++ tr1)%list,
            ExitJson (" Database " ++ db_name p
                        ++ " already exists and is in the intended state - "
                        ++ state_msg (declared p)) false))
  /\ (forall p w t tr0 g home tr v trc verbose tr1 o,
         state p = "present" ->
         setup p w t = (tr0, Ret (g, home)) ->
         check_db_exists g home (db_name p) (sid p) (db_unique_name p) w
                         (t + length tr0) = (tr, Ret v) ->
         Py.is_true v = false ->
         create_db g home (create p) (db_name p) (sid p) (db_unique_name p) w
                   (t + length tr0 + length tr) = (trc, Ret verbose) ->
         observe (set_newdb g true verbose) w
                 (t + length tr0 + length tr + length trc) = (tr1, Ret o) ->
         converged (declared p) o = true ->
         main p w t
         = ((tr0 ++ tr ++ trc ++ tr1)%list,
            ExitJson ("Database " ++ db_name p
                        ++ " successfully created created ("
                        ++ archcomp (declared p) ++ ") "
                        ++ (if String.eqb (param_output p) "verbose"
                            then Py.join " ," verbose else ""))
                     true)).
Proof.
  assert (Hplan : forall d o,
             converged d o = true ->
             plan d o = Some {| change_restart_sql := [];
                                change_db_sql := [];
                                immediate_first := false |}).
  { intros d o Hc. unfold converged in Hc.
    do 3 (apply andb_prop in Hc; destruct Hc as [Hc ?]).
    repeat match goal with H : cell_is _ _ = true |- _ =>
      apply cell_is_eq in H end.
    rewrite (plan_of_logs d o (archcomp d) (flcomp d) (fbcomp d)) by assumption.
    rewrite !String.eqb_refl. cbn [negb append_if].
    unfold archcomp, fbcomp.
    now destruct (archivelog d), (flashback d). }
  assert (Hrun : forall g home name unique sid d w t tr0 o,
             observe g w t = (tr0, Ret o) ->
             converged d o = true ->
             ensure_db_state g home name unique sid d w t
             = (tr0,
                if newdb g
                then ExitJson ("Database " ++ name
                                 ++ " successfully created created ("
                                 ++ archcomp d ++ ") "
                                 ++ (if String.eqb (output g) "verbose"
                                     then Py.join " ," (verboselist g) else ""))
                              true
                else ExitJson (" Database " ++ name
                                 ++ " already exists and is in the intended state - "
                                 ++ state_msg d) false)).
  { intros g home name unique sid d w t tr0 o Ho Hc.
    exact (ensure_db_state_idle g home name unique sid d w t tr0 o _ Ho
                                (Hplan d o Hc) eq_refl). }
  split; [exact Hplan |]. split; [exact Hrun |]. split.
  - intros p w t tr0 g home tr v tr1 o Hs Hsetup Hc Hv Ho Hconv.
    destruct (setup_globals _ _ _ _ _ _ Hsetup) as (_ & _ & _ & _ & Hn & _).
    assert (Hd : dispatch p g home w (t + length tr0)
                 = ((tr ++ tr1)%list,
                    ExitJson (" Database " ++ db_name p
                                ++ " already exists and is in the intended state - "
                                ++ state_msg (declared p)) false)).
    { unfold dispatch. rewrite Hs.
      change (String.eqb "present" "started") with false.
      change (String.eqb "present" "present") with true.
      cbv iota. unfold bind. rewrite Hc, Hv. cbn [negb].
      rewrite (Hrun g home (db_name p) (db_unique_name p) (sid p) (declared p)
                 w _ tr1 o Ho Hconv), Hn.
      reflexivity. }
    rewrite (main_run _ _ _ _ _ _ Hsetup), Hd. reflexivity.
  - intros p w t tr0 g home tr v trc verbose tr1 o
           Hs Hsetup Hc Hv Hcr Ho Hconv.
    destruct (setup_globals _ _ _ _ _ _ Hsetup) as (_ & _ & Hout & _).
    assert (Hd : dispatch p g home w (t + length tr0)
                 = ((tr ++ trc ++ tr1)%list,
                    ExitJson ("Database " ++ db_name p
                                ++ " successfully created created ("
                                ++ archcomp (declared p) ++ ") "
                                ++ (if String.eqb (param_output p) "verbose"
                                    then Py.join " ," verbose else ""))
                             true)).
    { unfold dispatch. rewrite Hs.
      change (String.eqb "present" "started") with false.
      change (String.eqb "present" "present") with true.
      cbv iota. unfold bind. rewrite Hc, Hv. cbn [negb]. rewrite Hcr.
      rewrite (Hrun (set_newdb g true verbose) home (db_name p)
                 (db_unique_name p) (sid p) (declared p) w _ tr1 o Ho Hconv).
      cbn [set_newdb newdb output verboselist]. rewrite Hout. reflexivity. }
    rewrite (main_run _ _ _ _ _ _ Hsetup), Hd. reflexivity.
Qed.

Lemma converged_pass_reports_no_change_witness :
  main (Sample.params "present" None None (Sample.wanted false false false))
       (Sample.standalone "NOARCHIVELOG" "NO" "NO") 0
  = ((RunCommand "/opt/db/a/bin/sqlplus -V" :: Sample.observation)%list,
     ExitJson (" Database orcl already exists and is in the intended state - "
                 ++ "Archivelog: False, Force Logging: False, Flashback: False")
              false)
  /\ outcome_of
       (main (Sample.params "present" None None
                            (Sample.wanted false false false))
             Sample.empty_host 0)
     = ExitJson "Database orcl successfully created created (NOARCHIVELOG) "
                true.
Proof.
  split.
  - exact (proj1 (proj2 (proj2 converged_pass_reports_no_change))
                 (Sample.params "present" None None
                                (Sample.wanted false false false))
                 (Sample.standalone "NOARCHIVELOG" "NO" "NO") 0
                 [RunCommand "/opt/db/a/bin/sqlplus -V"]
                 (Sample.globals false) "/opt/db/a" [] Py.PyTrue
                 Sample.observation
                 (Sample.observed "NOARCHIVELOG" "NO" "NO")
                 eq_refl eq_refl eq_refl eq_refl eq_refl eq_refl).
  - exact (f_equal snd
             (proj2 (proj2 (proj2 converged_pass_reports_no_change))
                    (Sample.params "present" None None
                                   (Sample.wanted false false false))
                    Sample.empty_host 0
                    [RunCommand "/opt/db/a/bin/sqlplus -V"]
                    (Sample.globals false) "/opt/db/a" [] Py.PyFalse
                    _ [] Sample.observation
                    (Sample.observed "NOARCHIVELOG" "NO" "NO")
                    eq_refl eq_refl eq_refl eq_refl eq_refl eq_refl eq_refl)).
Defined.

(** C5 as the specification words it does not hold: a pass that has just
    created the instance finds the declared properties equal to the observed
    ones, plans nothing, and still reports changed=true. *)
Lemma created_and_converged_reports_change :
  let p := Sample.params "present" None None (Sample.wanted false false false) in
  let o := Sample.observed "NOARCHIVELOG" "NO" "NO" in
  converged (declared p) o = true
  /\ plan (declared p) o = Some {| change_restart_sql := [];
                                  change_db_sql := [];
                                  immediate_first := false |}
  /\ (exists create_events,
         trace_of (main p Sample.empty_host 0)
         = (create_events ++ Sample.observation)%list
         /\ observe (set_newdb (Sample.globals false) true []) Sample.empty_host
                    (length create_events)
            = (Sample.observation, Ret o))
  /\ outcome_of (main p Sample.empty_host 0)
     = ExitJson "Database orcl successfully created created (NOARCHIVELOG) "
                true.
Proof.
  cbv zeta. split; [reflexivity |]. split; [reflexivity |]. split.
  - eexists [_; _]. split; reflexivity.
  - reflexivity.
Qed.

(** C8: a pass with target absent whose locator reports no instance ends
    with changed=false and no failure, having done nothing more. *)
Theorem absent_and_not_found_is_no_change :
  forall p w t tr0 g home tr v,
    state p = "absent" ->
    setup p w t = (tr0, Ret (g, home)) ->
    check_db_exists g home (db_name p) (sid p) (db_unique_name p) w
                    (t + length tr0) = (tr, Ret v) ->
    Py.is_true v = false ->
    main p w t
    = ((tr0 ++ tr)%list,
       ExitJson ("Database " ++ db_name p ++ " doesn't exist") false).
Proof.
  intros p w t tr0 g home tr v Hs Hsetup Hc Hv.
  assert (Hd : dispatch p g home w (t + length tr0)
               = (tr, ExitJson ("Database " ++ db_name p ++ " doesn't exist")
                               false)).
  { unfold dispatch. rewrite Hs.
    change (String.eqb "absent" "started") with false.
    change (String.eqb "absent" "present") with false.
    change (String.eqb "absent" "absent") with true.
    cbv iota. unfold bind. rewrite Hc, Hv.
    unfold exit_json. now rewrite app_nil_r. }
  rewrite (main_run _ _ _ _ _ _ Hsetup), Hd. reflexivity.
Qed.

Lemma absent_and_not_found_is_no_change_witness :
  main (Sample.params "absent" None None (Sample.wanted false false false))
       Sample.empty_host 0
  = ([RunCommand "/opt/db/a/bin/sqlplus -V"],
     ExitJson "Database orcl doesn't exist" false).
Proof.
  exact (absent_and_not_found_is_no_change
           (Sample.params "absent" None None (Sample.wanted false false false))
           Sample.empty_host 0 [RunCommand "/opt/db/a/bin/sqlplus -V"]
           (Sample.globals false) "/opt/db/a" [] Py.PyFalse
           eq_refl eq_refl eq_refl eq_refl).
Defined.

(** ** Removal *)

(** what [main] makes of a removal *)
Lemma removal_main p w t tr0 g home tr v tr' out :
  state p = "absent" ->
  setup p w t = (tr0, Ret (g, home)) ->
  check_db_exists g home (db_name p) (sid p) (db_unique_name p) w
                  (t + length tr0) = (tr, Ret v) ->
  Py.is_true v = true ->
  remove_db g home (db_name p) (sid p) (db_unique_name p)
            (sys_password (create p)) w (t + length tr0 + length tr)
  = (tr', out) ->
  main p w t
  = ((tr0 ++ tr ++ tr')%list,
     match out with
     | Ret true => ExitJson ("Successfully removed database " ++ db_name p) true
     | Ret false => FailJson "['']"
     | ExitJson msg c => ExitJson msg c
     | FailJson msg => FailJson msg
     | Raise exc => Raise exc
     | Unmodelled why => Unmodelled why
     end).
Proof.
  intros Hs Hsetup Hc Hv Hr.
  assert (Hd : dispatch p g home w (t + length tr0)
               = ((tr ++ tr')%list,
                  match out with
                  | Ret true =>
                      ExitJson ("Successfully removed database " ++ db_name p)
                               true
                  | Ret false => FailJson "['']"
                  | ExitJson msg c => ExitJson msg c
                  | FailJson msg => FailJson msg
                  | Raise exc => Raise exc
                  | Unmodelled why => Unmodelled why
                  end)).
  { unfold dispatch. rewrite Hs.
    change (String.eqb "absent" "started") with false.
    change (String.eqb "absent" "present") with false.
    change (String.eqb "absent" "absent") with true.
    cbv iota. unfold bind. rewrite Hc, Hv, Hr.
    destruct out as [[] | m c | m | e | y]; cbn; now rewrite ?app_nil_r. }
  rewrite (main_run _ _ _ _ _ _ Hsetup), Hd. reflexivity.
Qed.

(** [remove_db] once the session is open and the topology is known *)
Lemma remove_db_run g home name sid unique pw w c rows target :
  getconn g w c = (session g w, Ret tt) ->
  fetchall w (c + 1) israc_sql = inl rows ->
  remove_db_target g name sid unique rows = Some target ->
  remove_db g home name sid unique pw w c
  = ((session g w
        ++ [Fetchall israc_sql; RunCommand (remove_command home target pw)])%list,
     let r := run_command w (c + 2) (remove_command home target pw) in
     if (fst (fst r) =? 0)%Z then
       if String.eqb (output g) "short" then Ret true
       else ExitJson ("STDOUT: " ++ snd (fst r) ++ ",  COMMAND: "
                        ++ remove_command home target pw) true
     else FailJson ("Removal of database " ++ name ++ " failed: "
                      ++ snd (fst r))).
Proof.
  intros Hg Hf Ht. unfold remove_db.
  rewrite (bind_ret_run _ _ _ _ _ _ Hg).
  change (c + length (session g w)) with (c + 1).
  rewrite (bind_ret_run _ _ _ _ _ _ (execute_sql_get_run _ _ _ _ Hf)).
  rewrite Ht. change (c + 1 + length [Fetchall israc_sql]) with (c + 1 + 1).
  replace (c + 1 + 1) with (c + 2) by lia.
  unfold bind, ask.
  destruct (run_command w (c + 2) (remove_command home target pw))
    as [[rc out] err].
  cbn [fst snd]. destruct (rc =? 0)%Z; cbn [negb]; [| reflexivity].
  destruct (String.eqb (output g) "short"); reflexivity.
Qed.

(** [remove_db] when the topology query fails *)
Lemma remove_db_query_fails g home name sid unique pw w c err :
  getconn g w c = (session g w, Ret tt) ->
  fetchall w (c + 1) israc_sql = inr err ->
  remove_db g home name sid unique pw w c
  = ((session g w ++ [Fetchall israc_sql])%list,
     FailJson ("Something went wrong while executing sql_get - " ++ err
                 ++ " sql: " ++ israc_sql)).
Proof.
  intros Hg Hf. unfold remove_db.
  rewrite (bind_ret_run _ _ _ _ _ _ Hg).
  change (c + length (session g w)) with (c + 1).
  unfold bind at 1. unfold execute_sql_get, bind, ask. rewrite Hf. reflexivity.
Qed.

(** [remove_db] when the topology query gives no row to read the mode from *)
Lemma remove_db_no_row g home name sid unique pw w c rows :
  getconn g w c = (session g w, Ret tt) ->
  fetchall w (c + 1) israc_sql = inl rows ->
  remove_db_target g name sid unique rows = None ->
  remove_db g home name sid unique pw w c
  = ((session g w ++ [Fetchall israc_sql])%list, Raise "IndexError").
Proof.
  intros Hg Hf Ht. unfold remove_db.
  rewrite (bind_ret_run _ _ _ _ _ _ Hg).
  change (c + length (session g w)) with (c + 1).
  rewrite (bind_ret_run _ _ _ _ _ _ (execute_sql_get_run _ _ _ _ Hf)).
  rewrite Ht. cbn [raise trace_of outcome_of fst snd].
  now rewrite app_nil_r.
Qed.

(** C6, as the code has it: the name handed to the removal command is, under
    cluster-managed mode, the unique name when one is given, else the sid
    when one is given and the instance reports that it is not part of a
    multi-instance database, else the database name; under standalone mode
    it is the sid when one is given, else the database name.  A removal pass
    with a sys password, on a host where the driver is there, ends with
    changed=true after the one removal command when its session opens, its
    topology query is answered and the command returns 0; when the session
    does not open, when the query fails or when the command returns another
    code, it ends in a failure, with nothing done after the failed step; and
    when the answer to the query has no row for a name that depends on it,
    in an [IndexError] before any command. *)
Theorem removal_pass :
  (forall g name sid unique rows,
      (gimanaged g = true -> forall u, unique = Some u ->
       remove_db_target g name sid unique rows = Some u)
      /\ (gimanaged g = true -> unique = None ->
          forall s parallel row more,
            sid = Some s -> rows = (parallel :: row) :: more ->
            remove_db_target g name sid unique rows
            = Some (if String.eqb parallel "NO" then s else name))
      /\ (gimanaged g = true -> unique = None -> sid = None ->
          remove_db_target g name sid unique rows = Some name)
      /\ (gimanaged g = false ->
          remove_db_target g name sid unique rows
          = Some (match sid with Some s => s | None => name end)))
  /\ (forall p w t tr0 g home tr v,
         state p = "absent" ->
         setup p w t = (tr0, Ret (g, home)) ->
         check_db_exists g home (db_name p) (sid p) (db_unique_name p) w
                         (t + length tr0) = (tr, Ret v) ->
         Py.is_true v = true ->
         Py.truthy_opt (sys_password (create p)) = true ->
         cx_oracle_exists w = true ->
         let c := t + length tr0 + length tr in
         let command target :=
           remove_command home target (sys_password (create p)) in
         (forall err,
             connect w c (descriptor g w) = Some err ->
             main p w t
             = ((tr0 ++ tr ++ session g w)%list,
                FailJson ("Could not connect to database - " ++ err
                            ++ ", connect descriptor: " ++ descriptor g w)))
         /\ (forall err,
                connect w c (descriptor g w) = None ->
                fetchall w (c + 1) israc_sql = inr err ->
                main p w t
                = ((tr0 ++ tr ++ session g w ++ [Fetchall israc_sql])%list,
                   FailJson ("Something went wrong while executing sql_get - "
                               ++ err ++ " sql: " ++ israc_sql)))
         /\ (forall rows target,
                connect w c (descriptor g w) = None ->
                fetchall w (c + 1) israc_sql = inl rows ->
                remove_db_target g (db_name p) (sid p) (db_unique_name p) rows
                = Some target ->
                main p w t
                = ((tr0 ++ tr ++ session g w
                      ++ [Fetchall israc_sql; RunCommand (command target)])%list,
                   let r := run_command w (c + 2) (command target) in
                   if (fst (fst r) =? 0)%Z then
                     ExitJson
                       (if String.eqb (output g) "short"
                        then "Successfully removed database " ++ db_name p
                        else "STDOUT: " ++ snd (fst r) ++ ",  COMMAND: "
                               ++ command target)
                       true
                   else FailJson ("Removal of database " ++ db_name p
                                    ++ " failed: " ++ snd (fst r))))
         /\ (forall rows,
                connect w c (descriptor g w) = None ->
                fetchall w (c + 1) israc_sql = inl rows ->
                remove_db_target g (db_name p) (sid p) (db_unique_name p) rows
                = None ->
                main p w t
                = ((tr0 ++ tr ++ session g w ++ [Fetchall israc_sql])%list,
                   Raise "IndexError"))).
Proof.
  split.
  - intros g name sid unique rows. unfold remove_db_target.
    repeat split.
    + intros -> u ->. reflexivity.
    + intros -> -> s parallel row more -> ->.
      destruct (String.eqb parallel "YES") eqn:Ey.
      * apply String.eqb_eq in Ey. subst. reflexivity.
      * now destruct (String.eqb parallel "NO").
    + intros -> -> ->. reflexivity.
    + intros ->. now destruct sid.
  - intros p w t tr0 g home tr v Hs Hsetup Hc Hv Hpw Hx c command.
    destruct (setup_globals _ _ _ _ _ _ Hsetup) as (Hu & Hp & _).
    assert (Hu' : Py.truthy (user g) = true) by now rewrite Hu.
    assert (Hp' : Py.truthy_opt (password g) = true) by now rewrite Hp.
    split; [| split; [| split]].
    + intros err Hconn.
      assert (Hr : remove_db g home (db_name p) (sid p) (db_unique_name p)
                     (sys_password (create p)) w c
                   = (session g w,
                      FailJson ("Could not connect to database - " ++ err
                                  ++ ", connect descriptor: "
                                  ++ descriptor g w))).
      { unfold remove_db. unfold bind at 1.
        now rewrite (getconn_refused g w c err Hu' Hp' Hx Hconn). }
      exact (removal_main p w t tr0 g home tr v _ _ Hs Hsetup Hc Hv Hr).
    + intros err Hconn Hf.
      exact (removal_main p w t tr0 g home tr v _ _ Hs Hsetup Hc Hv
               (remove_db_query_fails g home _ _ _ _ w c err
                  (getconn_run g w c Hu' Hp' Hx Hconn) Hf)).
    + intros rows target Hconn Hf Ht.
      rewrite (removal_main p w t tr0 g home tr v _ _ Hs Hsetup Hc Hv
                 (remove_db_run g home _ _ _ _ w c rows target
                    (getconn_run g w c Hu' Hp' Hx Hconn) Hf Ht)).
      cbv zeta. subst command. cbv beta.
      destruct (fst (fst (run_command w (c + 2) _)) =? 0)%Z; [| reflexivity].
      destruct (String.eqb (output g) "short"); reflexivity.
    + intros rows Hconn Hf Ht.
      exact (removal_main p w t tr0 g home tr v _ _ Hs Hsetup Hc Hv
               (remove_db_no_row g home _ _ _ _ w c rows
                  (getconn_run g w c Hu' Hp' Hx Hconn) Hf Ht)).
Qed.

Lemma removal_pass_witness :
  main (Sample.params "absent" (Some "orcl1") None
                      (Sample.wanted false false false))
       Sample.cluster_host 0
  = ([RunCommand "/opt/db/a/bin/sqlplus -V";
      RunCommand "/opt/db/a/bin/srvctl config database -d orcl ";
      Connect "localhost:1521/orcl";
      Fetchall israc_sql;
      RunCommand (remove_command "/opt/db/a" "orcl" (Some "secret"))],
     ExitJson "Successfully removed database orcl" true).
Proof.
  exact (proj1 (proj2 (proj2 (proj2 removal_pass
              (Sample.params "absent" (Some "orcl1") None
                             (Sample.wanted false false false))
              Sample.cluster_host 0
              [RunCommand "/opt/db/a/bin/sqlplus -V"]
              (Sample.globals true) "/opt/db/a"
              [RunCommand "/opt/db/a/bin/srvctl config database -d orcl "]
              Py.PyTrue
              eq_refl eq_refl eq_refl eq_refl eq_refl eq_refl)))
              Sample.two_instances "orcl" eq_refl eq_refl eq_refl).
Defined.

(** C6 as the specification words it does not hold: on a cluster-managed
    host, with a sid given and a multi-instance database, the removal
    command is handed the database name and not the sid. *)
Lemma removal_on_rac_names_the_database :
  let p := Sample.params "absent" (Some "orcl1") None
                         (Sample.wanted false false false) in
  remove_db_target (Sample.globals true) "orcl" (Some "orcl1") None
                   Sample.two_instances = Some "orcl"
  /\ In (RunCommand (remove_command "/opt/db/a" "orcl" (Some "secret")))
        (trace_of (main p Sample.cluster_host 0))
  /\ ~ In (RunCommand (remove_command "/opt/db/a" "orcl1" (Some "secret")))
          (trace_of (main p Sample.cluster_host 0))
  /\ outcome_of (main p Sample.cluster_host 0)
     = ExitJson "Successfully removed database orcl" true.
Proof.
  cbv zeta. split; [reflexivity |]. split; [cbn; auto 10 |].
  split; [| reflexivity].
  cbn. intros [H | [H | [H | [H | [H | []]]]]]; discriminate.
Qed.

(** ** The locators *)

(** C3 fails on the locator of [oracle_datapatch.py]: under cluster-managed
    mode, asked for a database that the registry holds under another
    installation path (PRCD-1229), it answers that the database does not
    exist, where the locator of [oracle_db.py] fails with the
    different-home error on the same answer. *)
Theorem datapatch_locator_misses_different_home :
  OracleDatapatch.check_db_exists true "/opt/db/b" "orcl" None None
                                  Sample.registered_elsewhere 0
  = ([RunCommand "/opt/db/b/bin/srvctl config database -d orcl "],
     Ret Py.PyFalse)
  /\ OracleDb.check_db_exists (Sample.globals true) "/opt/db/b" "orcl" None None
                              Sample.registered_elsewhere 0
     = ([RunCommand "/opt/db/b/bin/srvctl config database -d orcl "],
        FailJson
          ("Database orcl already exists in a different home. Stdout -> "
             ++ snd (fst (Sample.other_home "")))).
Proof. split; reflexivity. Qed.

(** Whatever the registry prints, a refusal is "not found" to the locator of
    [oracle_datapatch.py]. *)
Lemma datapatch_locator_on_refusal home name sid unique w t rc out err :
  run_command w t (home ++ "/bin/srvctl config database -d "
                     ++ OracleDb.srvctl_name name unique ++ " ")
  = (rc, out, err) ->
  rc <> 0%Z ->
  outcome_of (OracleDatapatch.check_db_exists true home name sid unique w t)
  = Ret Py.PyFalse.
Proof.
  intros H Hrc. unfold OracleDatapatch.check_db_exists, bind, ask.
  unfold OracleDb.srvctl_name in H. rewrite H.
  destruct (Z.eqb_spec rc 0) as [-> | _]; [now destruct Hrc |].
  cbn. now destruct (Py.contains name out).
Qed.

(** On that refusal the locator of [oracle_db.py] fails. *)
Lemma db_locator_on_different_home g home name sid unique w t rc out err :
  gimanaged g = true ->
  run_command w t (home ++ "/bin/srvctl config database -d "
                     ++ OracleDb.srvctl_name name unique ++ " ")
  = (rc, out, err) ->
  rc <> 0%Z ->
  Py.contains "PRCD-1229" out = true ->
  outcome_of (OracleDb.check_db_exists g home name sid unique w t)
  = FailJson ("Database " ++ name
                ++ " already exists in a different home. Stdout -> " ++ out).
Proof.
  intros Hg H Hrc Hp. unfold OracleDb.check_db_exists, bind, ask. rewrite Hg.
  unfold OracleDb.srvctl_name in H. rewrite H.
  destruct (Z.eqb_spec rc 0) as [-> | _]; [now destruct Hrc |].
  cbn. now rewrite Hp.
Qed.


Lemma re_literal_app (a b : string) :
  Py.re_literal (a ++ b) = Py.re_literal a && Py.re_literal b.
Proof.
  induction a as [| c a IH]; cbn [String.append Py.re_literal].
  - reflexivity.
  - now rewrite IH, andb_assoc.
Qed.

Lemma re_search_literal (p s : string) :
  Py.re_literal p = true -> Py.re_search p s = Some (Py.contains p s).
Proof.
  intros H. unfold Py.re_search. destruct p as [| c p]; [reflexivity |].
  rewrite H.
  destruct (Ascii.eqb_spec c "^"%char) as [-> | Hc]; [discriminate H |].
  destruct c as [[] [] [] [] [] [] [] []]; try reflexivity. now destruct Hc.
Qed.

(** With no sid given, the standalone locator of [oracle_db.py] judges a
    one-line oratab by whether the name and a colon occur in the line. *)
Lemma standalone_locator_goes_by_substring g home name line path w t :
  gimanaged g = false ->
  Py.re_literal name = true ->
  oratab w = Some [line] ->
  Py.startswith line "#" = false ->
  Py.startswith line " " = false ->
  Py.contains (name ++ ":") line = true ->
  nth_error (Py.split ":" line) 1 = Some path ->
  OracleDb.check_db_exists g home name None None w t
  = ([], if String.eqb path (Py.rstrip "/" home) then Ret Py.PyTrue
         else FailJson (different_home_msg name path)).
Proof.
  intros Hg Hlit Htab Hc Hs Hin Hpath.
  unfold OracleDb.check_db_exists. rewrite Hg.
  unfold bind, read. rewrite Htab. cbn [length scan_oratab].
  rewrite Hc, Hs. cbn [orb].
  rewrite (re_search_literal (name ++ ":") line)
    by (rewrite re_literal_app, Hlit; reflexivity).
  rewrite Hin. cbn [re_or judge_existing String.eqb negb].
  rewrite Hin. unfold judge_home, index. rewrite Hpath.
  destruct (String.eqb path (Py.rstrip "/" home)); reflexivity.
Qed.

(** C10: with no sid given, the standalone locator of [oracle_db.py] goes by
    whether the requested name followed by a colon occurs anywhere in a line
    of the oratab.  On an oratab whose only entry has the key [xorcl], a
    request for [orcl] fails with the different-home error when the path of
    that entry is not the requested one and is answered "found" when it is,
    though no entry has the key [orcl]; the locator of
    [oracle_datapatch.py], which anchors the name, finds nothing there. *)
Theorem oratab_is_matched_by_substring :
  oratab Sample.xorcl_host = Some ["xorcl:/opt/db/a:N" ++ nl]
  /\ map (fun line => hd "" (Py.split ":" line)) ["xorcl:/opt/db/a:N" ++ nl]
     = ["xorcl"]
  /\ "xorcl" = "x" ++ "orcl"
  /\ OracleDb.check_db_exists (Sample.globals false) "/opt/db/b" "orcl" None None
                              Sample.xorcl_host 0
     = ([], FailJson "Database orcl already exists in a different ORACLE_HOME (/opt/db/a)")
  /\ OracleDb.check_db_exists (Sample.globals false) "/opt/db/a" "orcl" None None
                              Sample.xorcl_host 0
     = ([], Ret Py.PyTrue)
  /\ OracleDatapatch.check_db_exists false "/opt/db/a" "orcl" None None
                                     Sample.xorcl_host 0
     = ([], Ret Py.PyFalse).
Proof. repeat split. Qed.

(** ** The default-tablespace properties *)

Lemma execute_sql_get_ret sql w c tr rows :
  execute_sql_get sql w c = (tr, Ret rows) -> fetchall w c sql = inl rows.
Proof.
  unfold execute_sql_get, bind, ask. destruct (fetchall w c sql); cbn.
  - intros H. now inversion H.
  - discriminate.
Qed.

Lemma index_ret_inv {A B} (l : list A) (i : nat) (k : A -> M B) w c tr b :
  index l i k w c = (tr, Ret b) ->
  exists a, nth_error l i = Some a /\ k a w c = (tr, Ret b).
Proof.
  unfold index. destruct (nth_error l i) as [a |]; [| discriminate].
  intros H. now exists a.
Qed.

Lemma observe_rows g w t tr o :
  observe g w t = (tr, Ret o) ->
  fetchall w (t + 1) propsql = inl [def_tbs_type o; def_tbs o; def_temp_tbs o].
Proof.
  unfold observe. intros H.
  apply bind_ret_inv in H. destruct H as (tr1 & [] & tr2 & Hconn & H & _).
  destruct (emits_getconn g w t) as [_ Hs]. rewrite Hconn in Hs.
  destruct (Hs tt eq_refl) as [Htr1 _]. cbn in Htr1. subst tr1.
  change (t + length (session g w)) with (t + 1) in H.
  apply bind_ret_inv in H. destruct H as (tr3 & props & tr4 & Hprops & H & _).
  apply execute_sql_get_ret in Hprops. rewrite Hprops.
  destruct props as [| r1 [| r2 [| r3 [| r4 more]]]]; try discriminate.
  apply bind_ret_inv in H. destruct H as (tr5 & topology & tr6 & _ & H & _).
  unfold cell in H.
  apply index_ret_inv in H. destruct H as (row & _ & H).
  apply index_ret_inv in H. destruct H as (inst & _ & H).
  apply bind_ret_inv in H. destruct H as (tr7 & logs & tr8 & _ & H & _).
  apply index_ret_inv in H. destruct H as (row' & _ & H).
  apply index_ret_inv in H. destruct H as (parallel & _ & H).
  inversion H. reflexivity.
Qed.

(** C9: [ensure_db_state] takes the three rows of its first query, which
    asks for the lowered property values in ascending order, by position as
    tablespace type, default tablespace and default temporary tablespace.
    For the live values SMALLFILE, USERS and TEMP the rows come as
    smallfile, temp, users: the declared default tablespace is compared
    with the temporary one and the other way round, and a declared state
    equal to the live one yields two statements. *)
Theorem tablespace_rows_are_read_by_position :
  (forall g w t tr o,
      observe g w t = (tr, Ret o) ->
      fetchall w (t + 1) propsql
      = inl [def_tbs_type o; def_tbs o; def_temp_tbs o])
  /\ exists v d tr o,
      default_tablespace_type d = Py.lower (Sample.DEFAULT_TBS_TYPE v)
      /\ default_tablespace d
         = Some (Py.lower (Sample.DEFAULT_PERMANENT_TABLESPACE v))
      /\ default_temp_tablespace d
         = Some (Py.lower (Sample.DEFAULT_TEMP_TABLESPACE v))
      /\ observe (Sample.globals false) (Sample.host_with v) 0 = (tr, Ret o)
      /\ def_tbs_type o = [Py.lower (Sample.DEFAULT_TBS_TYPE v)]
      /\ def_tbs o = [Py.lower (Sample.DEFAULT_TEMP_TABLESPACE v)]
      /\ def_temp_tbs o = [Py.lower (Sample.DEFAULT_PERMANENT_TABLESPACE v)]
      /\ Py.lower (Sample.DEFAULT_TEMP_TABLESPACE v)
         <> Py.lower (Sample.DEFAULT_PERMANENT_TABLESPACE v)
      /\ option_map change_db_sql (plan d o)
         = Some ["alter database default tablespace users";
                 "alter database default temporary tablespace temp"].
Proof.
  split; [exact observe_rows |].
  exists {| Sample.DEFAULT_TBS_TYPE := "SMALLFILE";
            Sample.DEFAULT_PERMANENT_TABLESPACE := "USERS";
            Sample.DEFAULT_TEMP_TABLESPACE := "TEMP" |},
         {| archivelog := false; force_logging := false; flashback := false;
            default_tablespace_type := "smallfile";
            default_tablespace := Some "users";
            default_temp_tablespace := Some "temp" |},
         Sample.observation,
         (Sample.observed "NOARCHIVELOG" "NO" "NO").
  repeat (split; [reflexivity |]). split; [discriminate | reflexivity].
Qed.

Lemma tablespace_rows_are_read_by_position_witness :
  fetchall (Sample.standalone "NOARCHIVELOG" "NO" "NO") 1 propsql
  = inl [["smallfile"]; ["temp"]; ["users"]].
Proof.
  exact (proj1 tablespace_rows_are_read_by_position
               (Sample.globals false)
               (Sample.standalone "NOARCHIVELOG" "NO" "NO") 0
               Sample.observation (Sample.observed "NOARCHIVELOG" "NO" "NO")
               eq_refl).
Defined.

(** * Further properties of the modules *)

(** ** The locators *)

(** X1: under cluster-managed mode the locator of [oracle_db.py] runs the one
    registry query, on the unique name when there is one, and goes by the
    return code: zero is "found" whatever was printed; otherwise PRCD-1229 in
    the output is the different-home failure and anything else is "not
    found".  The sid plays no part. *)
Theorem cluster_locator_goes_by_return_code :
  forall g home name sid unique w t rc out err,
    gimanaged g = true ->
    run_command w t (home ++ "/bin/srvctl config database -d "
                       ++ srvctl_name name unique ++ " ")
    = (rc, out, err) ->
    OracleDb.check_db_exists g home name sid unique w t
    = ([RunCommand (home ++ "/bin/srvctl config database -d "
                      ++ srvctl_name name unique ++ " ")],
       if (rc =? 0)%Z then Ret Py.PyTrue
       else if Py.contains "PRCD-1229" out
       then FailJson ("Database " ++ name
                        ++ " already exists in a different home. Stdout -> "
                        ++ out)
       else Ret Py.PyFalse).
Proof.
  intros g home name sid unique w t rc out err Hg H.
  unfold OracleDb.check_db_exists, bind, ask. rewrite Hg.
  unfold srvctl_name in H. rewrite H.
  destruct (rc =? 0)%Z; cbv [negb].
  - destruct (Py.contains ("Database name: " ++ name) out); reflexivity.
  - destruct (Py.contains "PRCD-1229" out); [reflexivity |].
    destruct (Py.contains name out); reflexivity.
Qed.

Lemma cluster_locator_goes_by_return_code_witness :
  OracleDb.check_db_exists (Sample.globals true) "/opt/db/a" "orcl"
                           (Some "orcl1") (Some "orcl_site1")
                           Sample.cluster_host 0
  = ([RunCommand "/opt/db/a/bin/srvctl config database -d orcl_site1 "],
     Ret Py.PyTrue).
Proof.
  exact (cluster_locator_goes_by_return_code
           (Sample.globals true) "/opt/db/a" "orcl" (Some "orcl1")
           (Some "orcl_site1") Sample.cluster_host 0 0%Z
           "SQL*Plus: Release 12.2.0.1.0 Production" "" eq_refl eq_refl).
Defined.

Lemma judge_home_silent home name dbs (next : M Py.value) w t :
  trace_of (next w t) = [] ->
  trace_of (OracleDb.judge_home home name dbs next w t) = [].
Proof.
  intros Hn. unfold OracleDb.judge_home, index.
  destruct (nth_error (Py.split ":" dbs) 1) as [h |]; [| reflexivity].
  destruct (negb (String.eqb h (Py.rstrip "/" home))); [reflexivity |].
  destruct (String.eqb h (Py.rstrip "/" home)); [reflexivity | exact Hn].
Qed.

Lemma db_judge_existing_silent home name sid lines w t :
  trace_of (OracleDb.judge_existing home name sid lines w t) = [].
Proof.
  induction lines as [| dbs rest IH]; cbn [OracleDb.judge_existing].
  - reflexivity.
  - destruct (negb (String.eqb sid ""));
      [destruct (Py.contains (name ++ ":") dbs || Py.contains (sid ++ ":") dbs)
      | destruct (Py.contains (name ++ ":") dbs)];
      auto using judge_home_silent.
Qed.

Lemma datapatch_judge_existing_silent home name sid lines w t :
  trace_of (OracleDatapatch.judge_existing home name sid lines w t) = [].
Proof.
  induction lines as [| dbs rest IH]; cbn [OracleDatapatch.judge_existing].
  - reflexivity.
  - unfold index.
    destruct (OracleDatapatch.sid_not_empty sid); [| exact IH].
    destruct (Py.contains (name ++ ":") dbs
              || Py.contains (Py.str_opt sid ++ ":") dbs).
    + destruct (nth_error (Py.split ":" dbs) 1) as [h |]; [| reflexivity].
      destruct (negb (String.eqb h (Py.rstrip "/" home))); [reflexivity |].
      destruct (String.eqb h (Py.rstrip "/" home)); [reflexivity | exact IH].
    + destruct (Py.contains (name ++ ":") dbs);
        (destruct (nth_error (Py.split ":" dbs) 1) as [h |]; [| reflexivity]).
      * destruct (negb (String.eqb h (Py.rstrip "/" home)));
          [reflexivity | exact IH].
      * destruct (String.eqb h (Py.rstrip "/" home)); [reflexivity | exact IH].
Qed.

(** X2: under standalone mode neither locator runs a command, opens a
    session or sends a statement: it only reads the oratab. *)
Theorem standalone_locators_cause_no_event :
  forall g home name sid unique w t,
    gimanaged g = false ->
    trace_of (OracleDb.check_db_exists g home name sid unique w t) = []
    /\ trace_of (OracleDatapatch.check_db_exists false home name sid unique w t)
       = [].
Proof.
  intros g home name sid unique w t Hg. split.
  - unfold OracleDb.check_db_exists. rewrite Hg. unfold bind, read.
    cbn [length Nat.add].
    destruct (OracleDb.scan_oratab name _ _) as [[| l ls] |]; try reflexivity.
    match goal with
    | |- context [OracleDb.judge_existing ?h ?n ?s ?ls ?w ?t] =>
        pose proof (db_judge_existing_silent h n s ls w t) as H;
          destruct (OracleDb.judge_existing h n s ls w t) as [tr o]
    end.
    cbn in *. now subst.
  - unfold OracleDatapatch.check_db_exists. unfold bind, read.
    cbn [length Nat.add].
    destruct (OracleDatapatch.scan_oratab name _ _) as [[| l ls] |];
      try reflexivity.
    match goal with
    | |- context [OracleDatapatch.judge_existing ?h ?n ?s ?ls ?w ?t] =>
        pose proof (datapatch_judge_existing_silent h n s ls w t) as H;
          destruct (OracleDatapatch.judge_existing h n s ls w t) as [tr o]
    end.
    cbn in *. now subst.
Qed.

Lemma standalone_locators_cause_no_event_witness :
  trace_of (OracleDb.check_db_exists (Sample.globals false) "/opt/db/b" "orcl"
                                     None None Sample.xorcl_host 0) = [].
Proof.
  exact (proj1 (standalone_locators_cause_no_event
                  (Sample.globals false) "/opt/db/b" "orcl" None None
                  Sample.xorcl_host 0 eq_refl)).
Defined.

Lemma db_scan_skipped name sid lines :
  forallb skipped lines = true -> OracleDb.scan_oratab name sid lines = Some [].
Proof.
  induction lines as [| l rest IH]; cbn [forallb OracleDb.scan_oratab];
    [reflexivity |].
  intros H. apply andb_prop in H. destruct H as [Hl Hr].
  unfold skipped in Hl. rewrite Hl. auto.
Qed.

Lemma datapatch_scan_skipped name sid lines :
  forallb skipped lines = true ->
  OracleDatapatch.scan_oratab name sid lines = Some [].
Proof.
  induction lines as [| l rest IH];
    cbn [forallb OracleDatapatch.scan_oratab]; [reflexivity |].
  intros H. apply andb_prop in H. destruct H as [Hl Hr].
  unfold skipped in Hl. rewrite Hl. auto.
Qed.

(** X3: under standalone mode, when there is no oratab, or when every line
    of it starts with [#] or a blank, both locators answer "not found". *)
Theorem oratab_without_entries_is_not_found :
  forall g home name sid unique w t,
    gimanaged g = false ->
    forallb skipped (match oratab w with Some ls => ls | None => [] end)
    = true ->
    OracleDb.check_db_exists g home name sid unique w t = ([], Ret Py.PyFalse)
    /\ OracleDatapatch.check_db_exists false home name sid unique w t
       = ([], Ret Py.PyFalse).
Proof.
  intros g home name sid unique w t Hg H. split.
  - unfold OracleDb.check_db_exists. rewrite Hg. unfold bind, read.
    cbn [length Nat.add]. now rewrite (db_scan_skipped _ _ _ H).
  - unfold OracleDatapatch.check_db_exists. unfold bind, read.
    cbn [length Nat.add]. now rewrite (datapatch_scan_skipped _ _ _ H).
Qed.

Lemma oratab_without_entries_is_not_found_witness :
  OracleDb.check_db_exists (Sample.globals false) "/opt/db/a" "orcl" None None
                           Sample.empty_host 0
  = ([], Ret Py.PyFalse).
Proof.
  exact (proj1 (oratab_without_entries_is_not_found
                  (Sample.globals false) "/opt/db/a" "orcl" None None
                  Sample.empty_host 0 eq_refl eq_refl)).
Defined.

Lemma db_scan_no_sid name lines :
  Py.re_literal name = true ->
  OracleDb.scan_oratab name "" lines
  = Some (filter (fun l => negb (skipped l)
                           && (Py.contains (name ++ ":") l
                               || Py.contains ":" l)) lines).
Proof.
  intros Hlit. induction lines as [| l rest IH];
    cbn [OracleDb.scan_oratab filter]; [reflexivity |].
  fold (skipped l). destruct (skipped l); cbn [negb andb]; [exact IH |].
  rewrite (re_search_literal (name ++ ":") l)
    by (rewrite re_literal_app, Hlit; reflexivity).
  change ("" ++ ":") with ":".
  rewrite (re_search_literal ":" l) by reflexivity.
  rewrite IH.
  destruct (Py.contains (name ++ ":") l); cbn [OracleDb.re_or orb];
    [reflexivity |].
  now destruct (Py.contains ":" l).
Qed.

Lemma db_judge_passes_over home name before more w t :
  forallb (fun l => negb (Py.contains (name ++ ":") l)) before = true ->
  OracleDb.judge_existing home name "" (before ++ more)%list w t
  = OracleDb.judge_existing home name "" more w t.
Proof.
  induction before as [| l rest IH]; cbn [forallb app OracleDb.judge_existing];
    [reflexivity |].
  intros H. apply andb_prop in H. destruct H as [Hl Hr].
  apply negb_true_iff in Hl. rewrite Hl. cbn [String.eqb negb]. auto.
Qed.

Lemma kept_lines_lack_name name before :
  forallb (fun l => skipped l || negb (Py.contains (name ++ ":") l)) before
  = true ->
  forallb (fun l => negb (Py.contains (name ++ ":") l))
          (filter (fun l => negb (skipped l)
                            && (Py.contains (name ++ ":") l
                                || Py.contains ":" l)) before)
  = true.
Proof.
  induction before as [| x rest IH]; cbn [forallb filter]; [reflexivity |].
  intros H. apply andb_prop in H. destruct H as [Hx Hr].
  destruct (skipped x); cbn [negb andb orb] in *; [auto |].
  apply negb_true_iff in Hx. rewrite Hx. cbn [orb].
  destruct (Py.contains ":" x); cbn [forallb]; auto.
  rewrite Hx. cbn [negb andb]. auto.
Qed.

(** X4: with no sid given, the standalone locator of [oracle_db.py] is
    settled by the first line of the oratab that does not start with [#] or
    a blank and holds the name followed by a colon: the second field of that
    line is compared with the requested home, and the lines after it are
    never looked at. *)
Theorem first_matching_line_decides :
  forall g home name unique before line rest path w t,
    gimanaged g = false ->
    Py.re_literal name = true ->
    oratab w = Some (before ++ line :: rest)%list ->
    forallb (fun l => skipped l || negb (Py.contains (name ++ ":") l)) before
    = true ->
    skipped line = false ->
    Py.contains (name ++ ":") line = true ->
    nth_error (Py.split ":" line) 1 = Some path ->
    OracleDb.check_db_exists g home name None unique w t
    = ([], if String.eqb path (Py.rstrip "/" home) then Ret Py.PyTrue
           else FailJson (different_home_msg name path)).
Proof.
  intros g home name unique before line rest path w t
         Hg Hlit Htab Hbefore Hskip Hin Hpath.
  unfold OracleDb.check_db_exists. rewrite Hg. unfold bind, read.
  rewrite Htab. cbn [length Nat.add].
  rewrite (db_scan_no_sid name _ Hlit), filter_app.
  cbn [filter]. rewrite Hskip, Hin. cbn [negb andb orb].
  set (keep := fun l => negb (skipped l)
                        && (Py.contains (name ++ ":") l || Py.contains ":" l)).
  assert (Hrun : forall c,
             OracleDb.judge_existing home name ""
                   (filter keep before ++ line :: filter keep rest)%list w c
                 = ([], if String.eqb path (Py.rstrip "/" home)
                        then Ret Py.PyTrue
                        else FailJson (different_home_msg name path))).
  { intros c. rewrite db_judge_passes_over by now apply kept_lines_lack_name.
    cbn [OracleDb.judge_existing String.eqb negb]. rewrite Hin.
    unfold OracleDb.judge_home, index. rewrite Hpath.
    destruct (String.eqb path (Py.rstrip "/" home)); reflexivity. }
  destruct (filter keep before ++ line :: filter keep rest)%list eqn:E;
    [now destruct (filter keep before) |].
  rewrite Hrun. destruct (String.eqb path (Py.rstrip "/" home)); reflexivity.
Qed.

Lemma first_matching_line_decides_witness :
  let w :=
    Sample.world Sample.all_fine
      (Some ["# databases" ++ nl; "cdb1:/opt/db/c:Y" ++ nl;
             "orcl:/opt/db/a:N" ++ nl; "orcl:/opt/db/b:N" ++ nl])
      false (fun _ => inr "") in
  OracleDb.check_db_exists (Sample.globals false) "/opt/db/a" "orcl" None None
                           w 0
  = ([], Ret Py.PyTrue).
Proof.
  intros w.
  exact (first_matching_line_decides
           (Sample.globals false) "/opt/db/a" "orcl" None
           ["# databases" ++ nl; "cdb1:/opt/db/c:Y" ++ nl]
           ("orcl:/opt/db/a:N" ++ nl) ["orcl:/opt/db/b:N" ++ nl] "/opt/db/a"
           w 0 eq_refl eq_refl eq_refl eq_refl eq_refl eq_refl eq_refl).
Defined.

Lemma rstrip_snoc (c : ascii) (s : string) :
  Py.rstrip c (s ++ String c "") = Py.rstrip c s.
Proof.
  induction s as [| a rest IH]; cbn [String.append Py.rstrip].
  - now rewrite Ascii.eqb_refl.
  - now rewrite IH.
Qed.

Lemma db_judge_existing_home h1 h2 name sid lines :
  Py.rstrip "/" h1 = Py.rstrip "/" h2 ->
  OracleDb.judge_existing h1 name sid lines
  = OracleDb.judge_existing h2 name sid lines.
Proof.
  intros H. induction lines as [| dbs rest IH]; cbn [OracleDb.judge_existing];
    [reflexivity |].
  unfold OracleDb.judge_home. now rewrite IH, H.
Qed.

Lemma datapatch_judge_existing_home h1 h2 name sid lines :
  Py.rstrip "/" h1 = Py.rstrip "/" h2 ->
  OracleDatapatch.judge_existing h1 name sid lines
  = OracleDatapatch.judge_existing h2 name sid lines.
Proof.
  intros H. induction lines as [| dbs rest IH];
    cbn [OracleDatapatch.judge_existing]; [reflexivity |].
  now rewrite IH, H.
Qed.

(** X5: under standalone mode a slash at the end of the requested home makes
    no difference to either locator. *)
Theorem trailing_slash_of_home_is_ignored :
  forall g home name sid unique w t,
    gimanaged g = false ->
    OracleDb.check_db_exists g (home ++ "/") name sid unique w t
    = OracleDb.check_db_exists g home name sid unique w t
    /\ OracleDatapatch.check_db_exists false (home ++ "/") name sid unique w t
       = OracleDatapatch.check_db_exists false home name sid unique w t.
Proof.
  intros g home name sid unique w t Hg.
  pose proof (rstrip_snoc "/" home) as Hs. split.
  - unfold OracleDb.check_db_exists. rewrite Hg. unfold bind, read.
    destruct (OracleDb.scan_oratab name _ _) as [[| l ls] |]; try reflexivity.
    now rewrite (db_judge_existing_home _ _ name _ (l :: ls) Hs).
  - unfold OracleDatapatch.check_db_exists. unfold bind, read.
    destruct (OracleDatapatch.scan_oratab name _ _) as [[| l ls] |];
      try reflexivity.
    now rewrite (datapatch_judge_existing_home _ _ name sid (l :: ls) Hs).
Qed.

Lemma trailing_slash_of_home_is_ignored_witness :
  OracleDb.check_db_exists (Sample.globals false) ("/opt/db/a" ++ "/") "orcl"
                           None None (Sample.standalone "ARCHIVELOG" "NO" "NO") 0
  = ([], Ret Py.PyTrue).
Proof.
  rewrite (proj1 (trailing_slash_of_home_is_ignored
                    (Sample.globals false) "/opt/db/a" "orcl" None None
                    (Sample.standalone "ARCHIVELOG" "NO" "NO") 0 eq_refl)).
  reflexivity.
Defined.

Lemma datapatch_scan_no_key name lines :
  Py.re_literal name = true ->
  forallb (fun l => skipped l || negb (String.prefix (name ++ ":") l)) lines
  = true ->
  OracleDatapatch.scan_oratab name None lines = Some [].
Proof.
  intros Hlit. induction lines as [| l rest IH];
    cbn [forallb OracleDatapatch.scan_oratab]; [reflexivity |].
  intros H. apply andb_prop in H. destruct H as [Hl Hr].
  fold (skipped l). destruct (skipped l); cbn [orb] in *; [auto |].
  apply negb_true_iff in Hl.
  change ("^" ++ name ++ ":") with (String "^" (name ++ ":")).
  unfold Py.re_search. rewrite re_literal_app, Hlit. cbn [Py.re_literal andb].
  change (Py.re_special ":") with false. cbn [negb andb].
  rewrite Hl. cbn [OracleDb.re_or]. now rewrite (IH Hr).
Qed.

(** X6: with no sid given and a name that holds none of the characters the
    [re] module gives a meaning of their own, the standalone locator of
    [oracle_datapatch.py] answers "not found" unless some line of the oratab
    that is not passed over begins with the name followed by a colon: the
    name elsewhere in a line does not count. *)
Theorem datapatch_locator_wants_the_key :
  forall home name unique lines w t,
    Py.re_literal name = true ->
    oratab w = Some lines ->
    forallb (fun l => skipped l || negb (String.prefix (name ++ ":") l)) lines
    = true ->
    OracleDatapatch.check_db_exists false home name None unique w t
    = ([], Ret Py.PyFalse).
Proof.
  intros home name unique lines w t Hlit Htab H.
  unfold OracleDatapatch.check_db_exists, bind, read. rewrite Htab.
  cbn [length Nat.add]. now rewrite (datapatch_scan_no_key name lines Hlit H).
Qed.

Lemma datapatch_locator_wants_the_key_witness :
  OracleDatapatch.check_db_exists false "/opt/db/a" "orcl" None None
                                  Sample.xorcl_host 0
  = ([], Ret Py.PyFalse).
Proof.
  exact (datapatch_locator_wants_the_key
           "/opt/db/a" "orcl" None ["xorcl:/opt/db/a:N" ++ nl]
           Sample.xorcl_host 0 eq_refl eq_refl eq_refl).
Defined.

Lemma datapatch_judge_empty_sid home name lines w t :
  OracleDatapatch.judge_existing home name (Some "") lines w t
  = ([], Ret Py.PyNone).
Proof.
  induction lines as [| dbs rest IH]; cbn [OracleDatapatch.judge_existing];
    [reflexivity | exact IH].
Qed.

Lemma datapatch_scan_total name s lines :
  Py.re_literal name = true -> Py.re_literal s = true ->
  exists kept, OracleDatapatch.scan_oratab name (Some s) lines = Some kept.
Proof.
  intros Hn Hs. induction lines as [| l rest [kept IH]];
    cbn [OracleDatapatch.scan_oratab]; [now exists [] |].
  destruct (Py.startswith l "#" || Py.startswith l " "); [now exists kept |].
  change ("^" ++ name ++ ":") with (String "^" (name ++ ":")).
  change ("^" ++ s ++ ":") with (String "^" (s ++ ":")).
  unfold Py.re_search. rewrite !re_literal_app, Hn, Hs.
  cbn [Py.re_literal andb]. change (Py.re_special ":") with false.
  cbn [negb andb]. rewrite IH.
  destruct (String.prefix (name ++ ":") l); cbn [OracleDb.re_or]; eauto.
Qed.

(** X7: given an empty sid and a name that holds none of the characters
    the [re] module gives a meaning of their own, the standalone locator of
    [oracle_datapatch.py] never finds the database and never fails, whatever
    the oratab holds: its second loop does nothing for any line. *)
Theorem datapatch_locator_with_empty_sid :
  forall home name unique w t,
    Py.re_literal name = true ->
    exists v,
      OracleDatapatch.check_db_exists false home name (Some "") unique w t
      = ([], Ret v)
      /\ Py.is_true v = false.
Proof.
  intros home name unique w t Hlit.
  unfold OracleDatapatch.check_db_exists, bind, read. cbn [length Nat.add].
  destruct (datapatch_scan_total name "" (match oratab w with
                                          | Some ls => ls
                                          | None => []
                                          end) Hlit eq_refl) as [kept ->].
  destruct kept as [| l ls].
  - now exists Py.PyFalse.
  - rewrite datapatch_judge_empty_sid. now exists Py.PyNone.
Qed.

Lemma datapatch_locator_with_empty_sid_witness :
  exists v,
    OracleDatapatch.check_db_exists false "/opt/db/a" "orcl" (Some "") None
      (Sample.standalone "ARCHIVELOG" "NO" "NO") 0
    = ([], Ret v)
    /\ Py.is_true v = false.
Proof.
  exact (datapatch_locator_with_empty_sid
           "/opt/db/a" "orcl" None (Sample.standalone "ARCHIVELOG" "NO" "NO") 0
           eq_refl).
Defined.

(** ** The version and the creation command *)

Lemma substring_from_start_length (n : nat) (s : string) :
  String.length (String.substring 0 n s) <= n.
Proof.
  revert s. induction n as [| n IH]; intros s; destruct s as [| c s]; cbn;
    try lia.
  specialize (IH s). lia.
Qed.

Lemma substring_from_start_prefix (n : nat) (s : string) :
  String.prefix (String.substring 0 n s) s = true.
Proof.
  revert s. induction n as [| n IH]; intros s; destruct s as [| c s]; cbn;
    try reflexivity.
  destruct (ascii_dec c c) as [_ | H]; [apply IH | now destruct H].
Qed.

(** X8: the version [get_version] hands back has four characters at most and
    begins the third blank-separated word that [sqlplus -V] printed; nothing
    but that one command is run, and both modules read the version the same
    way. *)
Theorem version_is_the_start_of_the_third_word :
  forall home w t tr v,
    OracleDb.get_version home w t = (tr, Ret v) ->
    tr = [RunCommand (home ++ "/bin/sqlplus -V")]
    /\ String.length v <= 4
    /\ (exists word,
           nth_error
             (Py.split " "
                (snd (fst (run_command w t (home ++ "/bin/sqlplus -V"))))) 2
           = Some word
           /\ String.prefix v word = true)
    /\ OracleDatapatch.get_version home w t = (tr, Ret v).
Proof.
  intros home w t tr v H.
  assert (Hsame : OracleDatapatch.get_version home w t
                  = OracleDb.get_version home w t) by reflexivity.
  rewrite Hsame, H. clear Hsame.
  unfold OracleDb.get_version, bind, ask, index in H. cbn [length app] in H.
  destruct (run_command w t (home ++ "/bin/sqlplus -V")) as [[rc out] err].
  destruct (negb (rc =? 0)%Z); [discriminate |].
  cbn [fst snd].
  destruct (nth_error (Py.split " " out) 2) as [word |]; [| discriminate].
  inversion H; subst. unfold Py.slice_to.
  split; [reflexivity |]. split; [apply substring_from_start_length |].
  split; [| reflexivity].
  exists word. split; [reflexivity | apply substring_from_start_prefix].
Qed.

Lemma version_is_the_start_of_the_third_word_witness :
  OracleDatapatch.get_version "/opt/db/a" Sample.empty_host 0
  = ([RunCommand "/opt/db/a/bin/sqlplus -V"], Ret "12.2").
Proof.
  exact (proj2 (proj2 (proj2
           (version_is_the_start_of_the_third_word
              "/opt/db/a" Sample.empty_host 0
              [RunCommand "/opt/db/a/bin/sqlplus -V"] "12.2" eq_refl)))).
Defined.

Lemma prefix_app (a b : string) : String.prefix a (a ++ b) = true.
Proof.
  induction a as [| c a IH]; cbn.
  - now destruct b.
  - destruct (ascii_dec c c) as [_ | H]; [exact IH | now destruct H].
Qed.

Lemma prefix_app_l (x a b : string) :
  String.prefix x a = true -> String.prefix x (a ++ b) = true.
Proof.
  revert a. induction x as [| c x IH]; intros a H.
  - now destruct (a ++ b).
  - destruct a as [| d a]; [discriminate |]. cbn in *.
    destruct (ascii_dec c d); [now apply IH | discriminate].
Qed.

Lemma contains_app_l (x a b : string) :
  Py.contains x a = true -> Py.contains x (a ++ b) = true.
Proof.
  induction a as [| c a IH]; intros H.
  - cbn in H. rewrite orb_false_r in H.
    destruct x; [| discriminate]. now destruct (("" ++ b)).
  - cbn [String.append Py.contains] in *.
    apply orb_true_iff in H. apply orb_true_iff. destruct H as [H | H].
    + left. now apply (prefix_app_l x (String c a) b).
    + right. auto.
Qed.

Lemma contains_app_r (x a b : string) :
  Py.contains x b = true -> Py.contains x (a ++ b) = true.
Proof.
  intros H. induction a as [| c a IH]; [exact H |].
  cbn [String.append Py.contains]. rewrite IH. apply orb_true_r.
Qed.

Lemma contains_start (x b : string) : Py.contains x (x ++ b) = true.
Proof.
  pose proof (prefix_app x b) as H. revert H.
  generalize (x ++ b). intros s H. destruct s; cbn [Py.contains]; now rewrite H.
Qed.

Lemma append_empty (x : string) : x ++ "" = x.
Proof. induction x as [| c x IH]; cbn; [reflexivity | now rewrite IH]. Qed.

Lemma contains_refl (x : string) : Py.contains x x = true.
Proof.
  pose proof (contains_start x "") as H. now rewrite append_empty in H.
Qed.

Lemma run_dbca g w t cmd :
  (r <- ask (RunCommand cmd) (fun w t => run_command w t cmd) ;;
   let '(rc, stdout, stderr) := r in
   if negb (rc =? 0)%Z then fail_json (error_msg stdout stderr cmd)
   else if String.eqb (output g) "short" then ret (verboselist g)
   else ret (List.app (verboselist g)
                      ["STDOUT: " ++ stdout ++ ",  COMMAND: " ++ cmd])) w t
  = ([RunCommand cmd],
     if (fst (fst (run_command w t cmd)) =? 0)%Z
     then Ret (if String.eqb (output g) "short" then verboselist g
               else List.app (verboselist g)
                      ["STDOUT: " ++ snd (fst (run_command w t cmd))
                         ++ ",  COMMAND: " ++ cmd])
     else FailJson (error_msg (snd (fst (run_command w t cmd)))
                              (snd (run_command w t cmd)) cmd)).
Proof.
  unfold bind, ask. destruct (run_command w t cmd) as [[rc out] err].
  cbn [fst snd length]. destruct (rc =? 0)%Z; cbn [negb]; [| reflexivity].
  destruct (String.eqb (output g) "short"); reflexivity.
Qed.

Lemma create_db_ends g home c name sid unique w t :
  (exists m, create_db g home c name sid unique w t = ([], FailJson m))
  \/ (exists cmd,
         create_db g home c name sid unique w t
         = ([RunCommand cmd],
            if (fst (fst (run_command w t cmd)) =? 0)%Z
            then Ret (if String.eqb (output g) "short" then verboselist g
                      else List.app (verboselist g)
                             ["STDOUT: " ++ snd (fst (run_command w t cmd))
                                ++ ",  COMMAND: " ++ cmd])
            else FailJson (error_msg (snd (fst (run_command w t cmd)))
                                     (snd (run_command w t cmd)) cmd))).
Proof.
  unfold create_db.
  destruct (responsefile c) as [rf |] eqn:Erf.
  - destruct (path_exists w rf) eqn:Ex.
    + right.
      set (k := fun built : string * string * string => _).
      unfold bind at 1. unfold bind at 1. unfold read. rewrite Ex.
      cbn [length Nat.add app].
      destruct (initparams c) as [l |]; unfold ret at 1; cbn [length app];
        rewrite Nat.add_0_r; subst k; cbv beta iota;
        match goal with
        | |- context [if ?b then ?x ++ ?y else ?x] => destruct b
        end;
        rewrite run_dbca; eexists; reflexivity.
    + left. eexists. unfold bind, read. now rewrite Ex.
  - right.
    destruct (create_db_options g c name sid unique) as [[options ip] pl] eqn:Eo.
    unfold bind at 1. unfold ret at 1. cbn [length app]. rewrite Nat.add_0_r.
    match goal with
    | |- context [if ?b then ?x ++ ?y else ?x] => destruct b
    end;
    rewrite run_dbca; eexists; reflexivity.
Qed.

(** X9: [create_db] either stops on a response file that is not there,
    before running anything, or runs exactly one command, a [dbca
    -createDatabase -silent] of the requested home; a non-zero return code
    of that command is a failure carrying its output, and on zero the
    function returns, with one more entry in the verbose list unless the
    output is short. *)
Theorem creation_runs_one_command :
  forall g home c name sid unique w t,
    (exists rf,
        responsefile c = Some rf /\ path_exists w rf = false
        /\ create_db g home c name sid unique w t
           = ([], FailJson ("Responsefile " ++ rf ++ " doesn't exist")))
    \/ (exists cmd,
           String.prefix (home ++ "/bin/dbca -createDatabase -silent ") cmd
           = true
           /\ create_db g home c name sid unique w t
              = ([RunCommand cmd],
                 if (fst (fst (run_command w t cmd)) =? 0)%Z
                 then Ret (if String.eqb (output g) "short" then verboselist g
                           else List.app (verboselist g)
                                  ["STDOUT: "
                                     ++ snd (fst (run_command w t cmd))
                                     ++ ",  COMMAND: " ++ cmd])
                 else FailJson (error_msg (snd (fst (run_command w t cmd)))
                                          (snd (run_command w t cmd)) cmd))).
Proof.
  intros g home c name sid unique w t.
  assert (Hp : forall x y,
             String.prefix (home ++ "/bin/dbca -createDatabase -silent ")
                           (((home ++ "/bin/dbca -createDatabase -silent ") ++ x)
                              ++ y) = true).
  { intros x y. apply prefix_app_l, prefix_app. }
  assert (Hp' : forall x,
             String.prefix (home ++ "/bin/dbca -createDatabase -silent ")
                           ((home ++ "/bin/dbca -createDatabase -silent ") ++ x)
             = true).
  { intros x. apply prefix_app. }
  unfold create_db.
  destruct (responsefile c) as [rf |] eqn:Erf.
  - destruct (path_exists w rf) eqn:Ex.
    + right.
      set (k := fun built : string * string * string => _).
      unfold bind at 1. unfold bind at 1. unfold read. rewrite Ex.
      cbn [length Nat.add app].
      destruct (initparams c) as [l |]; unfold ret at 1; cbn [length app];
        rewrite Nat.add_0_r; subst k; cbv beta iota;
        match goal with
        | |- context [if ?b then ?x ++ ?y else ?x] => destruct b
        end;
        rewrite run_dbca; eexists; (split; [| reflexivity]); auto.
    + left. exists rf. split; [reflexivity |]. split; [exact Ex |].
      unfold bind, read. now rewrite Ex.
  - right.
    destruct (create_db_options g c name sid unique) as [[options ip] pl] eqn:Eo.
    unfold bind at 1. unfold ret at 1. cbn [length app]. rewrite Nat.add_0_r.
    match goal with
    | |- context [if ?b then ?x ++ ?y else ?x] => destruct b
    end;
    rewrite run_dbca; eexists; (split; [| reflexivity]); auto.
Qed.

Ltac find_in :=
  solve [ apply contains_refl
        | apply contains_start
        | apply contains_app_l; find_in
        | apply contains_app_r; find_in ].

(** X10: when no response file is given, the creation command names the
    database after [-gdbName] and always carries a system and a dbsnmp
    password: the one given, else the sys password, else the text [None]. *)
Theorem unset_passwords_fall_back_on_sys :
  forall g home c name sid unique w t,
    responsefile c = None ->
    exists cmd,
      trace_of (create_db g home c name sid unique w t) = [RunCommand cmd]
      /\ Py.contains (" -gdbName " ++ name) cmd = true
      /\ Py.contains
           (" -systemPassword "
              ++ match system_password c with
                 | Some pw => pw
                 | None => Py.str_opt (sys_password c)
                 end) cmd = true
      /\ Py.contains
           (" -dbsnmpPassword "
              ++ match dbsnmp_password c with
                 | Some pw => pw
                 | None => Py.str_opt (sys_password c)
                 end) cmd = true.
Proof.
  intros g home c name sid unique w t Hrf.
  unfold create_db. rewrite Hrf.
  unfold create_db_options. cbv zeta.
  destruct (system_password c), (dbsnmp_password c), (initparams c);
    unfold bind at 1; unfold ret at 1; cbn [length app];
    match goal with
    | |- context [if ?b then ?x ++ ?y else ?x] => destruct b
    end;
    rewrite run_dbca; eexists; (split; [reflexivity |]);
    (split; [find_in |]); split; find_in.
Qed.

Lemma unset_passwords_fall_back_on_sys_witness :
  exists cmd,
    trace_of (create_db (Sample.globals false) "/opt/db/a"
                        Sample.create_params "orcl" None None
                        Sample.empty_host 1)
    = [RunCommand cmd]
    /\ Py.contains " -gdbName orcl" cmd = true
    /\ Py.contains " -systemPassword secret" cmd = true
    /\ Py.contains " -dbsnmpPassword secret" cmd = true.
Proof.
  exact (unset_passwords_fall_back_on_sys
           (Sample.globals false) "/opt/db/a" Sample.create_params "orcl"
           None None Sample.empty_host 1 eq_refl).
Defined.

(** ** Failures of the session and of the lifecycle steps *)




(** X12: a restart batch whose first stop fails consists of that stop alone;
    one whose stop succeeds and whose start to mount fails consists of those
    two steps.  Either way the pass ends in a failure that carries the
    output of the failed step, nothing is slept, connected or executed, and
    no start is attempted: after a failed mount the instance is left
    stopped. *)
Theorem failed_stop_or_mount_ends_the_batch :
  forall g home name unique sid instance rac sqls w t,
    let stop := stop_event g home name unique sid in
    let mount := mount_event g home name unique sid instance rac in
    let run :=
      apply_restart_changes g home name unique sid instance rac sqls w t in
    (fst (fst (answer_to w t stop)) <> 0%Z ->
     run = ([stop],
            FailJson (error_msg (snd (fst (answer_to w t stop)))
                                (snd (answer_to w t stop)) (text_of stop))))
    /\ (fst (fst (answer_to w t stop)) = 0%Z ->
        fst (fst (answer_to w (t + 1) mount)) <> 0%Z ->
        run = ([stop; mount],
               FailJson (error_msg (snd (fst (answer_to w (t + 1) mount)))
                                   (snd (answer_to w (t + 1) mount))
                                   (text_of mount)))).
Proof.
  intros g home name unique sid instance rac sqls w t stop mount run.
  subst stop mount run. unfold apply_restart_changes. split.
  - intros H. apply Z.eqb_neq in H.
    unfold bind at 1. rewrite stop_db_run. cbv zeta. now rewrite H.
  - intros H0 H1. apply Z.eqb_neq in H1.
    unfold bind at 1. rewrite stop_db_run. cbv zeta. rewrite H0.
    cbn [Z.eqb length]. unfold bind at 1.
    rewrite start_instance_run. cbv zeta. now rewrite H1.
Qed.

Lemma failed_stop_or_mount_ends_the_batch_witness :
  let w :=
    {| run_command := fun _ _ => (0%Z, "", "");
       popen := fun t _ _ _ =>
                  if (t =? 0)%nat then (0%Z, "", "")
                  else (1%Z, "ORA-01102: cannot mount database in EXCLUSIVE mode", "");
       connect := fun _ _ => None;
       fetchall := fun _ _ => inr "";
       execute := fun _ _ => None;
       oratab := None; olr_loc_exists := false;
       environ_oracle_home := None; cx_oracle_exists := true;
       path_exists := fun _ => true;
       makedsn := fun _ s => s |} in
  apply_restart_changes (Sample.globals false) "/opt/db/a" "orcl" None None
                        "orcl" false ["alter database archivelog"] w 0
  = ([stop_event (Sample.globals false) "/opt/db/a" "orcl" None None;
      mount_event (Sample.globals false) "/opt/db/a" "orcl" None None
                  "orcl" false],
     FailJson (error_msg "ORA-01102: cannot mount database in EXCLUSIVE mode"
                         "" startup_mount_sql)).
Proof.
  intros w.
  exact (proj2 (failed_stop_or_mount_ends_the_batch
                  (Sample.globals false) "/opt/db/a" "orcl" None None
                  "orcl" false ["alter database archivelog"] w 0)
               eq_refl
               (fun H => eq_ind 1%Z (fun z => match z with
                                              | 0%Z => False
                                              | _ => True
                                              end) I _ H)).
Defined.

(** ** How a pass over a found instance may end *)

(** a pass that ends with a report has carried out its whole plan, and
    reports a change exactly when the plan had work in it or the instance
    was created in this run *)
Lemma ensure_db_state_exit g home name unique sid d w t tr0 o msg c :
  observe g w t = (tr0, Ret o) ->
  outcome_of (ensure_db_state g home name unique sid d w t) = ExitJson msg c ->
  exists p,
    plan d o = Some p
    /\ c = has_work p || newdb g
    /\ trace_of (ensure_db_state g home name unique sid d w t)
       = (tr0
            ++ if immediate_first p
               then immediate_part g w p
                      ++ restart_part g w home name unique sid o p
               else restart_part g w home name unique sid o p
                      ++ immediate_part g w p)%list.
Proof.
  intros Ho Hout.
  destruct (plan d o) as [p |] eqn:Hp.
  2:{ unfold ensure_db_state in Hout.
      rewrite (bind_ret_run _ _ _ _ _ _ Ho), Hp in Hout. discriminate. }
  exists p. split; [reflexivity |].
  destruct (has_work p) eqn:Hw.
  - destruct (ensure_db_state_ends g home name unique sid d w t tr0 o p
                Ho Hp Hw) as [H | [[Hf _] | [Hf _]]].
    + rewrite H in Hout |- *. inversion Hout. split; [reflexivity |].
      cbn [trace_of fst]. now destruct (immediate_first p).
    + now destruct (failure_is_no_exit _ msg c Hf).
    + now destruct (failure_is_no_exit _ msg c Hf).
  - rewrite (ensure_db_state_idle g home name unique sid d w t tr0 o p
               Ho Hp Hw) in Hout |- *.
    cbn [trace_of outcome_of fst snd] in *.
    unfold has_work in Hw. apply orb_false_iff in Hw. destruct Hw as [Hd Hr].
    unfold restart_part, immediate_part. rewrite Hd, Hr.
    split; [destruct (newdb g); now inversion Hout |].
    destruct (immediate_first p); now rewrite !app_nil_r.
Qed.

(** X13: when a pass over a found instance ends with changed=false, the
    declared properties are the observed ones, the instance was not created
    in this run, and the pass has done nothing but observe. *)
Theorem no_change_is_reported_only_when_converged :
  forall g home name unique sid d w t tr0 o msg,
    observe g w t = (tr0, Ret o) ->
    outcome_of (ensure_db_state g home name unique sid d w t)
    = ExitJson msg false ->
    converged d o = true
    /\ newdb g = false
    /\ trace_of (ensure_db_state g home name unique sid d w t) = tr0.
Proof.
  intros g home name unique sid d w t tr0 o msg Ho Hout.
  destruct (ensure_db_state_exit g home name unique sid d w t tr0 o msg false
              Ho Hout) as (p & Hp & Hc & Htr).
  symmetry in Hc. apply orb_false_iff in Hc. destruct Hc as [Hw Hn].
  unfold has_work in Hw. apply orb_false_iff in Hw. destruct Hw as [Hd Hr].
  split; [| split; [exact Hn |]].
  - apply length_zero_nil in Hd, Hr.
    exact (empty_plan_converged d o p Hp Hr Hd).
  - rewrite Htr. unfold restart_part, immediate_part. rewrite Hd, Hr.
    destruct (immediate_first p); now rewrite !app_nil_r.
Qed.

Lemma no_change_is_reported_only_when_converged_witness :
  converged (Sample.wanted false false false)
            (Sample.observed "NOARCHIVELOG" "NO" "NO") = true
  /\ newdb (Sample.globals false) = false
  /\ trace_of (ensure_db_state (Sample.globals false) "/opt/db/a" "orcl" None
                 None (Sample.wanted false false false)
                 (Sample.standalone "NOARCHIVELOG" "NO" "NO") 0)
     = Sample.observation.
Proof.
  exact (no_change_is_reported_only_when_converged
           (Sample.globals false) "/opt/db/a" "orcl" None None
           (Sample.wanted false false false)
           (Sample.standalone "NOARCHIVELOG" "NO" "NO") 0
           Sample.observation (Sample.observed "NOARCHIVELOG" "NO" "NO")
           _ eq_refl eq_refl).
Defined.

(** X14: when a pass over a found instance that was not created in this run
    ends with changed=true, the plan was not empty and both of its batches
    were carried out in full, in the order the plan fixes: a failed step
    never ends in a report of change. *)
Theorem change_is_reported_only_after_the_whole_plan :
  forall g home name unique sid d w t tr0 o p msg,
    observe g w t = (tr0, Ret o) ->
    plan d o = Some p ->
    newdb g = false ->
    outcome_of (ensure_db_state g home name unique sid d w t)
    = ExitJson msg true ->
    (change_restart_sql p <> [] \/ change_db_sql p <> [])
    /\ trace_of (ensure_db_state g home name unique sid d w t)
       = (tr0
            ++ if immediate_first p
               then immediate_part g w p
                      ++ restart_part g w home name unique sid o p
               else restart_part g w home name unique sid o p
                      ++ immediate_part g w p)%list.
Proof.
  intros g home name unique sid d w t tr0 o p msg Ho Hp Hn Hout.
  destruct (ensure_db_state_exit g home name unique sid d w t tr0 o msg true
              Ho Hout) as (p' & Hp' & Hc & Htr).
  rewrite Hp in Hp'. inversion Hp'; subst p'.
  split; [| exact Htr].
  rewrite Hn, orb_false_r in Hc. symmetry in Hc. unfold has_work in Hc.
  apply orb_true_iff in Hc. destruct Hc as [E | E]; [right | left];
    intros Hnil; rewrite Hnil in E; discriminate.
Qed.

Lemma change_is_reported_only_after_the_whole_plan_witness :
  let g := Sample.globals false in
  trace_of (ensure_db_state g "/opt/db/a" "orcl" None None
              (Sample.wanted true false false)
              (Sample.standalone "NOARCHIVELOG" "NO" "NO") 0)
  = (Sample.observation
       ++ [stop_event g "/opt/db/a" "orcl" None None;
           mount_event g "/opt/db/a" "orcl" None None "orcl" false;
           Sleep 10; Connect "localhost:1521/orcl";
           Execute "alter database archivelog";
           stop_event g "/opt/db/a" "orcl" None None;
           start_event g "/opt/db/a" "orcl" None None])%list.
Proof.
  intros g.
  exact (proj2 (change_is_reported_only_after_the_whole_plan
                  g "/opt/db/a" "orcl" None None
                  (Sample.wanted true false false)
                  (Sample.standalone "NOARCHIVELOG" "NO" "NO") 0
                  Sample.observation (Sample.observed "NOARCHIVELOG" "NO" "NO")
                  {| change_restart_sql := ["alter database archivelog"];
                     change_db_sql := [];
                     immediate_first := false |}
                  _ eq_refl eq_refl eq_refl eq_refl)).
Defined.

Lemma immediate_batch_has_no_lifecycle_step g w sqls :
  forallb (fun e => negb (is_lifecycle_step e)) (immediate_batch g w sqls)
  = true.
Proof.
  unfold immediate_batch, session. cbn [app forallb is_lifecycle_step negb andb].
  induction sqls as [| s rest IH]; cbn; auto.
Qed.

Lemma forallb_prefix (f : Event -> bool) (a b : Trace) :
  is_prefix a b -> forallb f b = true -> forallb f a = true.
Proof.
  intros [c ->] H. rewrite forallb_app in H.
  now apply andb_prop in H.
Qed.

(** X15: a pass never stops, mounts or starts an instance whose log mode is
    already the declared one, whatever else it has to change; and when the
    log mode is another one, the restart batch is the one archivelog
    statement. *)
Theorem no_restart_unless_the_log_mode_differs :
  forall g home name unique sid d w t tr0 o p,
    observe g w t = (tr0, Ret o) ->
    plan d o = Some p ->
    (live o 0 = Some (archcomp d) ->
     forallb (fun e => negb (is_lifecycle_step e))
             (trace_of (ensure_db_state g home name unique sid d w t))
     = true)
    /\ (forall lm, live o 0 = Some lm -> lm <> archcomp d ->
                   change_restart_sql p = [archsql d]).
Proof.
  intros g home name unique sid d w t tr0 o p Ho Hp.
  destruct (plan_inv d o p Hp) as (lm & fl & fb & E0 & _ & _ & Hrs & _ & _).
  split.
  - intros Hlm. rewrite Hlm in E0. inversion E0; subst lm.
    rewrite String.eqb_refl in Hrs. cbn in Hrs.
    rewrite (ensure_db_state_run _ _ _ _ _ _ _ _ _ _ _ Ho Hp).
    destruct (execute_plan_order g home name unique sid d o p w (t + length tr0))
      as (tr1 & tr2 & E & H1 & H2 & _).
    rewrite E.
    assert (Hr : restart_part g w home name unique sid o p = []).
    { unfold restart_part. now rewrite Hrs. }
    assert (Hi : forallb (fun e => negb (is_lifecycle_step e))
                         (immediate_part g w p) = true).
    { unfold immediate_part. destruct (0 <? length (change_db_sql p))%nat;
        [apply immediate_batch_has_no_lifecycle_step | reflexivity]. }
    assert (H0 : forallb (fun e => negb (is_lifecycle_step e)) tr0 = true).
    { destruct (emits_observe g w t) as [_ H]. rewrite Ho in H.
      destruct (H o eq_refl) as [Htr _]. cbn [trace_of fst] in Htr.
      rewrite Htr. reflexivity. }
    rewrite Hr in *. rewrite !forallb_app, H0. cbn [andb].
    destruct (immediate_first p);
      rewrite (forallb_prefix _ _ _ H1), (forallb_prefix _ _ _ H2);
      auto.
  - intros lm' Hlm Hne. rewrite Hlm in E0. inversion E0; subst lm'.
    rewrite Hrs. destruct (String.eqb_spec lm (archcomp d)) as [-> | _];
      [now destruct Hne | reflexivity].
Qed.

Lemma no_restart_unless_the_log_mode_differs_witness :
  forallb (fun e => negb (is_lifecycle_step e))
          (trace_of (ensure_db_state (Sample.globals false) "/opt/db/a" "orcl"
                       None None (Sample.wanted true true true)
                       (Sample.standalone "ARCHIVELOG" "NO" "NO") 0))
  = true.
Proof.
  exact (proj1 (no_restart_unless_the_log_mode_differs
                  (Sample.globals false) "/opt/db/a" "orcl" None None
                  (Sample.wanted true true true)
                  (Sample.standalone "ARCHIVELOG" "NO" "NO") 0
                  Sample.observation (Sample.observed "ARCHIVELOG" "NO" "NO")
                  {| change_restart_sql := [];
                     change_db_sql := ["alter database force logging";
                                       "alter database flashback on"];
                     immediate_first := false |}
                  eq_refl eq_refl) eq_refl).
Defined.

(** ** Passes that create the instance *)

Lemma never_exits_bind {A B} (m : M A) (k : A -> M B) w t :
  never_exits m w t ->
  (forall a t', never_exits (k a) w t') ->
  never_exits (bind m k) w t.
Proof.
  unfold never_exits, bind. intros Hm Hk msg c.
  destruct (m w t) as [tr o]. cbn [outcome_of snd] in Hm.
  destruct o as [a | msg' c' | msg' | e | why]; cbn [outcome_of snd];
    try discriminate.
  - specialize (Hk a (t + length tr) msg c).
    now destruct (k a w (t + length tr)).
  - now destruct (Hm msg' c').
Qed.

Lemma never_exits_of_rof {A} (m : M A) w t :
  returns_or_fails m w t -> never_exits m w t.
Proof.
  intros [[a H] | Hf] msg c; [rewrite H; discriminate |].
  now apply failure_is_no_exit.
Qed.

Lemma never_exits_index {A B} (l : list A) (i : nat) (k : A -> M B) w t :
  (forall a, never_exits (k a) w t) -> never_exits (index l i k) w t.
Proof.
  intros H. unfold index. destruct (nth_error l i); [apply H |].
  intros msg c. discriminate.
Qed.

Lemma never_exits_execute_sql_get sql w t :
  never_exits (execute_sql_get sql) w t.
Proof.
  intros msg c. unfold execute_sql_get, bind, ask.
  destruct (fetchall w t sql); discriminate.
Qed.

Lemma never_exits_observe g w t : never_exits (observe g) w t.
Proof.
  unfold observe.
  apply never_exits_bind; [apply never_exits_of_rof, rof_getconn |].
  intros _ t1.
  apply never_exits_bind; [apply never_exits_execute_sql_get |].
  intros props t2.
  destruct props as [| r1 [| r2 [| r3 [| r4 more]]]];
    try (intros msg c; discriminate).
  apply never_exits_bind; [apply never_exits_execute_sql_get |].
  intros topology t3. unfold cell.
  apply never_exits_index. intros row. apply never_exits_index. intros inst.
  apply never_exits_bind; [apply never_exits_execute_sql_get |].
  intros logs t4.
  apply never_exits_index. intros row'. apply never_exits_index. intros par.
  intros msg c. discriminate.
Qed.

(** [ensure_db_state] always ends the process: with a report, a failure or
    an exception. *)
Lemma ensure_db_state_never_returns g home name unique sid d w t :
  never_returns (ensure_db_state g home name unique sid d) w t.
Proof.
  intros a Hout.
  destruct (observe g w t) as [tr0 oo] eqn:Ho.
  destruct oo as [o | | | |];
    try (unfold ensure_db_state, bind in Hout; rewrite Ho in Hout;
         discriminate).
  destruct (plan d o) as [p |] eqn:Hp.
  2:{ unfold ensure_db_state in Hout.
      rewrite (bind_ret_run _ _ _ _ _ _ Ho), Hp in Hout. discriminate. }
  destruct (has_work p) eqn:Hw.
  - destruct (ensure_db_state_ends g home name unique sid d w t tr0 o p
                Ho Hp Hw) as [H | [[Hf _] | [Hf _]]].
    + rewrite H in Hout. discriminate.
    + now destruct (failure_is_no_return _ a Hf).
    + now destruct (failure_is_no_return _ a Hf).
  - rewrite (ensure_db_state_idle g home name unique sid d w t tr0 o p
               Ho Hp Hw) in Hout.
    destruct (newdb g); discriminate.
Qed.

Lemma quiet_exit_not_new g home name unique sid d w t tr0 o msg :
  observe g w t = (tr0, Ret o) ->
  outcome_of (ensure_db_state g home name unique sid d w t)
  = ExitJson msg false ->
  newdb g = false.
Proof.
  intros Ho Hout.
  destruct (ensure_db_state_exit g home name unique sid d w t tr0 o msg false
              Ho Hout) as (p & _ & Hc & _).
  symmetry in Hc. now apply orb_false_iff in Hc.
Qed.

Lemma ensure_db_state_of_new_instance g home name unique sid d w t msg :
  newdb g = true ->
  outcome_of (ensure_db_state g home name unique sid d w t)
  <> ExitJson msg false.
Proof.
  intros Hn Hout.
  destruct (observe g w t) as [tr0 oo] eqn:Ho.
  destruct oo as [o | m c | | |].
  - pose proof (quiet_exit_not_new g home name unique sid d w t tr0 o msg
                                   Ho Hout) as H.
    congruence.
  - now destruct (never_exits_observe g w t m c); rewrite Ho.
  - unfold ensure_db_state, bind in Hout. rewrite Ho in Hout. discriminate.
  - unfold ensure_db_state, bind in Hout. rewrite Ho in Hout. discriminate.
  - unfold ensure_db_state, bind in Hout. rewrite Ho in Hout. discriminate.
Qed.

(** X16: a pass with target present that does not find the instance never
    ends with changed=false: it fails, or it creates the instance and, if
    everything that follows succeeds, reports changed=true. *)
Theorem creating_pass_never_reports_no_change :
  forall p w t tr0 g home tr v msg,
    state p = "present" ->
    setup p w t = (tr0, Ret (g, home)) ->
    check_db_exists g home (db_name p) (sid p) (db_unique_name p) w
                    (t + length tr0) = (tr, Ret v) ->
    Py.is_true v = false ->
    outcome_of (main p w t) <> ExitJson msg false.
Proof.
  intros p w t tr0 g home tr v msg Hs Hsetup Hc Hv.
  rewrite (main_run _ _ _ _ _ _ Hsetup). cbn [outcome_of snd].
  unfold dispatch. rewrite Hs.
  change (String.eqb "present" "started") with false.
  change (String.eqb "present" "present") with true.
  cbv iota. unfold bind at 1. unfold bind at 1. rewrite Hc, Hv. cbn [negb].
  set (c := t + length tr0 + length tr).
  unfold bind at 1.
  destruct (create_db_ends g home (create p) (db_name p) (sid p)
              (db_unique_name p) w c)
    as [(m0 & Hcr) | (cmd & Hcr)]; rewrite Hcr;
    [discriminate |].
  destruct (fst (fst (run_command w c cmd)) =? 0)%Z; [| discriminate].
  set (vl := if String.eqb (output g) "short" then _ else _).
  pose proof (ensure_db_state_of_new_instance
                (set_newdb g true vl) home (db_name p) (db_unique_name p)
                (sid p) (declared p) w (c + length [RunCommand cmd]) msg
                eq_refl) as Hnew.
  pose proof (ensure_db_state_never_returns
                (set_newdb g true vl) home (db_name p) (db_unique_name p)
                (sid p) (declared p) w (c + length [RunCommand cmd])) as Hnr.
  unfold never_returns in Hnr.
  destruct (ensure_db_state _ _ _ _ _ _ w (c + length [RunCommand cmd]))
    as [tr' out].
  cbn [outcome_of snd] in *.
  destruct out as [a | m ch | m | e | y]; cbn; try discriminate.
  - now destruct (Hnr a).
  - intros H. apply Hnew. inversion H. reflexivity.
Qed.

Lemma creating_pass_never_reports_no_change_witness :
  outcome_of (main (Sample.params "present" None None
                                  (Sample.wanted false false false))
                   Sample.empty_host 0)
  <> ExitJson " Database orcl already exists and is in the intended state - Archivelog: False, Force Logging: False, Flashback: False" false.
Proof.
  exact (creating_pass_never_reports_no_change
           (Sample.params "present" None None (Sample.wanted false false false))
           Sample.empty_host 0 [RunCommand "/opt/db/a/bin/sqlplus -V"]
           (Sample.globals false) "/opt/db/a" [] Py.PyFalse _
           eq_refl eq_refl eq_refl eq_refl).
Defined.

(** ** The other targets and the first steps of [main] *)

(** X17: with target started the pass never asks whether the instance is
    running: when the locator finds the database it is started and, if the
    start succeeds, reported as changed; when the locator finds nothing the
    pass fails with "Database not found". *)
Theorem started_pass_starts_whatever_it_finds :
  forall p w t tr0 g home tr v,
    state p = "started" ->
    setup p w t = (tr0, Ret (g, home)) ->
    check_db_exists g home (db_name p) (sid p) (db_unique_name p) w
                    (t + length tr0) = (tr, Ret v) ->
    main p w t
    = if Py.is_true v then
        let e := start_event g home (db_name p) (db_unique_name p) (sid p) in
        let c := t + length tr0 + length tr in
        ((tr0 ++ tr ++ [e])%list,
         if (fst (fst (answer_to w c e)) =? 0)%Z
         then ExitJson "Database started." true
         else FailJson (error_msg (snd (fst (answer_to w c e)))
                                  (snd (answer_to w c e)) (text_of e)))
      else
        ((tr0 ++ tr)%list,
         FailJson ("Database not found. oracle_home: " ++ home
                     ++ " db_name: " ++ db_name p
                     ++ " sid: " ++ Py.str_opt (sid p)
                     ++ " db_unique_name: " ++ Py.str_opt (db_unique_name p))).
Proof.
  intros p w t tr0 g home tr v Hs Hsetup Hc.
  rewrite (main_run _ _ _ _ _ _ Hsetup).
  assert (Hd : dispatch p g home w (t + length tr0)
               = if Py.is_true v then
                   let e := start_event g home (db_name p) (db_unique_name p)
                                        (sid p) in
                   let c := t + length tr0 + length tr in
                   ((tr ++ [e])%list,
                    if (fst (fst (answer_to w c e)) =? 0)%Z
                    then ExitJson "Database started." true
                    else FailJson (error_msg (snd (fst (answer_to w c e)))
                                             (snd (answer_to w c e))
                                             (text_of e)))
                 else
                   (tr,
                    FailJson ("Database not found. oracle_home: " ++ home
                                ++ " db_name: " ++ db_name p
                                ++ " sid: " ++ Py.str_opt (sid p)
                                ++ " db_unique_name: "
                                ++ Py.str_opt (db_unique_name p)))).
  { unfold dispatch. rewrite Hs.
    change (String.eqb "started" "started") with true. cbv iota.
    unfold bind at 1. unfold bind at 1. rewrite Hc.
    destruct (Py.is_true v); cbn [negb].
    - unfold bind at 1. rewrite start_db_run. cbv zeta.
      destruct (fst (fst (answer_to w _ _)) =? 0)%Z; cbn;
        now rewrite ?app_nil_r.
    - cbn. now rewrite app_nil_r. }
  rewrite Hd. destruct (Py.is_true v); reflexivity.
Qed.

Lemma started_pass_starts_whatever_it_finds_witness :
  main (Sample.params "started" None None (Sample.wanted false false false))
       (Sample.standalone "ARCHIVELOG" "NO" "NO") 0
  = ([RunCommand "/opt/db/a/bin/sqlplus -V";
      start_event (Sample.globals false) "/opt/db/a" "orcl" None None],
     ExitJson "Database started." true).
Proof.
  exact (started_pass_starts_whatever_it_finds
           (Sample.params "started" None None (Sample.wanted false false false))
           (Sample.standalone "ARCHIVELOG" "NO" "NO") 0
           [RunCommand "/opt/db/a/bin/sqlplus -V"]
           (Sample.globals false) "/opt/db/a" [] Py.PyTrue
           eq_refl eq_refl eq_refl).
Defined.

(** a pass gets past its first steps without the driver only on a
    cluster-managed host *)
Lemma setup_without_driver p w t tr0 g home :
  setup p w t = (tr0, Ret (g, home)) ->
  cx_oracle_exists w = false ->
  olr_loc_exists w = true.
Proof.
  unfold setup. intros H Hx.
  apply bind_ret_inv in H. destruct H as (tr1 & h & tr2 & _ & H & _).
  apply bind_ret_inv in H. destruct H as (tr3 & olr & tr4 & Holr & H & _).
  apply bind_ret_inv in H. destruct H as (tr5 & cx & tr6 & Hcx & H & _).
  inversion Holr; subst. inversion Hcx; subst. rewrite Hx in H.
  now destruct (olr_loc_exists w).
Qed.

(** X18: removal needs a session with the instance.  On a host where the
    driver is there, when the session cannot be opened the pass fails with
    "Could not connect to database".  Where the driver could not be
    imported, which the first steps of [main] let through on a
    cluster-managed host only, the pass ends in a [NameError] before any
    session is attempted.  Either way the removal command is never run. *)
Theorem removal_needs_a_session :
  forall p w t tr0 g home tr v,
    state p = "absent" ->
    setup p w t = (tr0, Ret (g, home)) ->
    check_db_exists g home (db_name p) (sid p) (db_unique_name p) w
                    (t + length tr0) = (tr, Ret v) ->
    Py.is_true v = true ->
    Py.truthy_opt (sys_password (create p)) = true ->
    (cx_oracle_exists w = true ->
     forall err,
       connect w (t + length tr0 + length tr) (descriptor g w) = Some err ->
       main p w t
       = ((tr0 ++ tr ++ session g w)%list,
          FailJson ("Could not connect to database - " ++ err
                      ++ ", connect descriptor: " ++ descriptor g w)))
    /\ (cx_oracle_exists w = false ->
        olr_loc_exists w = true
        /\ main p w t = ((tr0 ++ tr)%list, Raise "NameError")).
Proof.
  intros p w t tr0 g home tr v Hs Hsetup Hc Hv Hpw.
  destruct (setup_globals _ _ _ _ _ _ Hsetup) as (Hu & Hp & _).
  assert (Hu' : Py.truthy (user g) = true) by now rewrite Hu.
  assert (Hp' : Py.truthy_opt (password g) = true) by now rewrite Hp.
  split.
  - intros Hx err Hconn.
    assert (Hr : remove_db g home (db_name p) (sid p) (db_unique_name p)
                   (sys_password (create p)) w (t + length tr0 + length tr)
                 = (session g w,
                    FailJson ("Could not connect to database - " ++ err
                                ++ ", connect descriptor: "
                                ++ descriptor g w))).
    { unfold remove_db. unfold bind at 1.
      now rewrite (getconn_refused g w _ err Hu' Hp' Hx Hconn). }
    exact (removal_main p w t tr0 g home tr v _ _ Hs Hsetup Hc Hv Hr).
  - intros Hx. split; [exact (setup_without_driver _ _ _ _ _ _ Hsetup Hx) |].
    assert (Hr : remove_db g home (db_name p) (sid p) (db_unique_name p)
                   (sys_password (create p)) w (t + length tr0 + length tr)
                 = ([], Raise "NameError")).
    { unfold remove_db. unfold bind at 1.
      now rewrite (getconn_without_driver g w _ Hu' Hp' Hx). }
    rewrite (removal_main p w t tr0 g home tr v _ _ Hs Hsetup Hc Hv Hr).
    now rewrite app_nil_r.
Qed.

Lemma removal_needs_a_session_witness :
  let refusing :=
    {| run_command := fun _ _ => Sample.all_fine "";
       popen := fun _ _ _ _ => (0%Z, "", "");
       connect := fun _ _ => Some "ORA-01034: ORACLE not available";
       fetchall := fun _ _ => inr "";
       execute := fun _ _ => None;
       oratab := Some ["orcl:/opt/db/a:N" ++ nl]; olr_loc_exists := false;
       environ_oracle_home := None; cx_oracle_exists := true;
       path_exists := fun _ => true;
       makedsn := fun _ s => s |} in
  let driverless :=
    {| run_command := fun _ _ => (0%Z, "Database name: orcl", "");
       popen := fun _ _ _ _ => (0%Z, "", "");
       connect := fun _ _ => None;
       fetchall := fun _ _ => inl Sample.single_instance;
       execute := fun _ _ => None;
       oratab := None; olr_loc_exists := true;
       environ_oracle_home := None; cx_oracle_exists := false;
       path_exists := fun _ => true;
       makedsn := fun _ s => s |} in
  let p := Sample.params "absent" None None (Sample.wanted false false false) in
  main p refusing 0
  = ([RunCommand "/opt/db/a/bin/sqlplus -V"; Connect "orcl"],
     FailJson "Could not connect to database - ORA-01034: ORACLE not available, connect descriptor: orcl")
  /\ main p driverless 0
     = ([RunCommand "/opt/db/a/bin/sqlplus -V";
         RunCommand "/opt/db/a/bin/srvctl config database -d orcl "],
        Raise "NameError").
Proof.
  intros refusing driverless p. split.
  - exact (proj1 (removal_needs_a_session
                    p refusing 0 [RunCommand "/opt/db/a/bin/sqlplus -V"]
                    (Sample.globals false) "/opt/db/a" [] Py.PyTrue
                    eq_refl eq_refl eq_refl eq_refl eq_refl)
                 eq_refl "ORA-01034: ORACLE not available" eq_refl).
  - exact (proj2 (proj2 (removal_needs_a_session
                    p driverless 0 [RunCommand "/opt/db/a/bin/sqlplus -V"]
                    _ "/opt/db/a"
                    [RunCommand "/opt/db/a/bin/srvctl config database -d orcl "]
                    Py.PyTrue
                    eq_refl eq_refl eq_refl eq_refl eq_refl)
                 eq_refl)).
Defined.

(** X19: on a host where the driver is there, when the removal command
    returns a non-zero code the pass fails with "Removal of database ...
    failed" and the command's output; it does not report a change. *)
Theorem failed_removal_is_a_failure :
  forall p w t tr0 g home tr v rows target rc out err,
    state p = "absent" ->
    setup p w t = (tr0, Ret (g, home)) ->
    check_db_exists g home (db_name p) (sid p) (db_unique_name p) w
                    (t + length tr0) = (tr, Ret v) ->
    Py.is_true v = true ->
    Py.truthy_opt (sys_password (create p)) = true ->
    cx_oracle_exists w = true ->
    connect w (t + length tr0 + length tr) (descriptor g w) = None ->
    fetchall w (t + length tr0 + length tr + 1) israc_sql = inl rows ->
    remove_db_target g (db_name p) (sid p) (db_unique_name p) rows
    = Some target ->
    run_command w (t + length tr0 + length tr + 2)
                (remove_command home target (sys_password (create p)))
    = (rc, out, err) ->
    rc <> 0%Z ->
    main p w t
    = ((tr0 ++ tr ++ session g w
          ++ [Fetchall israc_sql;
              RunCommand (remove_command home target
                                         (sys_password (create p)))])%list,
       FailJson ("Removal of database " ++ db_name p ++ " failed: " ++ out)).
Proof.
  intros p w t tr0 g home tr v rows target rc out err
         Hs Hsetup Hc Hv Hpw Hx Hconn Hf Ht Hrun Hrc.
  destruct (setup_globals _ _ _ _ _ _ Hsetup) as (Hu & Hp & _).
  assert (Hu' : Py.truthy (user g) = true) by now rewrite Hu.
  assert (Hp' : Py.truthy_opt (password g) = true) by now rewrite Hp.
  rewrite (removal_main p w t tr0 g home tr v _ _ Hs Hsetup Hc Hv
             (remove_db_run g home _ _ _ _ w _ rows target
                (getconn_run g w _ Hu' Hp' Hx Hconn) Hf Ht)).
  cbv zeta. rewrite Hrun. cbn [fst snd].
  apply Z.eqb_neq in Hrc. now rewrite Hrc.
Qed.

Lemma failed_removal_is_a_failure_witness :
  let w :=
    {| run_command := fun t _ =>
                        if (t <? 3)%nat then Sample.all_fine ""
                        else (1%Z, "DBCA failed", "");
       popen := fun _ _ _ _ => (0%Z, "", "");
       connect := fun _ _ => None;
       fetchall := fun _ _ => inl Sample.single_instance;
       execute := fun _ _ => None;
       oratab := Some ["orcl:/opt/db/a:N" ++ nl]; olr_loc_exists := false;
       environ_oracle_home := None; cx_oracle_exists := true;
       path_exists := fun _ => true;
       makedsn := fun _ s => s |} in
  main (Sample.params "absent" None None (Sample.wanted false false false)) w 0
  = ([RunCommand "/opt/db/a/bin/sqlplus -V"; Connect "orcl";
      Fetchall israc_sql;
      RunCommand (remove_command "/opt/db/a" "orcl" (Some "secret"))],
     FailJson "Removal of database orcl failed: DBCA failed").
Proof.
  intros w.
  exact (failed_removal_is_a_failure
           (Sample.params "absent" None None (Sample.wanted false false false))
           w 0 [RunCommand "/opt/db/a/bin/sqlplus -V"]
           (Sample.globals false) "/opt/db/a" [] Py.PyTrue
           Sample.single_instance "orcl" 1%Z "DBCA failed" ""
           eq_refl eq_refl eq_refl eq_refl eq_refl eq_refl eq_refl eq_refl
           eq_refl eq_refl
           (fun H => eq_ind 1%Z (fun z => match z with
                                          | 0%Z => False
                                          | _ => True
                                          end) I _ H)).
Defined.

(** X20: when the installation path is neither given nor in the
    environment, both modules fail at once, before running anything. *)
Theorem missing_home_is_fatal :
  forall (p : OracleDb.Params) (q : OracleDatapatch.Params) w t,
    OracleDb.oracle_home p = None ->
    OracleDatapatch.oracle_home q = None ->
    environ_oracle_home w = None ->
    OracleDb.main p w t
    = ([], FailJson
             "ORACLE_HOME variable not set. Please set it and re-run the command")
    /\ OracleDatapatch.main q w t
       = ([], FailJson
                "ORACLE_HOME variable not set. Please set it and re-run the command").
Proof.
  intros p q w t Hp Hq He. split.
  - unfold OracleDb.main, setup, bind, read. now rewrite Hp, He.
  - unfold OracleDatapatch.main, bind, read. now rewrite Hq, He.
Qed.

Lemma missing_home_is_fatal_witness :
  let q :=
    {| OracleDatapatch.oracle_home := None;
       OracleDatapatch.db_name := "orcl";
       OracleDatapatch.sid := None;
       OracleDatapatch.db_unique_name := None;
       OracleDatapatch.fail_on_db_not_exist := true;
       OracleDatapatch.output := "short";
       OracleDatapatch.environ_sid := "" |} in
  OracleDatapatch.main q Sample.empty_host 0
  = ([], FailJson
           "ORACLE_HOME variable not set. Please set it and re-run the command").
Proof.
  intros q.
  exact (proj2 (missing_home_is_fatal
                  {| oracle_home := None; db_name := "orcl"; sid := None;
                     db_unique_name := None; create := Sample.create_params;
                     declared := Sample.wanted false false false;
                     param_output := "short"; state := "present";
                     param_port := "1521" |}
                  q Sample.empty_host 0 eq_refl eq_refl eq_refl)).
Defined.

(** X21: without the cx_Oracle library, [oracle_db.py] under standalone mode
    and [oracle_datapatch.py] under either mode fail as soon as the
    installation path is known, before running anything. *)
Theorem missing_driver_is_fatal :
  forall (p : OracleDb.Params) (q : OracleDatapatch.Params) w t,
    cx_oracle_exists w = false ->
    (OracleDb.oracle_home p <> None \/ environ_oracle_home w <> None ->
     olr_loc_exists w = false ->
     OracleDb.main p w t
     = ([], FailJson
              ("The cx_Oracle module is required. 'pip install cx_Oracle' should do the trick."
                 ++ " If cx_Oracle is installed, make sure ORACLE_HOME & LD_LIBRARY_PATH is set")))
    /\ (OracleDatapatch.oracle_home q <> None \/ environ_oracle_home w <> None ->
        OracleDatapatch.main q w t
        = ([], FailJson
                 ("The cx_Oracle module is required. 'pip install cx_Oracle' should do the trick."
                    ++ " If cx_Oracle is installed, make sure ORACLE_HOME & LD_LIBRARY_PATH is set"))).
Proof.
  intros p q w t Hcx. split.
  - intros Hh Holr. unfold OracleDb.main, setup, bind, read.
    destruct (OracleDb.oracle_home p) as [h |].
    + cbn [length Nat.add]. now rewrite Holr, Hcx.
    + destruct (environ_oracle_home w) as [h |].
      * cbn [length Nat.add]. now rewrite Holr, Hcx.
      * destruct Hh as [H | H]; now destruct H.
  - intros Hh. unfold OracleDatapatch.main, bind, read.
    destruct (OracleDatapatch.oracle_home q) as [h |].
    + cbn [length Nat.add]. now rewrite Hcx.
    + destruct (environ_oracle_home w) as [h |].
      * cbn [length Nat.add]. now rewrite Hcx.
      * destruct Hh as [H | H]; now destruct H.
Qed.

Lemma missing_driver_is_fatal_witness :
  let w :=
    {| run_command := fun _ _ => Sample.all_fine "";
       popen := fun _ _ _ _ => (0%Z, "", "");
       connect := fun _ _ => None;
       fetchall := fun _ _ => inr "";
       execute := fun _ _ => None;
       oratab := None; olr_loc_exists := false;
       environ_oracle_home := Some "/opt/db/a"; cx_oracle_exists := false;
       path_exists := fun _ => true;
       makedsn := fun _ s => s |} in
  OracleDb.main (Sample.params "present" None None
                               (Sample.wanted false false false)) w 0
  = ([], FailJson
           ("The cx_Oracle module is required. 'pip install cx_Oracle' should do the trick."
              ++ " If cx_Oracle is installed, make sure ORACLE_HOME & LD_LIBRARY_PATH is set")).
Proof.
  intros w.
  exact (proj1 (missing_driver_is_fatal
                  (Sample.params "present" None None
                                 (Sample.wanted false false false))
                  {| OracleDatapatch.oracle_home := None;
                     OracleDatapatch.db_name := "orcl";
                     OracleDatapatch.sid := None;
                     OracleDatapatch.db_unique_name := None;
                     OracleDatapatch.fail_on_db_not_exist := true;
                     OracleDatapatch.output := "short";
                     OracleDatapatch.environ_sid := "" |}
                  w 0 eq_refl)
               (or_intror (fun H => eq_ind (Some "/opt/db/a")
                                      (fun o => match o with
                                                | Some _ => True
                                                | None => False
                                                end) I _ H))
               eq_refl).
Defined.

(** ** [oracle_datapatch.py]: the driver *)

Lemma datapatch_main_run q w t home tr0 ver tr v :
  datapatch_home q w = Some home ->
  cx_oracle_exists w = true ->
  OracleDatapatch.get_version home w t = (tr0, Ret ver) ->
  OracleDatapatch.check_db_exists
    (olr_loc_exists w) home (OracleDatapatch.db_name q)
    (OracleDatapatch.sid q) (OracleDatapatch.db_unique_name q) w
    (t + length tr0) = (tr, Ret v) ->
  let rest : M unit :=
    if Py.is_true v then
      patched <- OracleDatapatch.run_datapatch
                   ver (OracleDatapatch.output q)
                   (OracleDatapatch.environ_sid q) home
                   (OracleDatapatch.db_name q) (OracleDatapatch.sid q) ;;
      if patched : bool then
        exit_json ("Datapatch run successfully for database: "
                     ++ OracleDatapatch.db_name q) true
      else fail_json "datapatch failed in a unhandled way"
    else if OracleDatapatch.fail_on_db_not_exist q then
      fail_json ("Database " ++ OracleDatapatch.db_name q ++ " does not exist")
    else
      exit_json ("Database " ++ OracleDatapatch.db_name q
                   ++ " does not exist (so datapatch can not run, obviously), but continuing anyway")
                false in
  OracleDatapatch.main q w t
  = ((tr0 ++ tr ++ trace_of (rest w (t + length tr0 + length tr)))%list,
     outcome_of (rest w (t + length tr0 + length tr))).
Proof.
  intros Hh Hcx Hv Hc rest. unfold OracleDatapatch.main.
  assert (Hhome :
            (match OracleDatapatch.oracle_home q with
             | Some h => ret h
             | None =>
                 env <- read environ_oracle_home ;;
                 match env with
                 | Some h => ret h
                 | None =>
                     fail_json
                       "ORACLE_HOME variable not set. Please set it and re-run the command"
                 end
             end) w t = ([], Ret home)).
  { unfold datapatch_home in Hh.
    destruct (OracleDatapatch.oracle_home q) as [h |];
      [now inversion Hh |].
    unfold bind, read. now rewrite Hh. }
  rewrite (bind_ret_run _ _ _ _ _ _ Hhome).
  rewrite (bind_ret_run _ _ w (t + length (@nil Event)) [] (olr_loc_exists w)
                        eq_refl).
  cbn [trace_of outcome_of fst snd length app]. rewrite !Nat.add_0_r.
  rewrite (bind_ret_run _ _ w t [] (cx_oracle_exists w) eq_refl).
  cbn [trace_of outcome_of fst snd length app]. rewrite !Nat.add_0_r.
  rewrite Hcx. cbn [negb].
  rewrite (bind_ret_run _ _ _ _ _ _ Hv).
  cbn [trace_of outcome_of fst snd].
  rewrite (bind_ret_run _ _ _ _ _ _ Hc).
  cbn [trace_of outcome_of fst snd]. subst rest. cbv zeta.
  reflexivity.
Qed.

(** X22: when the locator of [oracle_datapatch.py] does not find the
    database, the pass ends by the caller's policy: with
    [fail_on_db_not_exist] it fails with "does not exist", without it it
    reports changed=false and goes on; in neither case is anything patched. *)
Theorem datapatch_not_found_follows_the_policy :
  forall q w t home tr0 ver tr v,
    datapatch_home q w = Some home ->
    cx_oracle_exists w = true ->
    OracleDatapatch.get_version home w t = (tr0, Ret ver) ->
    OracleDatapatch.check_db_exists
      (olr_loc_exists w) home (OracleDatapatch.db_name q)
      (OracleDatapatch.sid q) (OracleDatapatch.db_unique_name q) w
      (t + length tr0) = (tr, Ret v) ->
    Py.is_true v = false ->
    OracleDatapatch.main q w t
    = ((tr0 ++ tr)%list,
       if OracleDatapatch.fail_on_db_not_exist q
       then FailJson ("Database " ++ OracleDatapatch.db_name q
                        ++ " does not exist")
       else ExitJson ("Database " ++ OracleDatapatch.db_name q
                        ++ " does not exist (so datapatch can not run, obviously), but continuing anyway")
                     false).
Proof.
  intros q w t home tr0 ver tr v Hh Hcx Hv Hc Hf.
  rewrite (datapatch_main_run q w t home tr0 ver tr v Hh Hcx Hv Hc).
  rewrite Hf.
  destruct (OracleDatapatch.fail_on_db_not_exist q); cbn;
    now rewrite !app_nil_r.
Qed.

Lemma datapatch_not_found_follows_the_policy_witness :
  let q :=
    {| OracleDatapatch.oracle_home := Some "/opt/db/a";
       OracleDatapatch.db_name := "orcl";
       OracleDatapatch.sid := None;
       OracleDatapatch.db_unique_name := None;
       OracleDatapatch.fail_on_db_not_exist := false;
       OracleDatapatch.output := "short";
       OracleDatapatch.environ_sid := "" |} in
  OracleDatapatch.main q Sample.xorcl_host 0
  = ([RunCommand "/opt/db/a/bin/sqlplus -V"],
     ExitJson "Database orcl does not exist (so datapatch can not run, obviously), but continuing anyway"
              false).
Proof.
  intros q.
  exact (datapatch_not_found_follows_the_policy
           q Sample.xorcl_host 0 "/opt/db/a"
           [RunCommand "/opt/db/a/bin/sqlplus -V"] "12.2" [] Py.PyFalse
           eq_refl eq_refl eq_refl eq_refl eq_refl).
Defined.

(** X23: when the database is found and the patch command succeeds, a
    version above 11.2 makes the pass report a change exactly when the
    command printed "Patch installation complete"; at 11.2 and below the
    script is fed to sqlplus and every successful run is reported as a
    change. *)
Theorem datapatch_reports_change_by_the_output :
  forall q w t home tr0 ver tr v,
    datapatch_home q w = Some home ->
    cx_oracle_exists w = true ->
    OracleDatapatch.get_version home w t = (tr0, Ret ver) ->
    OracleDatapatch.check_db_exists
      (olr_loc_exists w) home (OracleDatapatch.db_name q)
      (OracleDatapatch.sid q) (OracleDatapatch.db_unique_name q) w
      (t + length tr0) = (tr, Ret v) ->
    Py.is_true v = true ->
    let c := t + length tr0 + length tr in
    (Py.gt ver "11.2" = true ->
     forall out err,
       run_command w c (home ++ "/OPatch/datapatch -verbose") = (0%Z, out, err) ->
       exists msg,
         OracleDatapatch.main q w t
         = ((tr0 ++ tr
               ++ [RunCommand (home ++ "/OPatch/datapatch -verbose")%string])%list,
            ExitJson msg (Py.contains "Patch installation complete" out)))
    /\ (Py.gt ver "11.2" = false ->
        forall out err,
          popen w c [home ++ "/bin/sqlplus"; "/nolog"]
                (OracleDatapatch.environ_sid q) OracleDatapatch.datapatch_sql
          = (0%Z, out, err) ->
          OracleDatapatch.main q w t
          = ((tr0 ++ tr
                ++ [Popen [(home ++ "/bin/sqlplus")%string; "/nolog"]
                          (OracleDatapatch.environ_sid q)
                          OracleDatapatch.datapatch_sql])%list,
             ExitJson ("Datapatch run successfully for database: "
                         ++ OracleDatapatch.db_name q) true)).
Proof.
  intros q w t home tr0 ver tr v Hh Hcx Hv Hc Hf c.
  rewrite (datapatch_main_run q w t home tr0 ver tr v Hh Hcx Hv Hc).
  rewrite Hf. fold c. split.
  - intros Hgt out err Hrun.
    unfold OracleDatapatch.run_datapatch. rewrite Hgt.
    unfold bind, ask. rewrite Hrun. cbn [Z.eqb negb].
    destruct (Py.contains "Patch installation complete" out).
    + destruct (String.eqb (OracleDatapatch.output q) "short"); cbn;
        eexists; reflexivity.
    + cbn. eexists; reflexivity.
  - intros Hgt out err Hrun.
    unfold OracleDatapatch.run_datapatch. rewrite Hgt.
    unfold bind, ask. rewrite Hrun. reflexivity.
Qed.

Lemma datapatch_reports_change_by_the_output_witness :
  let q :=
    {| OracleDatapatch.oracle_home := Some "/opt/db/a";
       OracleDatapatch.db_name := "orcl";
       OracleDatapatch.sid := None;
       OracleDatapatch.db_unique_name := None;
       OracleDatapatch.fail_on_db_not_exist := true;
       OracleDatapatch.output := "short";
       OracleDatapatch.environ_sid := "" |} in
  exists msg,
    OracleDatapatch.main q (Sample.standalone "ARCHIVELOG" "NO" "NO") 0
    = ([RunCommand "/opt/db/a/bin/sqlplus -V";
        RunCommand "/opt/db/a/OPatch/datapatch -verbose"],
       ExitJson msg false).
Proof.
  intros q.
  exact (proj1 (datapatch_reports_change_by_the_output
                  q (Sample.standalone "ARCHIVELOG" "NO" "NO") 0 "/opt/db/a"
                  [RunCommand "/opt/db/a/bin/sqlplus -V"] "12.2" [] Py.PyTrue
                  eq_refl eq_refl eq_refl eq_refl eq_refl)
               eq_refl "SQL*Plus: Release 12.2.0.1.0 Production" "" eq_refl).
Defined.
